(** * bumper MQTT server: broker plugin, helper bot and proxy relay

    A shallow embedding of [src/bumper/mqttserver.py]: the helper bot
    ([MQTTHelperBot]), the proxy-mode upstream client
    ([BumperProxyModeMQTTClient.get_msg]) and the broker plugin
    ([BumperMQTTServer_Plugin]).

    Python strings are [string]: a text is kept as the bytes of its UTF-8
    encoding, so [bytes.decode("utf-8")] is a check and [str.encode()] the
    identity; [str.split], [str.join], [str.strip] and the [in] test on
    strings are written out below.  Timestamps are whole seconds; the naive
    local datetimes the code computes deadlines with are written out after
    CPython's [datetime].  Dictionaries ([proxyclients],
    [eco_helper_names], [_users], the device registry) are [gmap]s keyed by
    strings; the response buffer [command_responses] is a [list], with
    Python's index-based list iterator and [list.remove] written out.
    Exceptions are an explicit outcome of every operation. *)

From Stdlib Require Import String Ascii ZArith List Bool Lia.
From stdpp Require Import base option list strings gmap.

Local Open Scope string_scope.
Local Open Scope list_scope.
Local Open Scope Z_scope.

(** ** Python string operations *)

Module PyStr.

(** [s.split(sep)] for a one-character separator: never the empty list. *)
Fixpoint split (sep : ascii) (s : string) : list string :=
  match s with
  | EmptyString => [EmptyString]
  | String c s' =>
      if Ascii.eqb c sep then EmptyString :: split sep s'
      else match split sep s' with
           | [] => [String c EmptyString]
           | seg :: segs => String c seg :: segs
           end
  end.

(** [sep.join(segs)]. *)
Fixpoint join (sep : string) (segs : list string) : string :=
  match segs with
  | [] => EmptyString
  | [seg] => seg
  | seg :: segs' => seg +:+ sep +:+ join sep segs'
  end.

(** [needle in hay] on strings: substring test. *)
Fixpoint contains (needle hay : string) : bool :=
  String.prefix needle hay ||
  match hay with
  | EmptyString => false
  | String _ hay' => contains needle hay'
  end.

(** Occurrence of one character. *)
Fixpoint has_char (c : ascii) (s : string) : bool :=
  match s with
  | EmptyString => false
  | String d s' => Ascii.eqb d c || has_char c s'
  end.

(** Truthiness of a string: non-empty. *)
Definition truthy (s : string) : bool :=
  match s with EmptyString => false | _ => true end.

Definition slash : ascii := "/"%char.
Definition at_sign : ascii := "@"%char.

End PyStr.

(** ** Decoding bytes *)

Module PyBytes.

(** Well-formed UTF-8, as the strict decoder of [bytes.decode("utf-8")]
    accepts it: [pending] continuation bytes are still due, the next one
    within [lo..hi].  Overlong forms, surrogates and code points above
    U+10FFFF are refused through the range of the second byte. *)
Fixpoint well_formed (pending : nat) (lo hi : N) (s : string) : bool :=
  match s with
  | EmptyString => match pending with O => true | S _ => false end
  | String c s' =>
      let b := N_of_ascii c in
      match pending with
      | O =>
          if (b <=? 127)%N then well_formed 0 128 191 s'
          else if ((194 <=? b) && (b <=? 223))%N then well_formed 1 128 191 s'
          else if (b =? 224)%N then well_formed 2 160 191 s'
          else if (b =? 237)%N then well_formed 2 128 159 s'
          else if ((225 <=? b) && (b <=? 239))%N then well_formed 2 128 191 s'
          else if (b =? 240)%N then well_formed 3 144 191 s'
          else if ((241 <=? b) && (b <=? 243))%N then well_formed 3 128 191 s'
          else if (b =? 244)%N then well_formed 3 128 143 s'
          else false
      | S n =>
          if ((lo <=? b) && (b <=? hi))%N then well_formed n 128 191 s'
          else false
      end
  end.

(** The byte string decodes. *)
Definition utf8 (b : string) : bool := well_formed 0 128 191 b.

End PyBytes.

(** ** Naive local datetimes *)

(** The standard library's [datetime] as the code uses it: a naive
    [datetime] holds a wall-clock reading of the host's local time, kept
    here as the seconds that reading is after 1970-01-01 00:00:00. *)
Module PyTime.

(** The host's time zone: the offset of local time from UTC, in seconds,
    at each instant. *)
Definition Zone : Type := Z -> Z.

Definition utc : Zone := fun _ => 0.

(** [datetime.fromtimestamp(u)]; [datetime.now()] is this at the instant
    of the call. *)
Definition fromtimestamp (tz : Zone) (u : Z) : Z := u + tz u.

Definition max_fold_seconds : Z := 24 * 3600.

(** [d.timestamp()] for a naive [d] with [fold = 0], after CPython's
    [datetime._mktime]: solve [d = fromtimestamp(u)] for [u].  Where the
    wall clock shows a reading twice (clocks set back) the earlier instant
    is taken; where it never shows it (clocks set forward) the later of
    the two candidates. *)
Definition timestamp (tz : Zone) (t : Z) : Z :=
  let local := fromtimestamp tz in
  let a := local t - t in
  let u1 := t - a in
  let t1 := local u1 in
  let b := if t1 =? t
           then local (u1 - max_fold_seconds) - (u1 - max_fold_seconds)
           else t1 - u1 in
  if (t1 =? t) && (a =? b) then u1
  else
    let u2 := t - b in
    let t2 := local u2 in
    if t2 =? t then u2
    else if t1 =? t then u1
    else Z.max u1 u2.

(** [(datetime.fromtimestamp(u) + timedelta(seconds=s)).timestamp()]: the
    sum of a [datetime] and a [timedelta] is a naive [datetime] with
    [fold = 0]. *)
Definition after (tz : Zone) (u s : Z) : Z :=
  timestamp tz (fromtimestamp tz u + s).

End PyTime.

(** ** Data model *)

(** Exceptions raised by the modelled code. *)
Inductive Exn : Type :=
| IndexError | KeyError | NameError | ValueError | TypeError
| AttributeError | JSONDecodeError | CancelledError | UnicodeDecodeError.

(** One entry of [command_responses]: the dict
    [{"time": ..., "topic": ..., "payload": ...}].  [time.time()] is a
    float in the source; the clock is an integer number of seconds here. *)
Record Msg : Type := mkMsg {
  msg_time : Z;
  msg_topic : string;
  msg_payload : string
}.

#[global] Instance Msg_eq_dec : EqDecision Msg.
Proof. solve_decision. Defined.

(** Device registry entries ([bumper.bot_add], [bumper.client_add]). *)
Record Bot : Type := mkBot {
  bot_sn : option string;
  bot_did : string;
  bot_class : string;
  bot_resource : string;
  bot_company : string;
  bot_mqtt_connection : bool
}.

Record Client : Type := mkClient {
  client_userid : string;
  client_realm : string;
  client_resource : string;
  client_mqtt_connection : bool
}.

(** A [BumperProxyModeMQTTClient]: what the plugin reads of it is
    [_connected_state._value]. *)
Record ProxyClient : Type := mkProxyClient {
  connected_state : bool
}.

(** The helper bot's [Client] attribute, down to [Client._handler.writer]. *)
Record ClientProtocolHandler : Type := mkHandler {
  writer : option unit
}.

Record MQTTClient : Type := mkMQTTClient {
  handler : option ClientProtocolHandler
}.

Inductive Logger : Type := mqttserverlog | helperbotlog | boterrorlog | proxymodelog.
Inductive Level : Type := debug | info | error | exception.

(** Calls that leave the process, and log lines. *)
Inductive Event : Type :=
| EvBotAdd (sn : option string) (did devclass resource company : string)
| EvClientAdd (userid realm resource : string)
| EvBotSetMqtt (did : string) (connected : bool)
| EvClientSetMqtt (resource : string) (connected : bool)
| EvUpstreamConnect (client_id : string) (ok : bool)
| EvCreateTaskGetMsg (client_id : string)
| EvUpstreamPublish (client_id topic data : string)
| EvUpstreamDisconnect (client_id : string)
| EvHelperPublish (topic data : string)
| EvLog (logger : Logger) (level : Level) (text : string).

(** The mutable state the three classes share. *)
Record World : Type := mkWorld {
  bots : gmap string Bot;                    (* device registry, by did *)
  clients : gmap string Client;              (* device registry, by resource *)
  helper_client : option MQTTClient;         (* MQTTHelperBot.Client *)
  command_responses : list Msg;              (* MQTTHelperBot.command_responses *)
  proxyclients : gmap string ProxyClient;    (* class attribute of the plugin *)
  eco_helper_names : gmap string string;     (* class attribute, one dict for all proxy clients *)
  trace : list Event
}.

Definition empty_world : World :=
  mkWorld ∅ ∅ None [] ∅ ∅ [].

(** ** Outcomes and the state-and-exception monad *)

Inductive Outcome (A : Type) : Type :=
| Ret (a : A) (w : World)
| Raise (e : Exn) (w : World)
| Exit (code : Z) (w : World).

Arguments Ret {A} a w.
Arguments Raise {A} e w.
Arguments Exit {A} code w.

Definition M (A : Type) : Type := World -> Outcome A.

#[global] Instance M_ret : MRet M := fun A a w => Ret a w.

#[global] Instance M_bind : MBind M := fun A B f m w =>
  match m w with
  | Ret a w' => f a w'
  | Raise e w' => Raise e w'
  | Exit c w' => Exit c w'
  end.

Definition raise {A : Type} (e : Exn) : M A := fun w => Raise e w.
Definition sys_exit {A : Type} (code : Z) : M A := fun w => Exit code w.
Definition get : M World := fun w => Ret w w.
Definition put (w : World) : M unit := fun _ => Ret tt w.
Definition modify (f : World -> World) : M unit := fun w => Ret tt (f w).

(** [try: body  except Exception: handler].  [SystemExit] is not an
    [Exception] and passes through. *)
Definition try_except {A : Type} (body : M A) (handler : Exn -> M A) : M A :=
  fun w =>
    match body w with
    | Raise e w' => handler e w'
    | o => o
    end.

Definition world_of {A : Type} (o : Outcome A) : World :=
  match o with Ret _ w | Raise _ w | Exit _ w => w end.

(** [l[i]] on a list. *)
Definition index {A : Type} (l : list A) (i : nat) : M A :=
  match l !! i with
  | Some x => mret x
  | None => raise IndexError
  end.

Definition emit (e : Event) : M unit :=
  modify (fun w => mkWorld (bots w) (clients w) (helper_client w)
                     (command_responses w) (proxyclients w)
                     (eco_helper_names w) (trace w ++ [e])).

Definition log (l : Logger) (lv : Level) (text : string) : M unit :=
  emit (EvLog l lv text).

Definition set_command_responses (buf : list Msg) : M unit :=
  modify (fun w => mkWorld (bots w) (clients w) (helper_client w)
                     buf (proxyclients w) (eco_helper_names w) (trace w)).

Definition set_proxyclients (pc : gmap string ProxyClient) : M unit :=
  modify (fun w => mkWorld (bots w) (clients w) (helper_client w)
                     (command_responses w) pc (eco_helper_names w) (trace w)).

Definition set_eco_helper_names (names : gmap string string) : M unit :=
  modify (fun w => mkWorld (bots w) (clients w) (helper_client w)
                     (command_responses w) (proxyclients w) names (trace w)).

Definition set_bots (b : gmap string Bot) : M unit :=
  modify (fun w => mkWorld b (clients w) (helper_client w)
                     (command_responses w) (proxyclients w)
                     (eco_helper_names w) (trace w)).

Definition set_clients (c : gmap string Client) : M unit :=
  modify (fun w => mkWorld (bots w) c (helper_client w)
                     (command_responses w) (proxyclients w)
                     (eco_helper_names w) (trace w)).

(** ** External collaborators *)

(** Deployment settings and capabilities the plugin reads: the [bumper]
    module globals, the plugin's [auth_config] and [_users], passlib's
    [pwd_context.verify], [json.loads] and the host's local time.  [None]
    from [pwd_verify] or [json_loads] stands for the library raising. *)
Record Config (Json : Type) : Type := mkConfig {
  bumper_proxy_mode : bool;
  use_auth : bool;
  mqtt_server : string;             (* config_proxyMode_getServerIP("mqtt_server", "") *)
  users : gmap string string;       (* self._users *)
  allow_anonymous : option bool;    (* auth_config.get("allow-anonymous", True) *)
  check_authcode : string -> option string -> bool;
  pwd_verify : option string -> string -> option bool;
  upstream_accepts : string -> bool;  (* whether connect() to the vendor cloud succeeds *)
  json_loads : string -> option Json;
  json_dumps : Json -> string;
  py_str : Json -> string;            (* str(value) *)
  utcoffset : PyTime.Zone             (* the local time behind datetime.now() *)
}.

Arguments bumper_proxy_mode {Json} c.
Arguments use_auth {Json} c.
Arguments mqtt_server {Json} c.
Arguments users {Json} c.
Arguments allow_anonymous {Json} c.
Arguments check_authcode {Json} c.
Arguments pwd_verify {Json} c.
Arguments upstream_accepts {Json} c.
Arguments json_loads {Json} c.
Arguments json_dumps {Json} c.
Arguments py_str {Json} c.
Arguments utcoffset {Json} c.

(** The device registry behind [bumper.bot_add], [bot_get],
    [bot_set_mqtt], [client_add], [client_get] and [client_set_mqtt] is
    not part of the sources at hand.  It is taken from the spec: a
    key-value store with upsert, get and set-connected per device
    identity, bots by did and clients by resource.  Every call that
    changes it is also recorded in the trace with the arguments the plugin
    passes. *)

Definition mark_bot (connected : bool) (b : Bot) : Bot :=
  mkBot (bot_sn b) (bot_did b) (bot_class b) (bot_resource b) (bot_company b)
        connected.

Definition mark_client (connected : bool) (c : Client) : Client :=
  mkClient (client_userid c) (client_realm c) (client_resource c) connected.

(** Modelled from the spec: [bumper.bot_add] is missing; it is the
    spec's [upsertBot], which registers or updates the entry of [did] and
    keeps its live-connection flag. *)
Definition bot_add (sn : option string) (did devclass resource company : string) : M unit :=
  w ← get;
  let live := from_option bot_mqtt_connection false (bots w !! did) in
  set_bots (<[did := mkBot sn did devclass resource company live]> (bots w));;
  emit (EvBotAdd sn did devclass resource company).

(** Modelled from the spec: [bumper.bot_get] is missing; it is the
    spec's [getBot], the entry of [did] or [None]. *)
Definition bot_get (did : string) : M (option Bot) :=
  w ← get; mret (bots w !! did).

(** Modelled from the spec: [bumper.bot_set_mqtt] is missing; it is the
    spec's [setBotConnected], which sets the live-connection flag of an
    existing entry. *)
Definition bot_set_mqtt (did : string) (connected : bool) : M unit :=
  w ← get;
  set_bots (alter (mark_bot connected) did (bots w));;
  emit (EvBotSetMqtt did connected).

(** Modelled from the spec: [bumper.client_add] is missing; it is the
    spec's [upsertClient]. *)
Definition client_add (userid realm resource : string) : M unit :=
  w ← get;
  let live := from_option client_mqtt_connection false (clients w !! resource) in
  set_clients (<[resource := mkClient userid realm resource live]> (clients w));;
  emit (EvClientAdd userid realm resource).

(** Modelled from the spec: [bumper.client_get] is missing; it is the
    spec's [getClient]. *)
Definition client_get (resource : string) : M (option Client) :=
  w ← get; mret (clients w !! resource).

(** Modelled from the spec: [bumper.client_set_mqtt] is missing; it is
    the spec's [setClientConnected]. *)
Definition client_set_mqtt (resource : string) (connected : bool) : M unit :=
  w ← get;
  set_clients (alter (mark_client connected) resource (clients w));;
  emit (EvClientSetMqtt resource connected).

(** ** MQTTHelperBot *)

Definition wait_resp_timeout_seconds : Z := 60.

(** The decoded reply: [json.loads(payload)] or [str(payload)]. *)
Inductive RespPayload (Json : Type) : Type :=
| PJson (j : Json)
| PStr (s : string).

Arguments PJson {Json} j.
Arguments PStr {Json} s.

(** The dict [send_command] and [wait_for_resp] return; an absent key is
    [None]. *)
Record Result (Json : Type) : Type := mkResult {
  res_id : string;
  res_ret : string;
  res_resp : option (RespPayload Json);
  res_errno : option Z;
  res_debug : option string
}.

Arguments mkResult {Json} _ _ _ _ _.
Arguments res_id {Json} r.
Arguments res_ret {Json} r.
Arguments res_resp {Json} r.
Arguments res_errno {Json} r.
Arguments res_debug {Json} r.

Definition ok_result {Json : Type} (requestid : string) (p : RespPayload Json) : Result Json :=
  mkResult requestid "ok" (Some p) None None.

Definition timeout_result {Json : Type} (requestid : string) : Result Json :=
  mkResult requestid "fail" None (Some 500) (Some "wait for response timed out").

Definition exception_result {Json : Type} (requestid : string) : Result Json :=
  mkResult requestid "fail" None (Some 500)
           (Some "exception occurred please check bumper logs").

(** [lst.remove(x)]: drops the first element equal to [x]; [ValueError]
    when there is none. *)
Fixpoint list_remove (x : Msg) (l : list Msg) : option (list Msg) :=
  match l with
  | [] => None
  | y :: l' =>
      if decide (y = x) then Some l'
      else (fun r => y :: r) <$> list_remove x l'
  end.

Definition remove_response (msg : Msg) : M unit :=
  w ← get;
  match list_remove msg (command_responses w) with
  | Some buf => set_command_responses buf
  | None => raise ValueError
  end.

(** One pass of the waiting loop: what the clock reads at the loop test,
    whether the sleep is cancelled, and what the other tasks (message
    hooks, other waiters) do to the shared state during the sleep. *)
Record Tick : Type := mkTick {
  tick_clock : Z;
  tick_cancelled : bool;
  tick_others : World -> World
}.

(** The command dict [cmdjson]; a missing key is [None]. *)
Record Cmd (Json : Type) : Type := mkCmd {
  cmdName : option string;
  toId : option string;
  toType : option string;
  toRes : option string;
  payloadType : option string;
  payload : option Json
}.

Arguments mkCmd {Json} _ _ _ _ _ _.
Arguments cmdName {Json} c.
Arguments toId {Json} c.
Arguments toType {Json} c.
Arguments toRes {Json} c.
Arguments payloadType {Json} c.
Arguments payload {Json} c.

(** [d[key]] on a dict. *)
Definition getitem {A : Type} (field : option A) : M A :=
  match field with
  | Some v => mret v
  | None => raise KeyError
  end.

Section HelperBot.

Context {Json : Type} (cfg : Config Json).

(** The body of [for msg in self.command_responses] in [wait_for_resp]
    (lines 78-87): [Some resp] when the loop returns, [None] when it runs
    to the end.  [topic[6] == "helperbot" and topic[10] == requestid]
    reads [topic[10]] only when the first test holds. *)
Fixpoint scan_responses (requestid : string) (msgs : list Msg)
  : M (option (Result Json)) :=
  match msgs with
  | [] => mret None
  | msg :: rest =>
      let topic := PyStr.split PyStr.slash (msg_topic msg) in
      seg6 ← index topic 6;
      hit ← (if String.eqb seg6 "helperbot"
             then seg10 ← index topic 10; mret (String.eqb seg10 requestid)
             else mret false);
      if hit : bool then
        seg11 ← index topic 11;
        resppayload ← (if String.eqb seg11 "j"
                       then match json_loads cfg (msg_payload msg) with
                            | Some j => mret (PJson j)
                            | None => raise JSONDecodeError
                            end
                       else mret (PStr (msg_payload msg)));
        remove_response msg;;
        mret (Some (ok_result requestid resppayload))
      else scan_responses requestid rest
  end.

Definition poll_responses (requestid : string) : M (option (Result Json)) :=
  w ← get;
  if bool_decide (0 < length (command_responses w))%nat
  then scan_responses requestid (command_responses w)
  else mret None.

(** [while time.time() < t_end: await asyncio.sleep(0.1); ...] (lines
    75-87).  The schedule supplies the clock readings; the result is
    [None] when the schedule ends before the clock has passed [t_end]. *)
Fixpoint wait_loop (sched : list Tick) (t_end : Z) (requestid : string)
    (w : World) : option (Outcome (option (Result Json))) :=
  match sched with
  | [] => None
  | tk :: sched' =>
      if bool_decide (tick_clock tk < t_end) then
        if tick_cancelled tk then Some (Raise CancelledError w)
        else match poll_responses requestid (tick_others tk w) with
             | Ret None w' => wait_loop sched' t_end requestid w'
             | o => Some o
             end
      else Some (Ret None w)
  end.

(** [t_end] of [wait_for_resp] (lines 71-73):
    [(datetime.now() + timedelta(seconds=60)).timestamp()], with
    [datetime.now()] read at [now]. *)
Definition t_end (now : Z) : Z :=
  PyTime.after (utcoffset cfg) now wait_resp_timeout_seconds.

(** [wait_for_resp] (lines 69-98): both handlers fall through to the
    [return] of the failure dict. *)
Definition wait_for_resp (sched : list Tick) (now : Z) (requestid : string)
    (w : World) : option (Outcome (Result Json)) :=
  match wait_loop sched (t_end now) requestid w with
  | None => None
  | Some (Ret (Some resp) w') => Some (Ret resp w')
  | Some (Ret None w') => Some (Ret (timeout_result requestid) w')
  | Some (Raise CancelledError w') =>
      Some ((log helperbotlog debug "wait_for_resp cancelled by asyncio";;
             mret (timeout_result requestid)) w')
  | Some (Raise _ w') =>
      Some ((log helperbotlog exception "wait_for_resp";;
             mret (timeout_result requestid)) w')
  | Some (Exit c w') => Some (Exit c w')
  end.

(** [ttopic] of [send_command]; the keys are read in the order of the
    [format] arguments. *)
Definition command_topic (cmdjson : Cmd Json) (requestid : string) : M string :=
  name ← getitem (cmdName cmdjson);
  to_id ← getitem (toId cmdjson);
  to_type ← getitem (toType cmdjson);
  to_res ← getitem (toRes cmdjson);
  ptype ← getitem (payloadType cmdjson);
  mret ("iot/p2p/" +:+ name +:+ "/helperbot/bumper/helperbot/" +:+ to_id
        +:+ "/" +:+ to_type +:+ "/" +:+ to_res +:+ "/q/" +:+ requestid
        +:+ "/" +:+ ptype).

Definition publish_command (cmdjson : Cmd Json) (requestid : string) : M unit :=
  ttopic ← command_topic cmdjson requestid;
  ptype ← getitem (payloadType cmdjson);
  if String.eqb ptype "x" then
    p ← getitem (payload cmdjson);
    emit (EvHelperPublish ttopic (py_str cfg p))
  else if String.eqb ptype "j" then
    p ← getitem (payload cmdjson);
    emit (EvHelperPublish ttopic (json_dumps cfg p))
  else mret tt.

(** [self.Client._handler.writer]. *)
Definition client_writer : M (option unit) :=
  w ← get;
  match helper_client w with
  | None => raise AttributeError
  | Some c =>
      match handler c with
      | None => raise AttributeError
      | Some h => mret (writer h)
      end
  end.

(** [send_command] (lines 100-129): the returned value is [None] where
    the function runs off its end without a [return]. *)
Definition send_command (sched : list Tick) (now : Z) (cmdjson : Cmd Json)
    (requestid : string) (w : World)
  : option (Outcome (option (Result Json))) :=
  match client_writer w with
  | Ret (Some _) w0 =>
      match publish_command cmdjson requestid w0 with
      | Ret _ w1 =>
          match wait_for_resp sched now requestid w1 with
          | None => None
          | Some (Ret resp w2) => Some (Ret (Some resp) w2)
          | Some (Raise _ w2) =>
              Some ((log helperbotlog exception "send_command";;
                     mret (Some (exception_result requestid))) w2)
          | Some (Exit c w2) => Some (Exit c w2)
          end
      | Raise _ w1 =>
          Some ((log helperbotlog exception "send_command";;
                 mret (Some (exception_result requestid))) w1)
      | Exit c w1 => Some (Exit c w1)
      end
  | Ret None w0 => Some (Ret None w0)
  | Raise e w0 => Some (Raise e w0)
  | Exit c w0 => Some (Exit c w0)
  end.

End HelperBot.

(** ** BumperProxyModeMQTTClient *)

(** An MQTT application message; [data] is the payload, a byte string. *)
Record Message : Type := mkMessage {
  topic : string;
  data : string;
  qos : Z
}.

(** Reading a name that no scope binds. *)
Definition unbound_name (name : string) : M string := raise NameError.

(** [b.decode("utf-8")]: the text, kept as the bytes that encode it. *)
Definition decode_utf8 (b : string) : M string :=
  if PyBytes.utf8 b then mret b else raise UnicodeDecodeError.

(** [bumper.mqtt_helperbot.Client.publish(topic, data, QOS_0)]: [Client]
    is [None] until [start_helper_bot] has created it.  On a client object
    hbmqtt's [publish] is taken to go through. *)
Definition helper_publish (topic data : string) : M unit :=
  w ← get;
  match helper_client w with
  | None => raise AttributeError
  | Some _ => emit (EvHelperPublish topic data)
  end.

(** The body of the [while] loop of [get_msg] (lines 301-317), for one
    delivered message: [bumper.mqtt_helperbot.Client.publish] republishes
    on the local broker.  In
    [self.eco_helper_names[ttopic[10]] = ttopic[3]] the right-hand side is
    read first. *)
Definition relay_from_upstream (message : Message) : M unit :=
  msgdata ← decode_utf8 (data message);
  log proxymodelog info "Message Received From Ecovacs";;
  let ttopic := PyStr.split PyStr.slash (topic message) in
  seg1 ← index ttopic 1;
  topic' ← (if String.eqb seg1 "p2p" then
              sender ← index ttopic 3;
              reqid ← index ttopic 10;
              w ← get;
              set_eco_helper_names (<[reqid := sender]> (eco_helper_names w));;
              let ttopic := <[3%nat := "proxyhelper"]> ttopic in
              log proxymodelog info "Converted Topic";;
              mret (PyStr.join "/" ttopic)
            else mret (topic message));
  log proxymodelog info "Proxy Forward Message to Robot";;
  helper_publish topic' msgdata.

Definition is_connected (client_id : string) : M bool :=
  w ← get;
  mret (from_option connected_state false (proxyclients w !! client_id)).

(** [get_msg] (lines 298-320) of the proxy client stored under
    [client_id], run on the messages the upstream connection delivers; any
    exception ends the loop. *)
Fixpoint get_msg_loop (client_id : string) (delivered : list Message) : M unit :=
  match delivered with
  | [] => mret tt
  | message :: rest =>
      up ← is_connected client_id;
      if up : bool then
        relay_from_upstream message;;
        get_msg_loop client_id rest
      else mret tt
  end.

Definition get_msg (client_id : string) (delivered : list Message) : M unit :=
  try_except (get_msg_loop client_id delivered)
             (fun _ => log proxymodelog error "get_msg Exception").

(** hbmqtt's [MQTTClient.disconnect] on the proxy client of [client_id]:
    the connected state is cleared. *)
Definition upstream_disconnect (client_id : string) : M unit :=
  w ← get;
  set_proxyclients (alter (fun _ => mkProxyClient false) client_id (proxyclients w));;
  emit (EvUpstreamDisconnect client_id).

(** ** BumperMQTTServer_Plugin *)

Record Session : Type := mkSession {
  username : option string;
  password : option string;
  client_id : string
}.

(** Truthiness of an optional string: neither [None] nor empty. *)
Definition truthy_opt (s : option string) : bool :=
  from_option PyStr.truthy false s.

Section Plugin.

Context {Json : Type} (cfg : Config Json).

(** The proxy-mode part of the bot path of [authenticate] (lines
    366-389); a failed [connect] is logged and tolerated. *)
Definition open_proxy (session : Session) : M unit :=
  (if PyStr.truthy (mqtt_server cfg)
   then log proxymodelog info "Using server"
   else log proxymodelog error "No server found";;
        log proxymodelog exception "Exiting due to no MQTT Server configured";;
        sys_exit 1);;
  log proxymodelog info "Proxy Bot to MQTT";;
  w ← get;
  set_proxyclients (<[client_id session := mkProxyClient false]> (proxyclients w));;
  (if upstream_accepts cfg (client_id session)
   then w ← get;
        set_proxyclients (<[client_id session := mkProxyClient true]> (proxyclients w));;
        emit (EvUpstreamConnect (client_id session) true)
   else emit (EvUpstreamConnect (client_id session) false);;
        log mqttserverlog error "Exception connecting with proxy to ecovacs");;
  log proxymodelog info "Proxy Bot Connected";;
  emit (EvCreateTaskGetMsg (client_id session)).

(** The [try] block of [authenticate] (lines 343-419); the result is
    [authenticated].  The arguments of [bot_add] are evaluated before the
    call, so a missing segment raises before anything is registered. *)
Definition authenticate_try (session : Session) : M bool :=
  authenticated ←
    (if PyStr.contains "@" (client_id session) then
       let didsplit := PyStr.split PyStr.at_sign (client_id session) in
       details ← index didsplit 1;
       if negb (PyStr.contains "ecouser" details || PyStr.contains "bumper" details)
       then
         let tmpbotdetail := PyStr.split PyStr.slash details in
         did ← index didsplit 0;
         devclass ← index tmpbotdetail 0;
         resource ← index tmpbotdetail 1;
         bot_add (username session) did devclass resource "eco-ng";;
         log mqttserverlog info "Bumper Authentication Success - Bot";;
         (if bumper_proxy_mode cfg then open_proxy session else mret tt);;
         mret true
       else
         let tmpclientdetail := PyStr.split PyStr.slash details in
         userid ← index didsplit 0;
         realm ← index tmpclientdetail 0;
         resource ← index tmpclientdetail 1;
         if String.eqb userid "helperbot" then
           log mqttserverlog info "Bumper Authentication Success - Helperbot";;
           mret true
         else if check_authcode cfg userid (password session) || negb (use_auth cfg)
         then
           client_add userid realm resource;;
           log mqttserverlog info "Bumper Authentication Success - Client";;
           mret true
         else mret false
     else mret false);
  if truthy_opt (username session) && negb authenticated then
    match users cfg !! default "" (username session) with
    | Some hash =>
        if PyStr.truthy hash then
          match pwd_verify cfg (password session) hash with
          | Some verified =>
              log mqttserverlog info
                  (if verified : bool then "File Authentication Success"
                   else "File Authentication Failed");;
              mret verified
          | None => raise ValueError
          end
        else
          log mqttserverlog info "File Authentication Failed - No Entry";;
          mret authenticated
    | None =>
        log mqttserverlog info "File Authentication Failed - No Entry";;
        mret authenticated
    end
  else mret authenticated.

(** [authenticate] (lines 340-435): any exception of the [try] block
    resets [authenticated]; the anonymous check comes after it. *)
Definition authenticate (session : Session) : M bool :=
  authenticated ←
    try_except (authenticate_try session)
               (fun _ => log mqttserverlog exception "Session";; mret false);
  if default true (allow_anonymous cfg) && negb authenticated then
    log mqttserverlog info "Anonymous Authentication Success";;
    mret true
  else mret authenticated.

(** [_set_client_connected] (lines 471-482). *)
Definition _set_client_connected (client_id : string) (connected : bool) : M unit :=
  let didsplit := PyStr.split PyStr.at_sign client_id in
  did ← index didsplit 0;
  bot ← bot_get did;
  match bot with
  | Some b => bot_set_mqtt (bot_did b) connected
  | None =>
      details ← index didsplit 1;
      clientresource ← index (PyStr.split PyStr.slash details) 1;
      client ← client_get clientresource;
      match client with
      | Some c => client_set_mqtt (client_resource c) connected
      | None => mret tt
      end
  end.

(** The proxy-mode block of [on_broker_message_received] (lines
    489-511): the reverse path of the relay.  The log lines (498, 501) and
    the publish (506-508) read [msgdata], a name that neither the hook nor
    the module binds: the hook's decoded payload is [data_decoded], and
    [msgdata] is a local of [get_msg]. *)
Definition forward_to_upstream (client_id : string) (message : Message) : M unit :=
  let segs := PyStr.split PyStr.slash (topic message) in
  seg3 ← index segs 3;
  if negb (String.eqb seg3 "proxyhelper") then
    seg6 ← index segs 6;
    ttopic_join ←
      (if String.eqb seg6 "proxyhelper" then
         let ttopic := segs in
         reqid ← index ttopic 10;
         w ← get;
         let original := default "" (eco_helper_names w !! reqid) in
         set_eco_helper_names (delete reqid (eco_helper_names w));;
         let ttopic := <[6%nat := original]> ttopic in
         let ttopic_join := PyStr.join "/" ttopic in
         msgdata ← unbound_name "msgdata";
         log proxymodelog info "Bot Message Converted Topic";;
         mret ttopic_join
       else
         let ttopic_join := topic message in
         msgdata ← unbound_name "msgdata";
         log proxymodelog info "Bot Message From";;
         mret ttopic_join);
    try_except
      (msgdata ← unbound_name "msgdata";
       log proxymodelog info "Proxy Forward Message to Ecovacs";;
       emit (EvUpstreamPublish client_id ttopic_join msgdata))
      (fun _ => log proxymodelog error "Forwarding to Ecovacs Exception")
  else mret tt.

(** The classification chain of [on_broker_message_received] (lines
    513-533). *)
Definition classify (now : Z) (message : Message) (data_decoded : string)
  : M unit :=
  let topic_split := PyStr.split PyStr.slash (topic message) in
  seg6 ← index topic_split 6;
  if String.eqb seg6 "helperbot" then
    log helperbotlog debug "Received Response";;
    w ← get;
    set_command_responses
      (command_responses w ++ [mkMsg now (topic message) data_decoded])
  else
    seg3 ← index topic_split 3;
    if String.eqb seg3 "helperbot" then
      log helperbotlog debug "Send Command"
    else
      seg1 ← index topic_split 1;
      if String.eqb seg1 "atr" then
        seg2 ← index topic_split 2;
        if String.eqb seg2 "errors"
        then log boterrorlog error "Received Error"
        else log helperbotlog debug "Received Broadcast"
      else log helperbotlog debug "Received Message".

(** [expire_time] of the pruning loop (lines 537-539):
    [(datetime.fromtimestamp(msg["time"]) + timedelta(seconds=60)).timestamp()]
    in the local time [tz] of the host. *)
Definition expire_time (tz : PyTime.Zone) (msg : Msg) : Z :=
  PyTime.after tz (msg_time msg) wait_resp_timeout_seconds.

(** [time.time() > expire_time]. *)
Definition expired (tz : PyTime.Zone) (now : Z) (msg : Msg) : bool :=
  bool_decide (expire_time tz msg < now).

(** [for msg in command_responses: if expired: command_responses.remove(msg)]
    (lines 535-542).  Python's list iterator keeps an index into the list
    it walks: each step reads the element at the index in the list as it is
    then and advances the index, also after a removal. *)
Fixpoint prune_loop (tz : PyTime.Zone) (fuel : nat) (now : Z) (i : nat)
  : M unit :=
  match fuel with
  | O => mret tt
  | S fuel' =>
      w ← get;
      match command_responses w !! i with
      | None => mret tt
      | Some msg =>
          (if expired tz now msg then
             log helperbotlog debug "Pruning Message Due To Expiration";;
             remove_response msg
           else mret tt);;
          prune_loop tz fuel' now (S i)
      end
  end.

Definition prune (tz : PyTime.Zone) (now : Z) : M unit :=
  w ← get;
  prune_loop tz (length (command_responses w)) now 0.

(** [on_broker_message_received] (lines 484-542); [now] is what
    [time.time()] reads during the call.  The payload is decoded first
    (line 487), outside any [try]. *)
Definition on_broker_message_received (now : Z) (client_id : string)
    (message : Message) : M unit :=
  data_decoded ← decode_utf8 (data message);
  (if bumper_proxy_mode cfg then
     w ← get;
     if bool_decide (is_Some (proxyclients w !! client_id))
     then forward_to_upstream client_id message
     else mret tt
   else mret tt);;
  classify now message data_decoded;;
  prune (utcoffset cfg) now.

Definition on_broker_client_connected (client_id : string) : M unit :=
  _set_client_connected client_id true.

(** [on_broker_client_disconnected] (lines 544-548). *)
Definition on_broker_client_disconnected (client_id : string) : M unit :=
  (if bumper_proxy_mode cfg then
     w ← get;
     if bool_decide (is_Some (proxyclients w !! client_id))
     then upstream_disconnect client_id
     else mret tt
   else mret tt);;
  _set_client_connected client_id false.

End Plugin.

(** ** Vocabulary of the statements *)

(** Segment [i] of a topic. *)
Definition segment (i : nat) (t : string) : option string :=
  PyStr.split PyStr.slash t !! i.

(** [client_id] reads [<id>@<realm>/<resource>], the three parts free of
    ['@'] and of ['/'] where the grammar needs it. *)
Definition parses_as (client_id id realm resource : string) : Prop :=
  client_id = id +:+ "@" +:+ realm +:+ "/" +:+ resource /\
  PyStr.has_char PyStr.at_sign id = false /\
  PyStr.has_char PyStr.at_sign realm = false /\
  PyStr.has_char PyStr.at_sign resource = false /\
  PyStr.has_char PyStr.slash realm = false /\
  PyStr.has_char PyStr.slash resource = false.

(** A buffered record answers [requestid]: its destination segment is
    the helper bot and its request-id segment is [requestid]. *)
Definition matches (requestid : string) (m : Msg) : bool :=
  bool_decide (segment 6 (msg_topic m) = Some "helperbot") &&
  bool_decide (segment 10 (msg_topic m) = Some requestid).

(** The scan steps over a record: it has the segments the test reads and
    does not answer [requestid]. *)
Definition passes (requestid : string) (m : Msg) : bool :=
  match segment 6 (msg_topic m) with
  | None => false
  | Some seg6 =>
      if String.eqb seg6 "helperbot" then
        match segment 10 (msg_topic m) with
        | None => false
        | Some seg10 => negb (String.eqb seg10 requestid)
        end
      else true
  end.

(** The shared state after the other tasks of a schedule have run. *)
Fixpoint run_others (sched : list Tick) (w : World) : World :=
  match sched with
  | [] => w
  | tk :: sched' => run_others sched' (tick_others tk w)
  end.

(** Polls inside the window that find nothing to return and nothing to
    stumble on. *)
Fixpoint quiet_polls (requestid : string) (t_end : Z) (sched : list Tick)
    (w : World) : Prop :=
  match sched with
  | [] => True
  | tk :: sched' =>
      tick_clock tk < t_end /\ tick_cancelled tk = false /\
      Forall (fun m => passes requestid m = true)
             (command_responses (tick_others tk w)) /\
      quiet_polls requestid t_end sched' (tick_others tk w)
  end.


(** The clock passes the deadline while the schedule lasts. *)
Definition reaches (t_end : Z) (sched : list Tick) : Prop :=
  Exists (fun tk => t_end <= tick_clock tk) sched.

(** What a run of the message hook leaves alone: everything but the
    buffer and the trace, which only grows. *)
Definition buffer_step (w w' : World) : Prop :=
  bots w' = bots w /\ clients w' = clients w /\
  helper_client w' = helper_client w /\
  proxyclients w' = proxyclients w /\
  eco_helper_names w' = eco_helper_names w /\
  (forall e, e ∈ trace w -> e ∈ trace w').

Section Vocabulary.

Context {Json : Type} (cfg : Config Json).

(** The reply payload as [wait_for_resp] decodes it. *)
Definition decode (m : Msg) : option (RespPayload Json) :=
  match segment 11 (msg_topic m) with
  | None => None
  | Some ptype =>
      if String.eqb ptype "j"
      then PJson <$> json_loads cfg (msg_payload m)
      else Some (PStr (msg_payload m))
  end.

(** The file-based check of the spec's step 4: a username was supplied,
    the credential store knows it, and the password verifies against the
    stored hash. *)
Definition file_check (session : Session) : bool :=
  truthy_opt (username session) &&
  match users cfg !! default "" (username session) with
  | Some hash =>
      PyStr.truthy hash &&
      bool_decide (pwd_verify cfg (password session) hash = Some true)
  | None => false
  end.

Definition anonymous_check : bool := default true (allow_anonymous cfg).

(** A client the relay does not handle: proxy mode is off, or the client
    has no entry in [proxyclients]. *)
Definition not_relayed (client_id : string) (w : World) : Prop :=
  bumper_proxy_mode cfg = false \/ proxyclients w !! client_id = None.

End Vocabulary.

(** ** A sample deployment, for the concrete runs *)

(** JSON documents are kept as text; the sample parser accepts what
    starts with an opening brace. *)
Definition sample_json_loads (s : string) : option string :=
  if String.prefix "{" s then Some s else None.

(** Credential enforcement on, no anonymous access, one user in the
    password file. *)
Definition sample_config (proxy : bool) (server : string) : Config string :=
  mkConfig string proxy true server {[ "alice" := "hash-of-secret" ]}
    (Some false)
    (fun _ _ => false)
    (fun pw hash =>
       Some (bool_decide (pw = Some "secret" /\ hash = "hash-of-secret")))
    (fun _ => true)
    sample_json_loads (fun j => j) (fun j => j) PyTime.utc.

Definition sample_bot_id : string := "did1@ls1ok3/wC3g".

Definition sample_reply_topic : string :=
  "iot/p2p/GetInfo/did1/ls1ok3/wC3g/helperbot/bumper/helperbot/p/REQ1/j".

Definition buffer_world (buf : list Msg) : World :=
  mkWorld ∅ ∅ None buf ∅ ∅ [].

Definition connected_helper : option MQTTClient :=
  Some (mkMQTTClient (Some (mkHandler (Some tt)))).

(** The bot of [sample_bot_id] registered and relayed, the helper bot
    connected, one request of the upstream helper [HELPERNAME] in flight. *)
Definition relayed_world : World :=
  mkWorld {[ "did1" := mkBot (Some "SN1") "did1" "ls1ok3" "wC3g" "eco-ng" true ]}
          ∅ connected_helper []
          {[ sample_bot_id := mkProxyClient true ]}
          {[ "REQ1" := "HELPERNAME" ]} [].

Definition idle : World -> World := fun w => w.

(** Another task's message hook leaving one more record in the buffer. *)
Definition deliver (m : Msg) : World -> World :=
  fun w => world_of (set_command_responses (command_responses w ++ [m]) w).

Definition sample_cmd : Cmd string :=
  mkCmd (Some "GetInfo") (Some "did1") (Some "ls1ok3") (Some "wC3g")
        (Some "j") (Some "{}").

Definition sample_request_topic : string :=
  "iot/p2p/GetInfo/helperbot/bumper/helperbot/did1/ls1ok3/wC3g/q/REQ1/j".

Definition other_reply : Msg :=
  mkMsg 0 "iot/p2p/GetInfo/did1/ls1ok3/wC3g/helperbot/bumper/helperbot/p/REQ0/x"
        "raw".

(** The helper bot connected, an unrelated reply in the buffer. *)
Definition helper_world (published : list Event) : World :=
  mkWorld ∅ ∅ connected_helper [other_reply] ∅ ∅ published.

(** ** What the pruning pass computes *)

(** The pruning pass on a buffer without repeated records, written on the
    list itself: an expired record is dropped and the record after it is
    stepped over, expired or not. *)
Fixpoint skip_prune (tz : PyTime.Zone) (now : Z) (l : list Msg) : list Msg :=
  match l with
  | [] => []
  | x :: l' =>
      if expired tz now x then
        match l' with
        | [] => []
        | y :: l'' => y :: skip_prune tz now l''
        end
      else x :: skip_prune tz now l'
  end.

(** No expired record is directly followed by another one. *)
Fixpoint isolated (tz : PyTime.Zone) (now : Z) (l : list Msg) : Prop :=
  match l with
  | x :: (y :: _) as l' =>
      (expired tz now x = true -> expired tz now y = false) /\ isolated tz now l'
  | _ => True
  end.

(** ** The password file *)

Module PyText.

Definition bytes (l : list nat) : string :=
  fold_right (fun n s => String (ascii_of_nat n) s) EmptyString l.

(** The code points for which [str.isspace()] holds, each in its UTF-8
    encoding: tab to carriage return, the four separators and the space;
    U+0085 and U+00A0; U+1680; U+2000 to U+200A; U+2028, U+2029 and
    U+202F; U+205F; U+3000. *)
Definition whitespace : list string :=
  map bytes
    [[9]; [10]; [11]; [12]; [13]; [28]; [29]; [30]; [31]; [32];
     [194; 133]; [194; 160];
     [225; 154; 128];
     [226; 128; 128]; [226; 128; 129]; [226; 128; 130]; [226; 128; 131];
     [226; 128; 132]; [226; 128; 133]; [226; 128; 134]; [226; 128; 135];
     [226; 128; 136]; [226; 128; 137]; [226; 128; 138];
     [226; 128; 168]; [226; 128; 169]; [226; 128; 175];
     [226; 129; 159];
     [227; 128; 128]]%nat.

(** [s] is one character, and [s.isspace()]. *)
Definition is_space (s : string) : bool :=
  existsb (String.eqb s) whitespace.

(** [s.lstrip()]: leading white space is one, two or three bytes a
    character. *)
Fixpoint lstrip (s : string) : string :=
  match s with
  | EmptyString => EmptyString
  | String c1 s1 =>
      if is_space (String c1 EmptyString) then lstrip s1
      else
        match s1 with
        | EmptyString => s
        | String c2 s2 =>
            if is_space (String c1 (String c2 EmptyString)) then lstrip s2
            else
              match s2 with
              | EmptyString => s
              | String c3 s3 =>
                  if is_space (String c1 (String c2 (String c3 EmptyString)))
                  then lstrip s3
                  else s
              end
        end
  end.

(** [s.rstrip()]: once what follows is stripped, a character that is left
    standing alone at the end goes if it is white space. *)
Fixpoint rstrip (s : string) : string :=
  match s with
  | EmptyString => EmptyString
  | String c s' =>
      let r := String c (rstrip s') in
      if is_space r then EmptyString else r
  end.

(** [s.strip()]. *)
Definition strip (s : string) : string := lstrip (rstrip s).

(** [s.split(sep, maxsplit)] for a one-character separator: at most
    [maxsplit] cuts, the rest of the string is the last piece. *)
Fixpoint split_max (sep : ascii) (maxsplit : nat) (s : string) {struct s}
  : list string :=
  match maxsplit with
  | O => [s]
  | S n =>
      match s with
      | EmptyString => [EmptyString]
      | String c s' =>
          if Ascii.eqb c sep then EmptyString :: split_max sep n s'
          else match split_max sep maxsplit s' with
               | [] => [String c EmptyString]
               | seg :: segs => String c seg :: segs
               end
      end
  end.

Definition colon : ascii := ":"%char.

End PyText.

(** What [auth_config.get('password-file')] and [open] give: no path
    configured, no such file, or the lines of the file. *)
Inductive PasswordFile : Type :=
| NoPasswordFile
| MissingFile
| FileLines (lines : list string).

(** The [for l in f] loop of [_read_password_file] (lines 443-449) on the
    dict [_users]: the result is the dict as the loop leaves it and the
    exception that ended it, if any.  The tuple assignment
    [(username, pwd_hash) = line.split(sep=":", maxsplit=3)] needs exactly
    two pieces. *)
Fixpoint read_password_lines (lines : list string) (users : gmap string string)
  : gmap string string * option Exn :=
  match lines with
  | [] => (users, None)
  | l :: rest =>
      let line := PyText.strip l in
      if negb (String.prefix "#" line) then
        match PyText.split_max PyText.colon 3 line with
        | [username; pwd_hash] =>
            read_password_lines rest
              (if PyStr.truthy username then <[username := pwd_hash]> users
               else users)
        | _ => (users, Some ValueError)
        end
      else read_password_lines rest users
  end.

(** [_read_password_file] (lines 437-452): a missing file is a warning. *)
Definition _read_password_file (password_file : PasswordFile)
    (users : gmap string string) : gmap string string * option Exn :=
  match password_file with
  | NoPasswordFile => (users, None)
  | MissingFile => (users, None)
  | FileLines lines => read_password_lines lines users
  end.

(** The [_users] of a plugin after [__init__] (lines 324-336), which
    starts from an empty dict and logs whatever the reading raises. *)
Definition plugin_users (password_file : PasswordFile) : gmap string string :=
  fst (_read_password_file password_file ∅).

(** A deployment whose credential store is what the plugin read. *)
Definition with_users {Json : Type} (cfg : Config Json)
    (u : gmap string string) : Config Json :=
  mkConfig Json (bumper_proxy_mode cfg) (use_auth cfg) (mqtt_server cfg) u
    (allow_anonymous cfg) (check_authcode cfg) (pwd_verify cfg)
    (upstream_accepts cfg) (json_loads cfg) (json_dumps cfg) (py_str cfg)
    (utcoffset cfg).

(** A key of the request topic is missing from the command. *)
Definition lacks_topic_key {Json : Type} (cmdjson : Cmd Json) : Prop :=
  cmdName cmdjson = None \/ toId cmdjson = None \/ toType cmdjson = None \/
  toRes cmdjson = None \/ payloadType cmdjson = None.

(** What a run of the relay leaves alone: everything but the mapping of
    request ids and the trace. *)
Definition relay_step (w w' : World) : Prop :=
  bots w' = bots w /\ clients w' = clients w /\
  helper_client w' = helper_client w /\
  command_responses w' = command_responses w /\
  proxyclients w' = proxyclients w.

(** An entry line of the password file: [user:hash] once stripped, the
    user not empty and not starting a comment, no further colon. *)
Definition entry_line (l u h : string) : Prop :=
  PyText.strip l = u +:+ ":" +:+ h /\
  u <> "" /\ String.prefix "#" u = false /\
  PyStr.has_char PyText.colon u = false /\
  PyStr.has_char PyText.colon h = false.

(** ** More sample deployments *)

(** No credential enforcement, anonymous access left at its default. *)
Definition lenient_config : Config string :=
  mkConfig string false false "" ∅ None
    (fun _ _ => false) (fun _ _ => None) (fun _ => true)
    sample_json_loads (fun j => j) (fun j => j) PyTime.utc.

(** Proxy mode with a vendor cloud that refuses every connection. *)
Definition offline_config : Config string :=
  mkConfig string true true "mq.example" ∅ (Some false)
    (fun _ _ => false) (fun _ _ => None) (fun _ => false)
    sample_json_loads (fun j => j) (fun j => j) PyTime.utc.

(** A host whose clocks are set back one hour at the instant [change]:
    summer time, one hour ahead of UTC, before it and UTC from then on. *)
Definition set_back (change : Z) : PyTime.Zone :=
  fun u => if u <? change then 3600 else 0.

(** A host whose clocks are set forward one hour at the instant [change]. *)
Definition set_forward (change : Z) : PyTime.Zone :=
  fun u => if u <? change then 0 else 3600.

(** The sample deployment on a host whose clocks are set back at 7200. *)
Definition autumn_config : Config string :=
  mkConfig string false true "" ∅ (Some false)
    (fun _ _ => false) (fun _ _ => None) (fun _ => true)
    sample_json_loads (fun j => j) (fun j => j) (set_back 7200).

Definition sample_client_id : string := "user1@ecouser/res1".

(** The phone app of [sample_client_id] registered, no bot. *)
Definition client_world : World :=
  mkWorld ∅ {[ "res1" := mkClient "user1" "ecouser" "res1" false ]}
          None [] ∅ ∅ [].

Definition newline : string := String (ascii_of_nat 10) EmptyString.

Definition sample_password_lines : list string :=
  ["# users of the broker" +:+ newline; "alice:old-hash" +:+ newline].

(** ** The operations on small inputs *)

Example split_topic :
  PyStr.split PyStr.slash "iot/p2p//x" = ["iot"; "p2p"; ""; "x"].
Proof. reflexivity. Qed.

Example split_empty : PyStr.split PyStr.slash "" = [""].
Proof. reflexivity. Qed.

Example split_client_id :
  PyStr.split PyStr.at_sign "did1@ls1ok3/wC3g" = ["did1"; "ls1ok3/wC3g"].
Proof. reflexivity. Qed.

Example join_topic : PyStr.join "/" ["iot"; "p2p"; ""; "x"] = "iot/p2p//x".
Proof. reflexivity. Qed.

Example contains_in_resource : PyStr.contains "bumper" "ls1ok3/bumper1" = true.
Proof. reflexivity. Qed.

Example contains_not : PyStr.contains "ecouser" "ls1ok3/wC3g" = false.
Proof. reflexivity. Qed.

Example remove_first_equal :
  list_remove (mkMsg 1 "t" "p") [mkMsg 0 "t" "p"; mkMsg 1 "t" "p"; mkMsg 1 "t" "p"]
  = Some [mkMsg 0 "t" "p"; mkMsg 1 "t" "p"].
Proof. reflexivity. Qed.

Example remove_absent : list_remove (mkMsg 1 "t" "p") [mkMsg 0 "t" "p"] = None.
Proof. reflexivity. Qed.

Example prune_three_expired :
  command_responses
    (world_of (prune PyTime.utc 1000 (buffer_world [mkMsg 0 "a" ""; mkMsg 1 "b" ""; mkMsg 2 "c" ""])))
  = [mkMsg 1 "b" ""].
Proof. reflexivity. Qed.

Example prune_keeps_fresh :
  command_responses
    (world_of (prune PyTime.utc 50 (buffer_world [mkMsg 0 "a" ""; mkMsg 1 "b" ""])))
  = [mkMsg 0 "a" ""; mkMsg 1 "b" ""].
Proof. reflexivity. Qed.

Example utf8_text : PyBytes.utf8 "{}" = true.
Proof. reflexivity. Qed.

Example utf8_two_bytes : PyBytes.utf8 (PyText.bytes [195; 169]%nat) = true.
Proof. reflexivity. Qed.

Example utf8_stray_byte : PyBytes.utf8 (PyText.bytes [255]%nat) = false.
Proof. reflexivity. Qed.

Example utf8_overlong : PyBytes.utf8 (PyText.bytes [192; 128]%nat) = false.
Proof. reflexivity. Qed.

Example utf8_surrogate : PyBytes.utf8 (PyText.bytes [237; 160; 128]%nat) = false.
Proof. reflexivity. Qed.

Example utf8_truncated : PyBytes.utf8 (PyText.bytes [226; 128]%nat) = false.
Proof. reflexivity. Qed.

Example strip_line :
  PyText.strip (PyText.bytes [32; 194; 160; 97; 58; 98; 226; 128; 168; 10]%nat)
  = "a:b".
Proof. reflexivity. Qed.

Example strip_keeps_inner : PyText.strip " a b " = "a b".
Proof. reflexivity. Qed.

(** In the hour the wall clock repeats, a minute ahead is read back as
    fifty-nine minutes ago; in the minute before that hour starts over, as
    an hour and a minute ahead. *)
Example after_in_repeated_hour : PyTime.after (set_back 7200) 7300 60 = 7300 - 3540.
Proof. reflexivity. Qed.

Example after_before_repeated_hour :
  PyTime.after (set_back 7200) 7170 60 = 7170 + 3660.
Proof. reflexivity. Qed.

Example after_across_set_forward :
  PyTime.after (set_forward 7200) 7170 60 = 7170 + 60.
Proof. reflexivity. Qed.

Example command_topic_sample :
  command_topic sample_cmd "REQ1" empty_world = Ret sample_request_topic empty_world.
Proof. reflexivity. Qed.

(** ** Facts about the string operations *)

Section StringFacts.

Import PyStr.

Lemma split_not_nil sep s : split sep s <> [].
Proof.
  destruct s as [|c s]; simpl; [discriminate|].
  destruct (Ascii.eqb c sep); [discriminate|].
  destruct (split sep s); discriminate.
Qed.

Lemma split_no_sep sep s : has_char sep s = false -> split sep s = [s].
Proof.
  induction s as [|c s IH]; simpl; [reflexivity|].
  intros H. apply orb_false_iff in H as [Hc Hs].
  rewrite Hc, (IH Hs). reflexivity.
Qed.

Lemma split_app_sep sep a b :
  has_char sep a = false ->
  split sep (a +:+ String sep b) = a :: split sep b.
Proof.
  induction a as [|c a IH]; simpl.
  - intros _. rewrite Ascii.eqb_refl. reflexivity.
  - intros H. apply orb_false_iff in H as [Hc Ha].
    rewrite Hc, (IH Ha). reflexivity.
Qed.

Lemma has_char_app c a b :
  has_char c (a +:+ b) = has_char c a || has_char c b.
Proof.
  induction a as [|d a IH]; simpl; [reflexivity|].
  rewrite IH. apply orb_assoc.
Qed.

Lemma prefix_empty s : String.prefix "" s = true.
Proof. destruct s; reflexivity. Qed.

Lemma contains_char c s : contains (String c "") s = has_char c s.
Proof.
  induction s as [|d s IH]; simpl; [reflexivity|].
  rewrite IH, prefix_empty.
  destruct (Ascii.ascii_dec c d) as [->|Hne].
  - rewrite Ascii.eqb_refl. reflexivity.
  - assert (Ascii.eqb d c = false) as -> by (apply Ascii.eqb_neq; congruence).
    reflexivity.
Qed.

End StringFacts.

(** ** Facts about local time *)

(** On a host whose offset from UTC never changes, a deadline [s] seconds
    ahead is [s] seconds ahead. *)
Lemma after_fixed_offset (tz : PyTime.Zone) (o u s : Z) :
  (forall v, tz v = o) -> PyTime.after tz u s = u + s.
Proof.
  intros Hc. unfold PyTime.after, PyTime.timestamp, PyTime.fromtimestamp.
  rewrite !Hc.
  replace (u + o + s - (u + o + s + o - (u + o + s)) + o) with (u + o + s) by lia.
  rewrite Z.eqb_refl. cbn [andb].
  replace (u + o + s + o - (u + o + s) =?
           u + o + s - (u + o + s + o - (u + o + s)) - PyTime.max_fold_seconds + o -
           (u + o + s - (u + o + s + o - (u + o + s)) - PyTime.max_fold_seconds))
    with true by (symmetry; apply Z.eqb_eq; lia).
  lia.
Qed.

(** The same where the offset is the same at the three instants the
    computation looks at. *)
Lemma after_steady (tz : PyTime.Zone) (u s : Z) :
  tz (u + tz u + s) = tz u ->
  tz (u + s) = tz u ->
  tz (u + s - PyTime.max_fold_seconds) = tz u ->
  PyTime.after tz u s = u + s.
Proof.
  intros H1 H2 H3. unfold PyTime.after, PyTime.timestamp, PyTime.fromtimestamp.
  cbv zeta. rewrite H1.
  replace (u + tz u + s - (u + tz u + s + tz u - (u + tz u + s))) with (u + s) by lia.
  rewrite H2, H3.
  replace (u + s + tz u =? u + tz u + s) with true by (symmetry; apply Z.eqb_eq; lia).
  replace (u + tz u + s + tz u - (u + tz u + s) =?
           u + s - PyTime.max_fold_seconds + tz u - (u + s - PyTime.max_fold_seconds))
    with true by (symmetry; apply Z.eqb_eq; lia).
  reflexivity.
Qed.

(** ** Running the monad *)

Ltac mrun :=
  repeat (progress (
    unfold mbind, M_bind, mret, M_ret, index, getitem, raise, sys_exit, get,
      put, modify, emit, log, set_bots, set_clients, set_proxyclients,
      set_eco_helper_names, set_command_responses, unbound_name;
    cbn [bots clients helper_client command_responses proxyclients
         eco_helper_names trace world_of];
    cbv beta iota)).

Section AuthFacts.
Context {Json : Type} (cfg : Config Json).

Lemma open_proxy_returns (session : Session) (w : World) :
  PyStr.truthy (mqtt_server cfg) = true ->
  exists w',
    open_proxy cfg session w = Ret tt w' /\
    bots w' = bots w /\
    (forall e, e ∈ trace w -> e ∈ trace w').
Proof.
  intros Hs. unfold open_proxy. rewrite Hs.
  destruct (upstream_accepts cfg (client_id session)); mrun;
    (eexists; split; [reflexivity|]; split; [reflexivity|]);
    intros e He; cbn [trace]; rewrite !elem_of_app; tauto.
Qed.

Lemma authenticate_bot_path (session : Session) (w : World)
    (did details devclass resource : string) :
  PyStr.contains "@" (client_id session) = true ->
  PyStr.split PyStr.at_sign (client_id session) !! 0%nat = Some did ->
  PyStr.split PyStr.at_sign (client_id session) !! 1%nat = Some details ->
  PyStr.contains "ecouser" details = false ->
  PyStr.contains "bumper" details = false ->
  PyStr.split PyStr.slash details !! 0%nat = Some devclass ->
  PyStr.split PyStr.slash details !! 1%nat = Some resource ->
  (bumper_proxy_mode cfg = true -> PyStr.truthy (mqtt_server cfg) = true) ->
  exists w' live,
    authenticate cfg session w = Ret true w' /\
    bots w' !! did = Some (mkBot (username session) did devclass resource "eco-ng" live) /\
    EvBotAdd (username session) did devclass resource "eco-ng" ∈ trace w'.
Proof.
  intros Hat H0 H1 He Hb Hc Hr Hp.
  unfold authenticate, authenticate_try, try_except.
  mrun. rewrite Hat, H1. mrun. rewrite He, Hb. cbn [negb orb]. mrun.
  rewrite H0, Hc, Hr. mrun. unfold bot_add. mrun.
  set (w1 := mkWorld _ _ _ _ _ _ _).
  assert (Hw1 : exists w2, (if bumper_proxy_mode cfg then open_proxy cfg session
                            else fun w0 => Ret tt w0) w1 = Ret tt w2 /\
                           bots w2 = bots w1 /\
                           (forall e, e ∈ trace w1 -> e ∈ trace w2)).
  { destruct (bumper_proxy_mode cfg).
    - apply open_proxy_returns. auto.
    - exists w1. auto. }
  destruct Hw1 as (w2 & -> & Hbots & Htr).
  rewrite andb_false_r. mrun. rewrite andb_false_r.
  exists w2, (from_option bot_mqtt_connection false (bots w !! did)).
  split; [reflexivity|]. split.
  - rewrite Hbots. subst w1. cbn. apply lookup_insert_eq.
  - apply Htr. subst w1. cbn. rewrite !elem_of_app, !list_elem_of_singleton. auto.
Qed.

Lemma parses_as_split (cid id realm resource : string) :
  parses_as cid id realm resource ->
  PyStr.contains "@" cid = true /\
  PyStr.split PyStr.at_sign cid = [id; realm +:+ "/" +:+ resource] /\
  PyStr.split PyStr.slash (realm +:+ "/" +:+ resource) = [realm; resource].
Proof.
  intros (-> & Hi & Hr & Hs & Hr' & Hs').
  assert (Hd : PyStr.has_char PyStr.at_sign (realm +:+ "/" +:+ resource) = false).
  { rewrite has_char_app, Hr. cbn. exact Hs. }
  split; [|split].
  - rewrite contains_char, has_char_app. cbn. apply orb_true_r.
  - change ("@" +:+ realm +:+ "/" +:+ resource)
      with (String PyStr.at_sign (realm +:+ "/" +:+ resource)).
    rewrite (split_app_sep _ _ _ Hi), (split_no_sep _ _ Hd). reflexivity.
  - change ("/" +:+ resource) with (String PyStr.slash resource).
    rewrite (split_app_sep _ _ _ Hr'), (split_no_sep _ _ Hs'). reflexivity.
Qed.

Lemma authenticate_no_slash (session : Session) (w : World) (details : string) :
  PyStr.contains "@" (client_id session) = true ->
  PyStr.split PyStr.at_sign (client_id session) !! 1%nat = Some details ->
  PyStr.has_char PyStr.slash details = false ->
  exists w', authenticate cfg session w = Ret (anonymous_check cfg) w'.
Proof.
  intros Hat H1 Hs. unfold authenticate, authenticate_try, try_except,
    anonymous_check.
  pose proof (split_not_nil PyStr.at_sign (client_id session)) as Hne.
  destruct (PyStr.split PyStr.at_sign (client_id session)) as [|did rest] eqn:Hsp;
    [congruence|].
  mrun. rewrite Hat. mrun. rewrite H1. mrun.
  rewrite (split_no_sep _ _ Hs). cbn [lookup list_lookup].
  destruct (negb _); mrun;
    destruct (default true (allow_anonymous cfg)); mrun; eauto.
Qed.

End AuthFacts.

(** ** The response buffer: removal and pruning *)

Lemma list_remove_elem (x : Msg) (l : list Msg) :
  x ∈ l -> exists l', list_remove x l = Some l' /\ S (length l') = length l.
Proof.
  induction l as [|y l IH]; intros Hx; [by apply elem_of_nil in Hx|].
  cbn. destruct (decide (y = x)) as [->|Hne].
  - eauto.
  - apply elem_of_cons in Hx as [->|Hx]; [congruence|].
    destruct (IH Hx) as (l' & -> & Hlen). cbn. eexists; split; [reflexivity|].
    cbn. lia.
Qed.

Lemma list_remove_sub (x : Msg) (l l' : list Msg) :
  list_remove x l = Some l' -> forall y, y ∈ l' -> y ∈ l.
Proof.
  revert l'. induction l as [|z l IH]; intros l' H y Hy; [discriminate|].
  cbn in H. destruct (decide (z = x)).
  - injection H as <-. by apply elem_of_cons; right.
  - destruct (list_remove x l) as [r|]; [|discriminate].
    injection H as <-. apply elem_of_cons in Hy as [->|Hy].
    + apply elem_of_cons; by left.
    + apply elem_of_cons; right. by apply (IH r).
Qed.

Lemma list_remove_skip (x : Msg) (l1 l2 : list Msg) :
  x ∉ l1 -> list_remove x (l1 ++ x :: l2) = Some (l1 ++ l2).
Proof.
  induction l1 as [|y l1 IH]; intros Hx; cbn.
  - by rewrite decide_True.
  - apply not_elem_of_cons in Hx as [Hne Hx].
    rewrite decide_False by congruence. by rewrite (IH Hx).
Qed.

Lemma buffer_step_refl w : buffer_step w w.
Proof. repeat split; auto. Qed.

Lemma buffer_step_trans w1 w2 w3 :
  buffer_step w1 w2 -> buffer_step w2 w3 -> buffer_step w1 w3.
Proof.
  intros (?&?&?&?&?&?) (?&?&?&?&?&?). repeat split; try congruence. auto.
Qed.

(** The pruning loop always runs to its end: [remove] is only called on
    an element the iterator has just read from the list. *)
Lemma prune_loop_returns (tz : PyTime.Zone) (fuel : nat) (now : Z) (i : nat) (w : World) :
  exists w',
    prune_loop tz fuel now i w = Ret tt w' /\
    buffer_step w w' /\
    (forall m, m ∈ command_responses w' -> m ∈ command_responses w).
Proof.
  revert i w. induction fuel as [|fuel IH]; intros i w; cbn [prune_loop].
  - exists w. mrun. split; [reflexivity|]. split; [apply buffer_step_refl|auto].
  - mrun. destruct (command_responses w !! i) as [msg|] eqn:Hi.
    2:{ exists w. split; [reflexivity|]. split; [apply buffer_step_refl|auto]. }
    destruct (expired tz now msg).
    + unfold remove_response. mrun.
      destruct (list_remove_elem msg (command_responses w)) as (l' & Hrm & _).
      { eapply list_elem_of_lookup_2; eauto. }
      rewrite Hrm. mrun.
      match goal with |- context [prune_loop tz fuel now (S i) ?w1] =>
        destruct (IH (S i) w1) as (w' & -> & Hst & Hsub) end.
      exists w'. split; [reflexivity|]. split.
      * eapply buffer_step_trans; [|exact Hst].
        repeat split; cbn; auto. intros e He. apply elem_of_app; auto.
      * intros m Hm. apply (list_remove_sub _ _ _ Hrm). by apply Hsub.
    + destruct (IH (S i) w) as (w' & -> & Hst & Hsub).
      exists w'. auto.
Qed.

Lemma prune_loop_fresh (tz : PyTime.Zone) (fuel : nat) (now : Z) (i : nat) (w : World) :
  Forall (fun m => expired tz now m = false) (command_responses w) ->
  prune_loop tz fuel now i w = Ret tt w.
Proof.
  intros Hall. revert i. induction fuel as [|fuel IH]; intros i; cbn [prune_loop];
    mrun; [reflexivity|].
  destruct (command_responses w !! i) as [msg|] eqn:Hi; [|reflexivity].
  rewrite Forall_forall in Hall.
  rewrite (Hall msg) by (eapply list_elem_of_lookup_2; eauto).
  apply IH.
Qed.

(** The fuel [prune] gives the loop is enough: the index passes the end
    of the list before it runs out. *)
Lemma prune_loop_fuel (tz : PyTime.Zone) (fuel extra : nat) (now : Z) (i : nat) (w : World) :
  (length (command_responses w) <= i + fuel)%nat ->
  prune_loop tz (fuel + extra) now i w = prune_loop tz fuel now i w.
Proof.
  revert i w. induction fuel as [|fuel IH]; intros i w Hlen.
  - cbn [Nat.add prune_loop]. destruct extra; [reflexivity|].
    cbn [prune_loop]. mrun.
    rewrite (lookup_ge_None_2 (command_responses w) i) by lia. reflexivity.
  - cbn [Nat.add prune_loop]. mrun.
    destruct (command_responses w !! i) as [msg|] eqn:Hi; [|reflexivity].
    destruct (expired tz now msg).
    + unfold remove_response. mrun.
      destruct (list_remove_elem msg (command_responses w)) as (l' & Hrm & Hl).
      { eapply list_elem_of_lookup_2; eauto. }
      rewrite Hrm. mrun. apply IH. cbn. lia.
    + apply IH. lia.
Qed.

(** ** The message hook *)

Section HookFacts.
Context {Json : Type} (cfg : Config Json).

Lemma classify_returns (now : Z) (message : Message) (data_decoded : string)
    (w : World) :
  (7 <= length (PyStr.split PyStr.slash (topic message)))%nat ->
  exists w',
    classify now message data_decoded w = Ret tt w' /\
    buffer_step w w' /\
    command_responses w' =
      (if bool_decide (segment 6 (topic message) = Some "helperbot")
       then command_responses w ++ [mkMsg now (topic message) data_decoded]
       else command_responses w) /\
    (segment 6 (topic message) <> Some "helperbot" ->
     segment 3 (topic message) <> Some "helperbot" ->
     segment 1 (topic message) <> Some "atr" ->
     EvLog helperbotlog debug "Received Message" ∈ trace w').
Proof.
  intros Hlen. unfold classify, segment.
  destruct (lookup_lt_is_Some_2 (PyStr.split PyStr.slash (topic message)) 6)
    as [s6 H6]; [lia|].
  destruct (lookup_lt_is_Some_2 (PyStr.split PyStr.slash (topic message)) 3)
    as [s3 H3]; [lia|].
  destruct (lookup_lt_is_Some_2 (PyStr.split PyStr.slash (topic message)) 2)
    as [s2 H2]; [lia|].
  destruct (lookup_lt_is_Some_2 (PyStr.split PyStr.slash (topic message)) 1)
    as [s1 H1]; [lia|].
  mrun. rewrite H6. mrun.
  destruct (String.eqb_spec s6 "helperbot") as [->|N6]; mrun.
  { eexists. split; [reflexivity|]. rewrite bool_decide_true by reflexivity.
    repeat split; cbn; auto; try congruence.
    intros e He. apply elem_of_app; auto. }
  rewrite bool_decide_false by congruence.
  rewrite H3. mrun.
  destruct (String.eqb_spec s3 "helperbot") as [->|N3]; mrun.
  { eexists. split; [reflexivity|].
    repeat split; cbn; auto; try congruence.
    intros e He. apply elem_of_app; auto. }
  rewrite H1. mrun.
  destruct (String.eqb_spec s1 "atr") as [->|N1]; mrun.
  { rewrite H2. mrun.
    destruct (String.eqb s2 "errors"); mrun;
      (eexists; split; [reflexivity|];
       repeat split; cbn; auto; try congruence;
       intros e He; apply elem_of_app; auto). }
  eexists. split; [reflexivity|].
  repeat split; cbn; auto.
  - intros e He. apply elem_of_app; auto.
  - intros _ _ _. apply elem_of_app. right. apply list_elem_of_singleton. reflexivity.
Qed.

(** A payload that does not decode ends the hook at its third line. *)
Lemma hook_undecodable (now : Z) (client_id : string) (message : Message)
    (w : World) :
  PyBytes.utf8 (data message) = false ->
  on_broker_message_received cfg now client_id message w =
  Raise UnicodeDecodeError w.
Proof.
  intros Hu. unfold on_broker_message_received, decode_utf8.
  rewrite Hu. reflexivity.
Qed.

Lemma hook_skips_relay (now : Z) (client_id : string) (message : Message) (w : World) :
  PyBytes.utf8 (data message) = true ->
  not_relayed cfg client_id w ->
  on_broker_message_received cfg now client_id message w =
  (classify now message (data message);; prune (utcoffset cfg) now) w.
Proof.
  intros Hu Hnr. unfold on_broker_message_received, decode_utf8.
  rewrite Hu.
  destruct Hnr as [-> | Hnone]; [reflexivity|].
  destruct (bumper_proxy_mode cfg); [|reflexivity].
  mrun. rewrite Hnone. rewrite bool_decide_false; [reflexivity|].
  intros [? ?]; discriminate.
Qed.

Lemma message_hook_returns (now : Z) (client_id : string) (message : Message) (w : World) :
  (7 <= length (PyStr.split PyStr.slash (topic message)))%nat ->
  PyBytes.utf8 (data message) = true ->
  not_relayed cfg client_id w ->
  exists w',
    on_broker_message_received cfg now client_id message w = Ret tt w' /\
    (segment 6 (topic message) <> Some "helperbot" ->
     segment 3 (topic message) <> Some "helperbot" ->
     segment 1 (topic message) <> Some "atr" ->
     EvLog helperbotlog debug "Received Message" ∈ trace w').
Proof.
  intros Hlen Hu Hnr. rewrite (hook_skips_relay _ _ _ _ Hu Hnr).
  destruct (classify_returns now message (data message) w Hlen)
    as (w1 & Hc & _ & _ & Hlog).
  mrun. rewrite Hc. unfold prune. mrun.
  destruct (prune_loop_returns (utcoffset cfg) (length (command_responses w1)) now 0 w1)
    as (w' & -> & Hst & _).
  exists w'. split; [reflexivity|].
  intros N6 N3 N1. destruct Hst as (_&_&_&_&_&Htr). apply Htr. auto.
Qed.

End HookFacts.

Section WaitFacts.
Context {Json : Type} (cfg : Config Json).

Lemma passes_not_matches requestid m :
  passes requestid m = true -> matches requestid m = false.
Proof.
  unfold passes, matches.
  destruct (segment 6 (msg_topic m)) as [s6|]; [|discriminate].
  destruct (String.eqb_spec s6 "helperbot") as [->|N6].
  - destruct (segment 10 (msg_topic m)) as [s10|]; [|discriminate].
    destruct (String.eqb_spec s10 requestid) as [->|N10]; [discriminate|].
    intros _. rewrite (bool_decide_false (Some s10 = _)) by congruence.
    apply andb_false_r.
  - intros _. rewrite bool_decide_false by congruence. reflexivity.
Qed.

Lemma scan_shape (requestid : string) (msgs : list Msg) (w : World) :
  match scan_responses cfg requestid msgs w with
  | Ret None w' => w' = w
  | Ret (Some r) _ =>
      exists m p, m ∈ msgs /\ matches requestid m = true /\
                  r = ok_result requestid p
  | Raise _ w' => w' = w
  | Exit _ _ => False
  end.
Proof.
  induction msgs as [|msg rest IH]; cbn [scan_responses]; mrun; [reflexivity|].
  unfold matches, segment.
  destruct (PyStr.split PyStr.slash (msg_topic msg) !! 6%nat) as [s6|] eqn:H6;
    mrun; [|reflexivity].
  assert (Hrest :
    match scan_responses cfg requestid rest w with
    | Ret None w' => w' = w
    | Ret (Some r) _ =>
        exists m p, m ∈ msg :: rest /\
          bool_decide (PyStr.split PyStr.slash (msg_topic m) !! 6%nat = Some "helperbot")
          && bool_decide (PyStr.split PyStr.slash (msg_topic m) !! 10%nat = Some requestid) = true /\
          r = ok_result requestid p
    | Raise _ w' => w' = w
    | Exit _ _ => False
    end).
  { destruct (scan_responses cfg requestid rest w) as [[r|] w'| |]; auto.
    destruct IH as (m & p & Hm & Hmatch & ->).
    exists m, p. split; [by apply elem_of_cons; right|]. auto. }
  destruct (String.eqb_spec s6 "helperbot") as [->|N6]; mrun; [|exact Hrest].
  destruct (PyStr.split PyStr.slash (msg_topic msg) !! 10%nat) as [s10|] eqn:H10;
    mrun; [|reflexivity].
  destruct (String.eqb_spec s10 requestid) as [->|N10]; mrun; [|exact Hrest].
  destruct (PyStr.split PyStr.slash (msg_topic msg) !! 11%nat) as [s11|] eqn:H11;
    mrun; [|reflexivity].
  assert (Hhit : forall p : RespPayload Json,
    match (remove_response msg;; mret (Some (ok_result requestid p))) w with
    | Ret None w' => w' = w
    | Ret (Some r) _ =>
        exists m p, m ∈ msg :: rest /\
          bool_decide (PyStr.split PyStr.slash (msg_topic m) !! 6%nat = Some "helperbot")
          && bool_decide (PyStr.split PyStr.slash (msg_topic m) !! 10%nat = Some requestid) = true /\
          r = ok_result requestid p
    | Raise _ w' => w' = w
    | Exit _ _ => False
    end).
  { intros p. unfold remove_response. mrun.
    destruct (list_remove msg (command_responses w)); mrun; [|reflexivity].
    exists msg, p. split; [by apply elem_of_cons; left|].
    rewrite H6, H10, !bool_decide_true by reflexivity. auto. }
  destruct (String.eqb s11 "j").
  - destruct (json_loads cfg (msg_payload msg)) as [j|]; mrun; [|reflexivity].
    apply (Hhit (PJson j)).
  - mrun. apply (Hhit (PStr (msg_payload msg))).
Qed.

Lemma scan_quiet (requestid : string) (msgs : list Msg) (w : World) :
  Forall (fun m => passes requestid m = true) msgs ->
  scan_responses cfg requestid msgs w = Ret None w.
Proof.
  induction 1 as [|msg rest Hp _ IH]; cbn [scan_responses]; mrun; [reflexivity|].
  unfold passes, segment in Hp.
  destruct (PyStr.split PyStr.slash (msg_topic msg) !! 6%nat) as [s6|];
    [|discriminate]. mrun.
  destruct (String.eqb s6 "helperbot"); mrun; [|exact IH].
  destruct (PyStr.split PyStr.slash (msg_topic msg) !! 10%nat) as [s10|];
    [|discriminate]. mrun.
  destruct (String.eqb s10 requestid); [discriminate|]. exact IH.
Qed.

Lemma scan_found (requestid : string) (l1 l2 : list Msg) (msg : Msg)
    (p : RespPayload Json) (buf : list Msg) (w : World) :
  Forall (fun m => passes requestid m = true) l1 ->
  matches requestid msg = true ->
  decode cfg msg = Some p ->
  list_remove msg (command_responses w) = Some buf ->
  scan_responses cfg requestid (l1 ++ msg :: l2) w =
  (set_command_responses buf;; mret (Some (ok_result requestid p))) w.
Proof.
  intros Hq Hm Hd Hrm. induction Hq as [|m0 rest Hp _ IH]; cbn [app scan_responses].
  - unfold matches, decode, segment in *.
    apply andb_true_iff in Hm as [H6 H10].
    apply bool_decide_eq_true in H6, H10.
    mrun. rewrite H6. mrun. cbn [String.eqb Ascii.eqb Bool.eqb]. mrun.
    rewrite H10. mrun. rewrite String.eqb_refl.
    destruct (PyStr.split PyStr.slash (msg_topic msg) !! 11%nat) as [s11|];
      [|discriminate]. mrun.
    unfold remove_response.
    destruct (String.eqb s11 "j").
    + destruct (json_loads cfg (msg_payload msg)) as [j|]; [|discriminate].
      injection Hd as <-. mrun. rewrite Hrm. reflexivity.
    + injection Hd as <-. mrun. rewrite Hrm. reflexivity.
  - unfold passes, segment in Hp. mrun.
    destruct (PyStr.split PyStr.slash (msg_topic m0) !! 6%nat) as [s6|];
      [|discriminate]. mrun.
    destruct (String.eqb s6 "helperbot"); mrun; [|exact IH].
    destruct (PyStr.split PyStr.slash (msg_topic m0) !! 10%nat) as [s10|];
      [|discriminate]. mrun.
    destruct (String.eqb s10 requestid); [discriminate|]. exact IH.
Qed.

End WaitFacts.

Section WaitLoopFacts.
Context {Json : Type} (cfg : Config Json).

Lemma poll_shape (requestid : string) (w : World) :
  match poll_responses cfg requestid w with
  | Ret None w' => w' = w
  | Ret (Some r) _ =>
      exists m p, m ∈ command_responses w /\ matches requestid m = true /\
                  r = ok_result requestid p
  | Raise _ w' => w' = w
  | Exit _ _ => False
  end.
Proof.
  unfold poll_responses. mrun.
  destruct (bool_decide _); [apply scan_shape | reflexivity].
Qed.

Lemma poll_quiet (requestid : string) (w : World) :
  Forall (fun m => passes requestid m = true) (command_responses w) ->
  poll_responses cfg requestid w = Ret None w.
Proof.
  intros Hq. unfold poll_responses. mrun.
  destruct (bool_decide _); [by apply scan_quiet | reflexivity].
Qed.

Lemma poll_found (requestid : string) (l1 l2 : list Msg) (msg : Msg)
    (p : RespPayload Json) (w : World) :
  command_responses w = l1 ++ msg :: l2 ->
  Forall (fun m => passes requestid m = true) l1 ->
  matches requestid msg = true ->
  decode cfg msg = Some p ->
  poll_responses cfg requestid w =
  (set_command_responses (l1 ++ l2);; mret (Some (ok_result requestid p))) w.
Proof.
  intros Hbuf Hq Hm Hd. unfold poll_responses. mrun.
  rewrite bool_decide_true by (rewrite Hbuf, length_app; cbn; lia).
  rewrite Hbuf at 1. apply scan_found; auto.
  rewrite Hbuf. apply list_remove_skip.
  intros Hin. rewrite Forall_forall in Hq. specialize (Hq _ Hin).
  apply passes_not_matches in Hq. congruence.
Qed.

(** The loop ends once the clock has passed the deadline. *)
Lemma wait_loop_ends (sched : list Tick) (t_end : Z) (requestid : string) (w : World) :
  reaches t_end sched ->
  is_Some (wait_loop cfg sched t_end requestid w).
Proof.
  intros Hr. revert w. induction Hr as [tk sched Hnow | tk sched _ IH]; intros w;
    cbn [wait_loop].
  - rewrite bool_decide_false by lia. eauto.
  - destruct (bool_decide _); [|eauto].
    destruct (tick_cancelled tk); [eauto|].
    destruct (poll_responses cfg requestid (tick_others tk w)) as [[r|] w'| |];
      eauto.
Qed.

(** What the loop can end with. *)
Lemma wait_loop_shape (sched : list Tick) (t_end : Z) (requestid : string)
    (w : World) (o : Outcome (option (Result Json))) :
  wait_loop cfg sched t_end requestid w = Some o ->
  match o with
  | Ret None _ => True
  | Ret (Some r) _ => exists p, r = ok_result requestid p
  | Raise _ _ => True
  | Exit _ _ => False
  end.
Proof.
  revert w. induction sched as [|tk sched IH]; intros w; cbn [wait_loop];
    [discriminate|].
  destruct (bool_decide _); [|by intros [= <-]].
  destruct (tick_cancelled tk); [by intros [= <-]|].
  pose proof (poll_shape requestid (tick_others tk w)) as Hp.
  destruct (poll_responses cfg requestid (tick_others tk w)) as [[r|] w'| |].
  - intros [= <-]. destruct Hp as (m & p & _ & _ & ->). eauto.
  - apply IH.
  - by intros [= <-].
  - contradiction.
Qed.


Lemma wait_loop_found (pre post : list Tick) (tk : Tick) (t_end : Z)
    (requestid : string) (w : World) (l1 l2 : list Msg) (msg : Msg)
    (p : RespPayload Json) :
  quiet_polls requestid t_end pre w ->
  tick_clock tk < t_end ->
  tick_cancelled tk = false ->
  command_responses (tick_others tk (run_others pre w)) = l1 ++ msg :: l2 ->
  Forall (fun m => passes requestid m = true) l1 ->
  matches requestid msg = true ->
  decode cfg msg = Some p ->
  wait_loop cfg (pre ++ tk :: post) t_end requestid w =
  Some ((set_command_responses (l1 ++ l2);; mret (Some (ok_result requestid p)))
          (tick_others tk (run_others pre w))).
Proof.
  revert w. induction pre as [|tk0 pre IH]; intros w Hq Hc Hx Hbuf Hl1 Hm Hd;
    cbn [app wait_loop run_others] in *.
  - rewrite bool_decide_true by exact Hc. rewrite Hx.
    rewrite (poll_found requestid l1 l2 msg p _ Hbuf Hl1 Hm Hd). reflexivity.
  - destruct Hq as (Hc0 & Hx0 & Hq0 & Hrest).
    rewrite bool_decide_true by exact Hc0. rewrite Hx0.
    rewrite (poll_quiet _ _ Hq0). by apply IH.
Qed.

End WaitLoopFacts.

Section ConnectionFacts.
Context {Json : Type} (cfg : Config Json).

Lemma set_client_connected_bot (client_id did : string) (b : Bot)
    (connected : bool) (w : World) :
  PyStr.split PyStr.at_sign client_id !! 0%nat = Some did ->
  bots w !! did = Some b ->
  bot_did b = did ->
  _set_client_connected client_id connected w =
  Ret tt (mkWorld (alter (mark_bot connected) did (bots w)) (clients w)
            (helper_client w) (command_responses w) (proxyclients w)
            (eco_helper_names w) (trace w ++ [EvBotSetMqtt did connected])).
Proof.
  intros H0 Hb Hd. unfold _set_client_connected, bot_get, bot_set_mqtt.
  mrun. rewrite H0. mrun. rewrite Hb. mrun. rewrite Hd. reflexivity.
Qed.

Lemma set_client_connected_form (cid id realm resource : string)
    (connected : bool) (w : World) :
  parses_as cid id realm resource ->
  exists w', _set_client_connected cid connected w = Ret tt w'.
Proof.
  intros Hid. destruct (parses_as_split _ _ _ _ Hid) as (_ & Hsp & Hsl).
  unfold _set_client_connected, bot_get, bot_set_mqtt, client_get, client_set_mqtt.
  mrun. rewrite Hsp. cbn [lookup list_lookup]. mrun.
  destruct (bots w !! id) as [b|]; mrun; [eauto|].
  rewrite Hsl. cbn [lookup list_lookup]. mrun.
  destruct (clients w !! resource) as [c|]; mrun; eauto.
Qed.

Lemma disconnect_returns_form (client_id id realm resource : string) (w : World) :
  parses_as client_id id realm resource ->
  exists w', on_broker_client_disconnected cfg client_id w = Ret tt w'.
Proof.
  intros Hid. unfold on_broker_client_disconnected.
  assert (Hpre : exists w1,
    (if bumper_proxy_mode cfg
     then w0 ← get;
          if bool_decide (is_Some (proxyclients w0 !! client_id))
          then upstream_disconnect client_id else mret tt
     else mret tt) w = Ret tt w1).
  { destruct (bumper_proxy_mode cfg); [|by eexists].
    unfold upstream_disconnect. mrun.
    destruct (bool_decide _); mrun; by eexists. }
  destruct Hpre as (w1 & Hpre).
  unfold mbind at 1. unfold M_bind at 1. rewrite Hpre.
  destruct (set_client_connected_form client_id id realm resource false w1 Hid)
    as (w' & ->). eauto.
Qed.

Lemma disconnect_relayed_bot (client_id did : string) (b : Bot) (w : World) :
  bumper_proxy_mode cfg = true ->
  is_Some (proxyclients w !! client_id) ->
  PyStr.split PyStr.at_sign client_id !! 0%nat = Some did ->
  bots w !! did = Some b ->
  bot_did b = did ->
  on_broker_client_disconnected cfg client_id w =
  Ret tt (mkWorld (alter (mark_bot false) did (bots w)) (clients w)
            (helper_client w) (command_responses w)
            (alter (fun _ => mkProxyClient false) client_id (proxyclients w))
            (eco_helper_names w)
            (trace w ++ [EvUpstreamDisconnect client_id; EvBotSetMqtt did false])).
Proof.
  intros Hpm Hin H0 Hb Hd. unfold on_broker_client_disconnected.
  rewrite Hpm. unfold upstream_disconnect. mrun.
  rewrite bool_decide_true by exact Hin. mrun.
  erewrite set_client_connected_bot; [|exact H0|exact Hb|exact Hd].
  cbn [bots clients helper_client command_responses proxyclients
       eco_helper_names trace].
  rewrite <- app_assoc. reflexivity.
Qed.

End ConnectionFacts.

(** ** Authentication *)

(** C1 (amended): for every session whose client id reads
    [<id>@<realm>/<resource>] and whose part after the ['@'] contains
    neither ["ecouser"] nor ["bumper"], provided that in proxy mode an
    upstream MQTT server is configured, [authenticate] returns true and the
    device registry holds, under the did [id], a Bot entry with serial =
    the session's username, device class = [realm], resource = [resource]
    and the protocol tag ["eco-ng"]; the [bot_add] call is in the trace. *)
Theorem authenticate_bot_registers {Json : Type} (cfg : Config Json)
    (session : Session) (w : World) (id realm resource : string) :
  parses_as (client_id session) id realm resource ->
  PyStr.contains "ecouser" (realm +:+ "/" +:+ resource) = false ->
  PyStr.contains "bumper" (realm +:+ "/" +:+ resource) = false ->
  (bumper_proxy_mode cfg = true -> PyStr.truthy (mqtt_server cfg) = true) ->
  exists w' live,
    authenticate cfg session w = Ret true w' /\
    bots w' !! id =
      Some (mkBot (username session) id realm resource "eco-ng" live) /\
    EvBotAdd (username session) id realm resource "eco-ng" ∈ trace w'.
Proof.
  intros Hid He Hb Hp.
  destruct (parses_as_split _ _ _ _ Hid) as (Hat & Hsp & Hsl).
  apply (authenticate_bot_path cfg session w id (realm +:+ "/" +:+ resource));
    auto; rewrite ?Hsp, ?Hsl; reflexivity.
Qed.

Lemma authenticate_bot_registers_witness :
  exists w' live,
    authenticate (sample_config true "mq.example")
      (mkSession (Some "SN1") (Some "pw") sample_bot_id) empty_world
    = Ret true w' /\
    bots w' !! "did1" =
      Some (mkBot (Some "SN1") "did1" "ls1ok3" "wC3g" "eco-ng" live) /\
    EvBotAdd (Some "SN1") "did1" "ls1ok3" "wC3g" "eco-ng" ∈ trace w'.
Proof.
  apply (authenticate_bot_registers (sample_config true "mq.example")
           (mkSession (Some "SN1") (Some "pw") sample_bot_id) empty_world
           "did1" "ls1ok3" "wC3g").
  - repeat split; reflexivity.
  - reflexivity.
  - reflexivity.
  - intros _. reflexivity.
Defined.

(** C1 fails as stated: the realm [ls1ok3] is neither [ecouser] nor
    [bumper], yet a resource that contains ["bumper"] sends the session
    down the client path, where it is refused and no Bot entry is made;
    and in proxy mode without a configured server the process exits. *)
Lemma authenticate_bot_realm_counterexample :
  parses_as "did1@ls1ok3/bumper1" "did1" "ls1ok3" "bumper1" /\
  "ls1ok3" <> "ecouser" /\ "ls1ok3" <> "bumper" /\
  (exists w',
     authenticate (sample_config false "")
       (mkSession (Some "SN1") (Some "pw") "did1@ls1ok3/bumper1") empty_world
     = Ret false w' /\ bots w' = ∅) /\
  (exists w',
     authenticate (sample_config true "")
       (mkSession (Some "SN1") (Some "pw") sample_bot_id) empty_world
     = Exit 1 w').
Proof.
  split; [repeat split; reflexivity|].
  split; [discriminate|]. split; [discriminate|]. split.
  - eexists. split; vm_compute; reflexivity.
  - eexists. vm_compute. reflexivity.
Qed.

(** C9 (amended): for every session whose client id contains no ['@'],
    [authenticate] falls through to the file-based check (the username
    looked up in the credential store, the password verified against the
    stored hash) and then to the anonymous check, and returns true exactly
    when one of the two succeeds. *)
Theorem authenticate_falls_through {Json : Type} (cfg : Config Json)
    (session : Session) (w : World) :
  PyStr.has_char PyStr.at_sign (client_id session) = false ->
  exists w',
    authenticate cfg session w =
    Ret (file_check cfg session || anonymous_check cfg) w'.
Proof.
  intros Hat. unfold authenticate, authenticate_try, try_except, file_check,
    anonymous_check.
  mrun. rewrite contains_char. change "@"%char with PyStr.at_sign. rewrite Hat.
  mrun. rewrite andb_true_r.
  destruct (truthy_opt (username session)); cbn [andb]; mrun.
  - destruct (users cfg !! default "" (username session)) as [hash|]; mrun.
    + destruct (PyStr.truthy hash); cbn [andb]; mrun.
      * destruct (pwd_verify cfg (password session) hash) as [[|]|]; mrun;
          cbn [orb negb andb];
          destruct (default true (allow_anonymous cfg)); mrun; eauto.
      * destruct (default true (allow_anonymous cfg)); mrun; eauto.
    + destruct (default true (allow_anonymous cfg)); mrun; eauto.
  - destruct (default true (allow_anonymous cfg)); mrun; eauto.
Qed.

Lemma authenticate_falls_through_witness :
  exists w',
    authenticate (sample_config false "")
      (mkSession (Some "alice") (Some "secret") "alice-phone") empty_world
    = Ret (file_check (sample_config false "")
             (mkSession (Some "alice") (Some "secret") "alice-phone")
           || anonymous_check (sample_config false "")) w'.
Proof.
  apply (authenticate_falls_through (sample_config false "")
           (mkSession (Some "alice") (Some "secret") "alice-phone") empty_world).
  reflexivity.
Defined.

(** C9 fails as stated: with a client id that has an ['@'] but no ['/']
    after it, the parse raises inside the [try] block, the handler resets
    [authenticated], and the file-based check is never reached, although
    the credentials would pass it. *)
Lemma authenticate_parse_failure_counterexample :
  file_check (sample_config false "")
    (mkSession (Some "alice") (Some "secret") "alice@phone") = true /\
  exists w',
    authenticate (sample_config false "")
      (mkSession (Some "alice") (Some "secret") "alice@phone") empty_world
    = Ret false w'.
Proof.
  split; [vm_compute; reflexivity|].
  eexists. vm_compute. reflexivity.
Qed.

(** ** Message hook and response buffer *)

(** C5 (amended): for every received message whose topic has at least
    seven ['/']-segments, whose payload decodes as UTF-8 and that the proxy
    relay does not handle, the message hook returns without raising, and a
    topic that matches none of the shapes is routed to the default log
    line; for every client id that reads [<id>@<realm>/<resource>] the
    connect and disconnect hooks return without raising. *)
Theorem hooks_return_on_wellformed_input {Json : Type} (cfg : Config Json) :
  (forall (now : Z) (client_id : string) (message : Message) (w : World),
     (7 <= length (PyStr.split PyStr.slash (topic message)))%nat ->
     PyBytes.utf8 (data message) = true ->
     not_relayed cfg client_id w ->
     exists w',
       on_broker_message_received cfg now client_id message w = Ret tt w' /\
       (segment 6 (topic message) <> Some "helperbot" ->
        segment 3 (topic message) <> Some "helperbot" ->
        segment 1 (topic message) <> Some "atr" ->
        EvLog helperbotlog debug "Received Message" ∈ trace w')) /\
  (forall (client_id id realm resource : string) (w : World),
     parses_as client_id id realm resource ->
     (exists w', on_broker_client_connected client_id w = Ret tt w') /\
     (exists w', on_broker_client_disconnected cfg client_id w = Ret tt w')).
Proof.
  split.
  - intros now client_id message w Hlen Hu Hnr. by apply message_hook_returns.
  - intros client_id id realm resource w Hid. split.
    + by apply (set_client_connected_form client_id id realm resource).
    + by apply (disconnect_returns_form cfg client_id id realm resource).
Qed.

Lemma hooks_return_on_wellformed_input_witness :
  (exists w',
     on_broker_message_received (sample_config true "mq.example") 100
       sample_client_id
       (mkMessage "iot/note/x/did1/ls1ok3/wC3g/j" "{}" 0) relayed_world
     = Ret tt w' /\
     (segment 6 "iot/note/x/did1/ls1ok3/wC3g/j" <> Some "helperbot" ->
      segment 3 "iot/note/x/did1/ls1ok3/wC3g/j" <> Some "helperbot" ->
      segment 1 "iot/note/x/did1/ls1ok3/wC3g/j" <> Some "atr" ->
      EvLog helperbotlog debug "Received Message" ∈ trace w')) /\
  (exists w', on_broker_client_connected sample_bot_id relayed_world = Ret tt w') /\
  (exists w', on_broker_client_disconnected (sample_config true "mq.example")
                sample_bot_id relayed_world = Ret tt w').
Proof.
  split.
  - apply (proj1 (hooks_return_on_wellformed_input (sample_config true "mq.example"))
             100 sample_client_id
             (mkMessage "iot/note/x/did1/ls1ok3/wC3g/j" "{}" 0) relayed_world).
    + vm_compute. lia.
    + reflexivity.
    + right. reflexivity.
  - apply (proj2 (hooks_return_on_wellformed_input (sample_config true "mq.example"))
             sample_bot_id "did1" "ls1ok3" "wC3g" relayed_world).
    repeat split; reflexivity.
Defined.

(** C5 fails as stated: a topic of three segments makes the message hook
    raise [IndexError] at [topic_split[6]], and a client id without ['@']
    that names no registered bot makes the connect hook raise
    [IndexError] at [didsplit[1]].  A payload that is not UTF-8 makes the
    message hook raise as well, whatever the topic. *)
Lemma short_topic_counterexample :
  (exists w',
     on_broker_message_received (sample_config false "") 100 sample_bot_id
       (mkMessage "iot/atr/errors" "{}" 0) empty_world
     = Raise IndexError w') /\
  (exists w', on_broker_client_connected "did1" empty_world = Raise IndexError w') /\
  (exists w',
     on_broker_message_received (sample_config false "") 100 sample_bot_id
       (mkMessage "iot/atr/errors/did1/ls1ok3/wC3g/j" (PyText.bytes [255]%nat) 0)
       empty_world
     = Raise UnicodeDecodeError w').
Proof. repeat split; eexists; vm_compute; reflexivity. Qed.

(** C6 (amended): for a message that the proxy relay does not handle,
    whose payload decodes as UTF-8 and whose destination segment is
    [helperbot], the message hook appends one record, whatever the buffer
    already holds: when the code's expiry test holds for no buffered record
    and not for the new one, the buffer after the hook is the buffer before
    it followed by the new record, so records with the same request id are
    kept side by side. *)
Theorem message_hook_appends_reply {Json : Type} (cfg : Config Json)
    (now : Z) (client_id : string) (message : Message) (w : World) :
  segment 6 (topic message) = Some "helperbot" ->
  PyBytes.utf8 (data message) = true ->
  not_relayed cfg client_id w ->
  Forall (fun m => expired (utcoffset cfg) now m = false)
         (command_responses w ++ [mkMsg now (topic message) (data message)]) ->
  exists w',
    on_broker_message_received cfg now client_id message w = Ret tt w' /\
    command_responses w' =
      command_responses w ++ [mkMsg now (topic message) (data message)].
Proof.
  intros H6 Hu Hnr Hfresh. rewrite (hook_skips_relay cfg _ _ _ _ Hu Hnr).
  assert (Hlen : (7 <= length (PyStr.split PyStr.slash (topic message)))%nat).
  { apply lookup_lt_Some in H6. lia. }
  destruct (classify_returns now message (data message) w Hlen)
    as (w1 & Hc & _ & Hbuf & _).
  rewrite bool_decide_true in Hbuf by exact H6.
  mrun. rewrite Hc. unfold prune. mrun.
  rewrite prune_loop_fresh.
  - exists w1. auto.
  - rewrite Hbuf. exact Hfresh.
Qed.

Lemma message_hook_appends_reply_witness :
  exists w',
    on_broker_message_received (sample_config false "") 11 sample_bot_id
      (mkMessage sample_reply_topic "{}" 0)
      (buffer_world [mkMsg 10 sample_reply_topic "{}"])
    = Ret tt w' /\
    command_responses w' =
      [mkMsg 10 sample_reply_topic "{}"] ++ [mkMsg 11 sample_reply_topic "{}"].
Proof.
  apply (message_hook_appends_reply (sample_config false "") 11 sample_bot_id
           (mkMessage sample_reply_topic "{}" 0)
           (buffer_world [mkMsg 10 sample_reply_topic "{}"])).
  - reflexivity.
  - reflexivity.
  - left. reflexivity.
  - repeat constructor.
Defined.

(** The expiry test on the record just appended: it fails while the
    host's offset from UTC stays as it is, and holds in the hour the wall
    clock repeats, where the hook prunes the reply it has just buffered. *)
Lemma new_record_fresh (tz : PyTime.Zone) (now : Z) (t d : string) :
  tz (now + tz now + wait_resp_timeout_seconds) = tz now ->
  tz (now + wait_resp_timeout_seconds) = tz now ->
  tz (now + wait_resp_timeout_seconds - PyTime.max_fold_seconds) = tz now ->
  expired tz now (mkMsg now t d) = false.
Proof.
  intros H1 H2 H3. unfold expired, expire_time. cbn [msg_time].
  rewrite (after_steady tz now _ H1 H2 H3).
  apply bool_decide_false. unfold wait_resp_timeout_seconds. lia.
Qed.

Example reply_pruned_in_repeated_hour :
  on_broker_message_received autumn_config 7300 sample_bot_id
    (mkMessage sample_reply_topic "{}" 0) empty_world
  = Ret tt (mkWorld ∅ ∅ None [] ∅ ∅
              [EvLog helperbotlog debug "Received Response";
               EvLog helperbotlog debug "Pruning Message Due To Expiration"]).
Proof. vm_compute. reflexivity. Qed.

(** C6 fails as stated: the same reply received twice, one second apart,
    leaves two records with the request id [REQ1] in the buffer. *)
Lemma duplicate_reply_counterexample :
  exists w1 w2 m1 m2,
    on_broker_message_received (sample_config false "") 10 sample_bot_id
      (mkMessage sample_reply_topic "{}" 0) empty_world = Ret tt w1 /\
    on_broker_message_received (sample_config false "") 11 sample_bot_id
      (mkMessage sample_reply_topic "{}" 0) w1 = Ret tt w2 /\
    command_responses w2 = [m1; m2] /\
    segment 10 (msg_topic m1) = Some "REQ1" /\
    segment 10 (msg_topic m2) = Some "REQ1".
Proof.
  do 4 eexists. split; [vm_compute; reflexivity|].
  split; [vm_compute; reflexivity|].
  split; [reflexivity|]. split; reflexivity.
Qed.

(** C7, on the input where the code fails it: two expired records next
    to each other.  The loop removes the first, the second slides into its
    place, and the iterator, which has moved on, never visits it: it is
    still buffered when the hook returns. *)
Theorem prune_skips_expired_record :
  exists w',
    on_broker_message_received (sample_config false "") 1000 sample_bot_id
      (mkMessage "iot/atr/errors/did1/ls1ok3/wC3g/j" "{}" 0)
      (buffer_world [mkMsg 0 sample_reply_topic "a";
                     mkMsg 1 sample_reply_topic "b"])
    = Ret tt w' /\
    command_responses w' = [mkMsg 1 sample_reply_topic "b"] /\
    expired (utcoffset (sample_config false "")) 1000
      (mkMsg 1 sample_reply_topic "b") = true.
Proof.
  eexists. split; [vm_compute; reflexivity|]. split; reflexivity.
Qed.

(** ** Proxy relay *)

Lemma alter_twice {A : Type} (f : A -> A) (k : string) (m : gmap string A) :
  (forall x, f (f x) = f x) ->
  alter f k (alter f k m) = alter f k m.
Proof.
  intros Hf. apply map_eq. intros j.
  destruct (decide (k = j)) as [->|Hne].
  - rewrite !lookup_alter_eq. destruct (m !! j); cbn; [by rewrite Hf | done].
  - by rewrite !lookup_alter_ne.
Qed.

(** C8 (amended): for every registered bot with an entry in
    [proxyclients], in proxy mode, the disconnect hook calls [disconnect]
    on the bot's upstream client and marks the registry entry as not
    connected; the entry stays in [proxyclients] and [eco_helper_names] is
    left as it was.  A second invocation returns as well: it calls
    [disconnect] on the same upstream client again and changes nothing in
    the registry, the tables or the buffer. *)
Theorem disconnect_keeps_proxy_session {Json : Type} (cfg : Config Json)
    (client_id did : string) (b : Bot) (w : World) :
  bumper_proxy_mode cfg = true ->
  is_Some (proxyclients w !! client_id) ->
  PyStr.split PyStr.at_sign client_id !! 0%nat = Some did ->
  bots w !! did = Some b ->
  bot_did b = did ->
  exists w1 w2,
    on_broker_client_disconnected cfg client_id w = Ret tt w1 /\
    proxyclients w1 !! client_id = Some (mkProxyClient false) /\
    eco_helper_names w1 = eco_helper_names w /\
    bots w1 !! did = Some (mark_bot false b) /\
    trace w1 = trace w ++ [EvUpstreamDisconnect client_id; EvBotSetMqtt did false] /\
    on_broker_client_disconnected cfg client_id w1 = Ret tt w2 /\
    bots w2 = bots w1 /\ clients w2 = clients w1 /\
    proxyclients w2 = proxyclients w1 /\
    eco_helper_names w2 = eco_helper_names w1 /\
    command_responses w2 = command_responses w1 /\
    trace w2 = trace w1 ++ [EvUpstreamDisconnect client_id; EvBotSetMqtt did false].
Proof.
  intros Hpm [pc Hpc] H0 Hb Hd.
  rewrite (disconnect_relayed_bot cfg client_id did b w Hpm (mk_is_Some _ _ Hpc) H0 Hb Hd).
  eexists. eexists. split; [reflexivity|].
  cbn [bots clients helper_client command_responses proxyclients
       eco_helper_names trace].
  split; [by rewrite lookup_alter_eq, Hpc|].
  split; [reflexivity|].
  split; [by rewrite lookup_alter_eq, Hb|].
  split; [reflexivity|].
  erewrite (disconnect_relayed_bot cfg client_id did (mark_bot false b));
    [ | exact Hpm | | exact H0 | | ].
  - cbn [bots clients helper_client command_responses proxyclients
         eco_helper_names trace].
    split; [reflexivity|].
    split; [by apply alter_twice|].
    split; [reflexivity|].
    split; [by apply alter_twice|].
    repeat split; reflexivity.
  - cbn. rewrite lookup_alter_eq, Hpc. by eexists.
  - cbn. by rewrite lookup_alter_eq, Hb.
  - exact Hd.
Qed.

Lemma disconnect_keeps_proxy_session_witness :
  exists w1 w2,
    on_broker_client_disconnected (sample_config true "mq.example")
      sample_bot_id relayed_world = Ret tt w1 /\
    proxyclients w1 !! sample_bot_id = Some (mkProxyClient false) /\
    eco_helper_names w1 = eco_helper_names relayed_world /\
    bots w1 !! "did1" =
      Some (mark_bot false (mkBot (Some "SN1") "did1" "ls1ok3" "wC3g" "eco-ng" true)) /\
    trace w1 = trace relayed_world ++
               [EvUpstreamDisconnect sample_bot_id; EvBotSetMqtt "did1" false] /\
    on_broker_client_disconnected (sample_config true "mq.example")
      sample_bot_id w1 = Ret tt w2 /\
    bots w2 = bots w1 /\ clients w2 = clients w1 /\
    proxyclients w2 = proxyclients w1 /\
    eco_helper_names w2 = eco_helper_names w1 /\
    command_responses w2 = command_responses w1 /\
    trace w2 = trace w1 ++
               [EvUpstreamDisconnect sample_bot_id; EvBotSetMqtt "did1" false].
Proof.
  apply (disconnect_keeps_proxy_session (sample_config true "mq.example")
           sample_bot_id "did1"
           (mkBot (Some "SN1") "did1" "ls1ok3" "wC3g" "eco-ng" true)
           relayed_world).
  - reflexivity.
  - exists (mkProxyClient true). vm_compute. reflexivity.
  - reflexivity.
  - vm_compute. reflexivity.
  - reflexivity.
Defined.

(** C8 fails as stated: after the disconnect hook the bot still has its
    entry in [proxyclients], and the request-id mapping is still there. *)
Lemma disconnect_counterexample :
  exists w',
    on_broker_client_disconnected (sample_config true "mq.example")
      sample_bot_id relayed_world = Ret tt w' /\
    is_Some (proxyclients w' !! sample_bot_id) /\
    eco_helper_names w' !! "REQ1" = Some "HELPERNAME".
Proof.
  eexists. split; [vm_compute; reflexivity|].
  split; [eexists; vm_compute; reflexivity | vm_compute; reflexivity].
Qed.

(** The forward half of the relay: with the helper bot's client in place,
    a peer-to-peer message from upstream that decodes and has the segments
    the code reads is recorded and republished with the sender replaced. *)
Lemma relay_from_upstream_p2p (message : Message) (w : World)
    (sender reqid : string) :
  PyBytes.utf8 (data message) = true ->
  is_Some (helper_client w) ->
  segment 1 (topic message) = Some "p2p" ->
  segment 3 (topic message) = Some sender ->
  segment 10 (topic message) = Some reqid ->
  exists w',
    relay_from_upstream message w = Ret tt w' /\
    eco_helper_names w' = <[reqid := sender]> (eco_helper_names w) /\
    EvHelperPublish
      (PyStr.join "/" (<[3%nat := "proxyhelper"]>
                         (PyStr.split PyStr.slash (topic message))))
      (data message) ∈ trace w'.
Proof.
  unfold segment. intros Hu [c Hc] H1 H3 H10.
  unfold relay_from_upstream, decode_utf8, helper_publish.
  rewrite Hu. mrun. rewrite H1. mrun. cbn [String.eqb Ascii.eqb Bool.eqb]. mrun.
  rewrite H3. mrun. rewrite H10. mrun. rewrite Hc. mrun.
  eexists. split; [reflexivity|]. split; [reflexivity|].
  cbn [trace]. apply elem_of_app. right. apply list_elem_of_singleton.
  reflexivity.
Qed.

(** Before [start_helper_bot] has created the helper bot's client there
    is nothing to publish on: the relay logs the message and the exception
    and republishes nothing. *)
Example relay_needs_helper_client :
  get_msg sample_bot_id
    [mkMessage "iot/p2p/cmdX/HELPERNAME/t/r/did1/ls1ok3/wC3g/q/REQ1/j" "{}" 0]
    (mkWorld ∅ ∅ None [] {[ sample_bot_id := mkProxyClient true ]} ∅ [])
  = Ret tt
      (mkWorld ∅ ∅ None [] {[ sample_bot_id := mkProxyClient true ]}
         {[ "REQ1" := "HELPERNAME" ]}
         [EvLog proxymodelog info "Message Received From Ecovacs";
          EvLog proxymodelog info "Converted Topic";
          EvLog proxymodelog info "Proxy Forward Message to Robot";
          EvLog proxymodelog error "get_msg Exception"]).
Proof. vm_compute. reflexivity. Qed.

(** The reverse half: for a relayed client, every message whose sender
    segment is not [proxyhelper] ends in [NameError] before anything is
    published upstream. *)
Lemma forward_to_upstream_raises (client_id : string) (message : Message)
    (w : World) (seg3 seg6 : string) :
  segment 3 (topic message) = Some seg3 ->
  seg3 <> "proxyhelper" ->
  segment 6 (topic message) = Some seg6 ->
  (seg6 = "proxyhelper" -> is_Some (segment 10 (topic message))) ->
  exists w',
    forward_to_upstream client_id message w = Raise NameError w' /\
    trace w' = trace w.
Proof.
  unfold segment. intros H3 N3 H6 H10. unfold forward_to_upstream.
  mrun. rewrite H3. mrun.
  destruct (String.eqb_spec seg3 "proxyhelper") as [|_]; [contradiction|].
  cbn [negb]. mrun. rewrite H6. mrun.
  destruct (String.eqb_spec seg6 "proxyhelper") as [E6|_]; mrun.
  - destruct (H10 E6) as [reqid ->]. mrun. eexists. split; reflexivity.
  - eexists. split; reflexivity.
Qed.

Lemma message_hook_relayed_raises {Json : Type} (cfg : Config Json) (now : Z)
    (client_id : string) (message : Message) (w : World) (seg3 seg6 : string) :
  PyBytes.utf8 (data message) = true ->
  bumper_proxy_mode cfg = true ->
  is_Some (proxyclients w !! client_id) ->
  segment 3 (topic message) = Some seg3 ->
  seg3 <> "proxyhelper" ->
  segment 6 (topic message) = Some seg6 ->
  (seg6 = "proxyhelper" -> is_Some (segment 10 (topic message))) ->
  exists w',
    on_broker_message_received cfg now client_id message w = Raise NameError w' /\
    trace w' = trace w.
Proof.
  intros Hu Hpm Hin H3 N3 H6 H10. unfold on_broker_message_received, decode_utf8.
  rewrite Hu, Hpm. mrun. rewrite bool_decide_true by exact Hin.
  destruct (forward_to_upstream_raises client_id message w seg3 seg6 H3 N3 H6 H10)
    as (w' & -> & Htr).
  exists w'. auto.
Qed.

(** C4, on the spec's own example, with the helper bot connected.  The
    forward half works: the upstream message is republished locally with
    the sender segment replaced by [proxyhelper], and
    [REQ1 -> HELPERNAME] is recorded.  The reverse half
    fails: for the bot's reply addressed to [proxyhelper] the hook pops
    the mapping, then raises [NameError] on the unbound [msgdata] before
    the publish; nothing is forwarded upstream. *)
Theorem proxy_reply_not_forwarded :
  let cfg := sample_config true "mq.example" in
  let w0 := mkWorld ∅ ∅ connected_helper []
              {[ sample_bot_id := mkProxyClient true ]} ∅ [] in
  exists w1 w2,
    get_msg sample_bot_id
      [mkMessage "iot/p2p/cmdX/HELPERNAME/t/r/did1/ls1ok3/wC3g/q/REQ1/j" "{}" 0] w0
    = Ret tt w1 /\
    eco_helper_names w1 !! "REQ1" = Some "HELPERNAME" /\
    EvHelperPublish "iot/p2p/cmdX/proxyhelper/t/r/did1/ls1ok3/wC3g/q/REQ1/j" "{}"
      ∈ trace w1 /\
    on_broker_message_received cfg 100 sample_bot_id
      (mkMessage "iot/p2p/cmdX/did1/ls1ok3/wC3g/proxyhelper/t/r/p/REQ1/j" "{}" 0) w1
    = Raise NameError w2 /\
    eco_helper_names w2 !! "REQ1" = None /\
    Forall (fun e => forall c t d, e <> EvUpstreamPublish c t d) (trace w2).
Proof.
  do 2 eexists. split; [vm_compute; reflexivity|].
  split; [vm_compute; reflexivity|].
  split; [cbn; repeat (first [apply list_elem_of_here | apply list_elem_of_further])|].
  split; [vm_compute; reflexivity|].
  split; [vm_compute; reflexivity|].
  repeat constructor; discriminate.
Qed.

(** ** Request and reply correlation *)

Lemma decode_raw {Json : Type} (cfg : Config Json) (m : Msg) :
  segment 11 (msg_topic m) = Some "x" ->
  decode cfg m = Some (PStr (msg_payload m)).
Proof. unfold decode. intros ->. reflexivity. Qed.

Lemma decode_json {Json : Type} (cfg : Config Json) (m : Msg) (j : Json) :
  segment 11 (msg_topic m) = Some "j" ->
  json_loads cfg (msg_payload m) = Some j ->
  decode cfg m = Some (PJson j).
Proof. unfold decode. intros -> ->. reflexivity. Qed.

Lemma client_writer_connected (w : World) (c : MQTTClient)
    (h : ClientProtocolHandler) :
  helper_client w = Some c -> handler c = Some h ->
  client_writer w = Ret (writer h) w.
Proof. intros Hc Hh. unfold client_writer. mrun. by rewrite Hc, Hh. Qed.

(** With the writer present and the command published, [send_command]
    returns what [wait_for_resp] returns. *)
Lemma send_command_waits {Json : Type} (cfg : Config Json) (sched : list Tick)
    (now : Z) (cmdjson : Cmd Json) (requestid : string) (w0 w : World)
    (c : MQTTClient) (h : ClientProtocolHandler) (r : Result Json) (w' : World) :
  helper_client w0 = Some c -> handler c = Some h -> is_Some (writer h) ->
  publish_command cfg cmdjson requestid w0 = Ret tt w ->
  wait_for_resp cfg sched now requestid w = Some (Ret r w') ->
  send_command cfg sched now cmdjson requestid w0 = Some (Ret (Some r) w').
Proof.
  intros Hc Hh [u Hw] Hpub Hwait. unfold send_command.
  rewrite (client_writer_connected w0 c h Hc Hh), Hw, Hpub, Hwait. reflexivity.
Qed.

(** C2 (amended): if at some poll before the deadline the code computes
    the first record in the buffer whose destination segment is [helperbot]
    and whose request-id segment is [requestId] has a payload-type segment
    and, for type [j], a payload that [json.loads] accepts, and if every
    record scanned before it, at that poll and at the earlier ones, has the
    segments the test reads and does not answer [requestId] itself, then
    [wait_for_resp] returns [{id: requestId, ret: "ok", resp}] with [resp]
    the payload decoded per the payload-type segment (JSON for [j], the raw
    text otherwise), and the record is removed from the buffer;
    [send_command], with the writer present and the command published,
    returns that same result.  The deadline is [t_end]: a minute after the
    call, read back through the host's local time. *)
Theorem wait_for_resp_returns_reply {Json : Type} (cfg : Config Json)
    (pre post : list Tick) (tk : Tick) (now : Z) (requestid : string)
    (w : World) (l1 l2 : list Msg) (msg : Msg) (p : RespPayload Json) :
  quiet_polls requestid (t_end cfg now) pre w ->
  tick_clock tk < t_end cfg now ->
  tick_cancelled tk = false ->
  command_responses (tick_others tk (run_others pre w)) = l1 ++ msg :: l2 ->
  Forall (fun m => passes requestid m = true) l1 ->
  matches requestid msg = true ->
  decode cfg msg = Some p ->
  exists w',
    wait_for_resp cfg (pre ++ tk :: post) now requestid w =
      Some (Ret (ok_result requestid p) w') /\
    command_responses w' = l1 ++ l2 /\
    forall (cmdjson : Cmd Json) (w0 : World) (c : MQTTClient)
           (h : ClientProtocolHandler),
      helper_client w0 = Some c -> handler c = Some h -> is_Some (writer h) ->
      publish_command cfg cmdjson requestid w0 = Ret tt w ->
      send_command cfg (pre ++ tk :: post) now cmdjson requestid w0 =
        Some (Ret (Some (ok_result requestid p)) w').
Proof.
  intros Hq Hc Hx Hbuf Hl1 Hm Hd.
  assert (Hwait : exists w',
    wait_for_resp cfg (pre ++ tk :: post) now requestid w =
      Some (Ret (ok_result requestid p) w') /\
    command_responses w' = l1 ++ l2).
  { unfold wait_for_resp.
    rewrite (wait_loop_found cfg pre post tk _ requestid w l1 l2 msg p
               Hq Hc Hx Hbuf Hl1 Hm Hd).
    mrun. eexists. split; reflexivity. }
  destruct Hwait as (w' & Hwait & Hrest).
  exists w'. split; [exact Hwait|]. split; [exact Hrest|].
  intros cmdjson w0 c h Hcl Hh Hw Hpub.
  by apply (send_command_waits cfg _ now cmdjson requestid w0 w c h).
Qed.

Lemma wait_for_resp_returns_reply_witness :
  exists w',
    wait_for_resp (sample_config false "")
      ([mkTick 1 false idle] ++
       mkTick 2 false (deliver (mkMsg 2 sample_reply_topic "{}")) :: [])
      0 "REQ1" (helper_world [EvHelperPublish sample_request_topic "{}"])
    = Some (Ret (ok_result "REQ1" (PJson "{}")) w') /\
    command_responses w' = [other_reply] ++ [] /\
    send_command (sample_config false "")
      ([mkTick 1 false idle] ++
       mkTick 2 false (deliver (mkMsg 2 sample_reply_topic "{}")) :: [])
      0 sample_cmd "REQ1" (helper_world [])
    = Some (Ret (Some (ok_result "REQ1" (PJson "{}"))) w').
Proof.
  destruct (wait_for_resp_returns_reply (sample_config false "")
           [mkTick 1 false idle] []
           (mkTick 2 false (deliver (mkMsg 2 sample_reply_topic "{}")))
           0 "REQ1" (helper_world [EvHelperPublish sample_request_topic "{}"])
           [other_reply] [] (mkMsg 2 sample_reply_topic "{}") (PJson "{}"))
    as (w' & Hwait & Hbuf & Hsend).
  - cbn [quiet_polls].
    split; [vm_compute; reflexivity|]. split; [reflexivity|]. split; [|exact I].
    repeat constructor.
  - vm_compute. reflexivity.
  - reflexivity.
  - reflexivity.
  - repeat constructor.
  - reflexivity.
  - reflexivity.
  - exists w'. split; [exact Hwait|]. split; [exact Hbuf|].
    apply (Hsend sample_cmd (helper_world [])
             (mkMQTTClient (Some (mkHandler (Some tt)))) (mkHandler (Some tt)));
      [reflexivity | reflexivity | by eexists | reflexivity].
Defined.

(** C2 fails as stated: a matching reply of type [j] whose payload is
    not valid JSON, a matching valid reply queued behind a record with a
    seven-segment topic, and a matching valid reply queued behind a
    matching one that is not valid JSON all end in the failure result; the
    matching records stay in the buffer. *)
Lemma wait_for_resp_reply_counterexample :
  matches "REQ1" (mkMsg 1 sample_reply_topic "oops") = true /\
  (exists w',
     wait_for_resp (sample_config false "") [mkTick 1 false idle] 0 "REQ1"
       (buffer_world [mkMsg 1 sample_reply_topic "oops"])
     = Some (Ret (timeout_result "REQ1") w') /\
     command_responses w' = [mkMsg 1 sample_reply_topic "oops"]) /\
  matches "REQ1" (mkMsg 1 sample_reply_topic "{}") = true /\
  (exists w',
     wait_for_resp (sample_config false "") [mkTick 1 false idle] 0 "REQ1"
       (buffer_world [mkMsg 1 "a/b/c/d/e/f/helperbot" "";
                      mkMsg 1 sample_reply_topic "{}"])
     = Some (Ret (timeout_result "REQ1") w') /\
     command_responses w' = [mkMsg 1 "a/b/c/d/e/f/helperbot" "";
                             mkMsg 1 sample_reply_topic "{}"]) /\
  (exists w',
     wait_for_resp (sample_config false "") [mkTick 1 false idle] 0 "REQ1"
       (buffer_world [mkMsg 1 sample_reply_topic "oops";
                      mkMsg 1 sample_reply_topic "{}"])
     = Some (Ret (timeout_result "REQ1") w') /\
     command_responses w' = [mkMsg 1 sample_reply_topic "oops";
                             mkMsg 1 sample_reply_topic "{}"]).
Proof.
  split; [reflexivity|]. split.
  { eexists. split; [vm_compute; reflexivity | reflexivity]. }
  split; [reflexivity|]. split.
  { eexists. split; [vm_compute; reflexivity | reflexivity]. }
  eexists. split; [vm_compute; reflexivity | reflexivity].
Qed.




Lemma publish_command_no_exit {Json : Type} (cfg : Config Json)
    (cmdjson : Cmd Json) (requestid : string) (w : World) :
  match publish_command cfg cmdjson requestid w with
  | Exit _ _ => False
  | _ => True
  end.
Proof.
  unfold publish_command, command_topic. mrun.
  destruct (cmdName cmdjson); mrun; [|exact I].
  destruct (toId cmdjson); mrun; [|exact I].
  destruct (toType cmdjson); mrun; [|exact I].
  destruct (toRes cmdjson); mrun; [|exact I].
  destruct (payloadType cmdjson) as [ptype|]; mrun; [|exact I].
  destruct (String.eqb ptype "x"); [destruct (payload cmdjson); mrun; exact I|].
  destruct (String.eqb ptype "j"); [destruct (payload cmdjson); mrun; exact I|].
  exact I.
Qed.

(** Once the clock passes the deadline [wait_for_resp] has returned, with
    a reply or with the failure result. *)
Lemma wait_for_resp_result {Json : Type} (cfg : Config Json)
    (sched : list Tick) (now : Z) (requestid : string) (w : World) :
  reaches (t_end cfg now) sched ->
  exists r w',
    wait_for_resp cfg sched now requestid w = Some (Ret r w') /\
    ((exists p, r = ok_result requestid p) \/ r = timeout_result requestid).
Proof.
  intros Hr. unfold wait_for_resp.
  destruct (wait_loop_ends cfg sched _ requestid w Hr) as [o Ho].
  pose proof (wait_loop_shape cfg sched _ requestid w o Ho) as Hs.
  rewrite Ho. destruct o as [[r|] w'|e w'|c w']; try contradiction.
  - destruct Hs as [p ->]. eauto 6.
  - eauto 6.
  - destruct e; mrun; eauto 6.
Qed.

(** C10 (amended): every call to [send_command] made while the helper
    bot's handler has a writer returns, once the clock passes the deadline,
    a result dict with [id] equal to [requestid] and [ret] equal to ["ok"]
    or ["fail"], whatever the command holds, also with keys missing or a
    [payloadType] that is neither ['j'] nor ['x']. *)
Theorem send_command_connected_result {Json : Type} (cfg : Config Json)
    (sched : list Tick) (now : Z) (cmdjson : Cmd Json) (requestid : string)
    (w : World) (c : MQTTClient) (h : ClientProtocolHandler) :
  helper_client w = Some c ->
  handler c = Some h ->
  is_Some (writer h) ->
  reaches (t_end cfg now) sched ->
  exists r w',
    send_command cfg sched now cmdjson requestid w = Some (Ret (Some r) w') /\
    res_id r = requestid /\
    (res_ret r = "ok" \/ res_ret r = "fail").
Proof.
  intros Hc Hh [u Hw] Hr. unfold send_command.
  rewrite (client_writer_connected w c h Hc Hh), Hw.
  pose proof (publish_command_no_exit cfg cmdjson requestid w) as Hp.
  destruct (publish_command cfg cmdjson requestid w) as [[] w1|e w1|]; [| |done].
  - destruct (wait_for_resp_result cfg sched now requestid w1 Hr)
      as (r & w2 & -> & [[p ->] | ->]); eauto 7.
  - mrun. eexists _, _. split; [reflexivity|]. auto.
Qed.

Lemma send_command_connected_result_witness :
  exists r w',
    send_command (sample_config false "") [mkTick 60 false idle] 0
      (mkCmd (Some "GetInfo") (Some "did1") (Some "ls1ok3") (Some "wC3g")
             (Some "z") (Some "{}"))
      "REQ1" (helper_world [])
    = Some (Ret (Some r) w') /\
    res_id r = "REQ1" /\
    (res_ret r = "ok" \/ res_ret r = "fail").
Proof.
  apply (send_command_connected_result (sample_config false "")
           [mkTick 60 false idle] 0
           (mkCmd (Some "GetInfo") (Some "did1") (Some "ls1ok3") (Some "wC3g")
                  (Some "z") (Some "{}"))
           "REQ1" (helper_world [])
           (mkMQTTClient (Some (mkHandler (Some tt)))) (mkHandler (Some tt))).
  - reflexivity.
  - reflexivity.
  - by eexists.
  - left. vm_compute. discriminate.
Defined.

(** C10 fails as stated: with the handler's writer absent [send_command]
    runs off its end and returns [None]; with no handler at all it raises
    [AttributeError]. *)
Lemma send_command_counterexample :
  send_command (sample_config false "") [mkTick 60 false idle] 0 sample_cmd
    "REQ1" (mkWorld ∅ ∅ (Some (mkMQTTClient (Some (mkHandler None)))) [] ∅ ∅ [])
  = Some (Ret None
            (mkWorld ∅ ∅ (Some (mkMQTTClient (Some (mkHandler None)))) [] ∅ ∅ [])) /\
  send_command (sample_config false "") [mkTick 60 false idle] 0 sample_cmd
    "REQ1" (mkWorld ∅ ∅ (Some (mkMQTTClient None)) [] ∅ ∅ [])
  = Some (Raise AttributeError
            (mkWorld ∅ ∅ (Some (mkMQTTClient None)) [] ∅ ∅ [])).
Proof. split; reflexivity. Qed.

(** ** More on authentication *)

(** Case analysis on whatever the run branches on next. *)
Ltac branch :=
  match goal with
  | |- context [match ?x with _ => _ end] =>
      lazymatch x with
      | context [match _ with _ => _ end] => fail
      | _ => destruct x eqn:?
      end
  end.

Ltac run_all := repeat (mrun; try branch).

(** X1: [authenticate] never raises: it returns a boolean, or the
    process exits with code 1, which happens only in proxy mode with no
    upstream server configured. *)
Theorem authenticate_never_raises {Json : Type} (cfg : Config Json)
    (session : Session) (w : World) :
  match authenticate cfg session w with
  | Ret _ _ => True
  | Raise _ _ => False
  | Exit code _ =>
      code = 1 /\ bumper_proxy_mode cfg = true /\
      PyStr.truthy (mqtt_server cfg) = false
  end.
Proof.
  unfold authenticate, authenticate_try, try_except, open_proxy, bot_add,
    client_add.
  run_all; auto.
Qed.


(** X2: a session that [authenticate] refuses leaves no entry behind:
    the registry of bots and clients and the table of proxy clients are as
    before. *)
Theorem authenticate_refusal_leaves_no_entry {Json : Type} (cfg : Config Json)
    (session : Session) (w w' : World) :
  authenticate cfg session w = Ret false w' ->
  bots w' = bots w /\ clients w' = clients w /\
  proxyclients w' = proxyclients w.
Proof.
  unfold authenticate, authenticate_try, try_except, open_proxy, bot_add,
    client_add.
  run_all; intros H; try discriminate H;
    inversion H; subst; cbn; auto;
    match goal with
    | Hc : _ && negb true = true |- _ =>
        rewrite andb_false_r in Hc; discriminate Hc
    end.
Qed.

Lemma authenticate_refusal_leaves_no_entry_witness :
  bots (mkWorld ∅ ∅ None [] ∅ ∅
          [EvLog mqttserverlog info "File Authentication Failed - No Entry"])
    = bots empty_world /\
  clients (mkWorld ∅ ∅ None [] ∅ ∅
          [EvLog mqttserverlog info "File Authentication Failed - No Entry"])
    = clients empty_world /\
  proxyclients (mkWorld ∅ ∅ None [] ∅ ∅
          [EvLog mqttserverlog info "File Authentication Failed - No Entry"])
    = proxyclients empty_world.
Proof.
  apply (authenticate_refusal_leaves_no_entry (sample_config false "")
           (mkSession (Some "SN1") (Some "pw") "did1@ls1ok3/bumper1")
           empty_world).
  vm_compute. reflexivity.
Defined.

(** X3: when anonymous access is allowed (the setting is true or
    absent) every session is authenticated, whatever its client id and
    credentials, provided that in proxy mode an upstream server is
    configured. *)
Theorem authenticate_anonymous_allows {Json : Type} (cfg : Config Json)
    (session : Session) (w : World) :
  anonymous_check cfg = true ->
  (bumper_proxy_mode cfg = true -> PyStr.truthy (mqtt_server cfg) = true) ->
  exists w', authenticate cfg session w = Ret true w'.
Proof.
  unfold anonymous_check. intros Ha Hp.
  unfold authenticate, authenticate_try, try_except, open_proxy, bot_add,
    client_add.
  rewrite Ha.
  run_all; eauto; cbn [andb negb] in *; try discriminate;
    exfalso; specialize (Hp eq_refl); discriminate Hp.
Qed.

Lemma authenticate_anonymous_allows_witness :
  exists w',
    authenticate lenient_config (mkSession None None "no-such-form") empty_world
    = Ret true w'.
Proof.
  apply (authenticate_anonymous_allows lenient_config
           (mkSession None None "no-such-form") empty_world).
  - reflexivity.
  - intros H. discriminate H.
Defined.

(** The run of [authenticate] up to the branch on the realm, for a client
    id that parses. *)
Ltac enter_parsed Hid :=
  let Hat := fresh "Hat" in
  let Hsp := fresh "Hsp" in
  let Hsl := fresh "Hsl" in
  destruct (parses_as_split _ _ _ _ Hid) as (Hat & Hsp & Hsl);
  unfold authenticate, authenticate_try, try_except, open_proxy, bot_add,
    client_add;
  mrun; rewrite Hat; mrun; rewrite Hsp; cbn [lookup list_lookup]; mrun.

(** X4: a client id [helperbot@<realm>/<resource>] whose part after
    the ['@'] contains ["ecouser"] or ["bumper"] is authenticated without
    any credential check, whatever the deployment, and nothing is
    registered for it. *)
Theorem authenticate_helperbot_trusted {Json : Type} (cfg : Config Json)
    (session : Session) (w : World) (realm resource : string) :
  parses_as (client_id session) "helperbot" realm resource ->
  PyStr.contains "ecouser" (realm +:+ "/" +:+ resource)
  || PyStr.contains "bumper" (realm +:+ "/" +:+ resource) = true ->
  exists w',
    authenticate cfg session w = Ret true w' /\
    bots w' = bots w /\ clients w' = clients w /\
    proxyclients w' = proxyclients w.
Proof.
  intros Hid Hrealm. enter_parsed Hid.
  rewrite Hrealm. cbn [negb]. mrun. rewrite Hsl. cbn [lookup list_lookup].
  mrun. cbn [String.eqb Ascii.eqb Bool.eqb]. mrun.
  rewrite andb_false_r. mrun. rewrite andb_false_r.
  eexists. split; [reflexivity|]. cbn. auto.
Qed.

Lemma authenticate_helperbot_trusted_witness :
  exists w',
    authenticate (sample_config false "")
      (mkSession None None "helperbot@bumper/helperbot") empty_world
    = Ret true w' /\
    bots w' = bots empty_world /\ clients w' = clients empty_world /\
    proxyclients w' = proxyclients empty_world.
Proof.
  apply (authenticate_helperbot_trusted (sample_config false "")
           (mkSession None None "helperbot@bumper/helperbot") empty_world
           "bumper" "helperbot").
  - repeat split; reflexivity.
  - reflexivity.
Defined.

(** X5: a client id [<userid>@<realm>/<resource>] whose part after the
    ['@'] contains ["ecouser"] or ["bumper"], with a user id other than
    [helperbot], is authenticated when the authcode check passes or
    credential enforcement is off, and is registered as a client under its
    resource with that user id and realm; no bot entry is touched. *)
Theorem authenticate_client_registers {Json : Type} (cfg : Config Json)
    (session : Session) (w : World) (userid realm resource : string) :
  parses_as (client_id session) userid realm resource ->
  PyStr.contains "ecouser" (realm +:+ "/" +:+ resource)
  || PyStr.contains "bumper" (realm +:+ "/" +:+ resource) = true ->
  userid <> "helperbot" ->
  check_authcode cfg userid (password session) || negb (use_auth cfg) = true ->
  exists w' live,
    authenticate cfg session w = Ret true w' /\
    clients w' !! resource = Some (mkClient userid realm resource live) /\
    EvClientAdd userid realm resource ∈ trace w' /\
    bots w' = bots w.
Proof.
  intros Hid Hrealm Hne Hcode. enter_parsed Hid.
  rewrite Hrealm. cbn [negb]. mrun. rewrite Hsl. cbn [lookup list_lookup].
  mrun. destruct (String.eqb_spec userid "helperbot") as [|_]; [contradiction|].
  rewrite Hcode. mrun.
  rewrite andb_false_r. mrun. rewrite andb_false_r.
  eexists. eexists. split; [reflexivity|]. cbn.
  split; [apply lookup_insert_eq|]. split; [|reflexivity].
  rewrite !elem_of_app, !list_elem_of_singleton. auto.
Qed.

Lemma authenticate_client_registers_witness :
  exists w' live,
    authenticate lenient_config
      (mkSession (Some "user1") (Some "pw") sample_client_id) empty_world
    = Ret true w' /\
    clients w' !! "res1" = Some (mkClient "user1" "ecouser" "res1" live) /\
    EvClientAdd "user1" "ecouser" "res1" ∈ trace w' /\
    bots w' = bots empty_world.
Proof.
  apply (authenticate_client_registers lenient_config
           (mkSession (Some "user1") (Some "pw") sample_client_id) empty_world
           "user1" "ecouser" "res1").
  - repeat split; reflexivity.
  - reflexivity.
  - discriminate.
  - reflexivity.
Defined.

(** X6: when the authcode check fails under credential enforcement, a
    client-path session falls through to the file-based check and then to
    the anonymous check, is authenticated exactly when one of the two
    succeeds, and is not registered. *)
Theorem authenticate_client_refused {Json : Type} (cfg : Config Json)
    (session : Session) (w : World) (userid realm resource : string) :
  parses_as (client_id session) userid realm resource ->
  PyStr.contains "ecouser" (realm +:+ "/" +:+ resource)
  || PyStr.contains "bumper" (realm +:+ "/" +:+ resource) = true ->
  userid <> "helperbot" ->
  check_authcode cfg userid (password session) = false ->
  use_auth cfg = true ->
  exists w',
    authenticate cfg session w =
      Ret (file_check cfg session || anonymous_check cfg) w' /\
    bots w' = bots w /\ clients w' = clients w.
Proof.
  intros Hid Hrealm Hne Hcode Hauth. enter_parsed Hid.
  rewrite Hrealm. cbn [negb]. mrun. rewrite Hsl. cbn [lookup list_lookup].
  mrun. destruct (String.eqb_spec userid "helperbot") as [|_]; [contradiction|].
  rewrite Hcode, Hauth. cbn [negb orb]. mrun.
  unfold file_check, anonymous_check. rewrite andb_true_r.
  destruct (truthy_opt (username session)); cbn [andb]; mrun.
  - destruct (users cfg !! default "" (username session)) as [hash|]; mrun.
    + destruct (PyStr.truthy hash); cbn [andb]; mrun.
      * destruct (pwd_verify cfg (password session) hash) as [[|]|]; mrun;
          cbn [orb negb andb];
          destruct (default true (allow_anonymous cfg)); mrun;
          eexists; (split; [reflexivity|]); cbn; auto.
      * destruct (default true (allow_anonymous cfg)); mrun;
          eexists; (split; [reflexivity|]); cbn; auto.
    + destruct (default true (allow_anonymous cfg)); mrun;
        eexists; (split; [reflexivity|]); cbn; auto.
  - destruct (default true (allow_anonymous cfg)); mrun;
      eexists; (split; [reflexivity|]); cbn; auto.
Qed.

Lemma authenticate_client_refused_witness :
  exists w',
    authenticate (sample_config false "")
      (mkSession (Some "alice") (Some "secret") sample_client_id) empty_world
    = Ret (file_check (sample_config false "")
             (mkSession (Some "alice") (Some "secret") sample_client_id)
           || anonymous_check (sample_config false "")) w' /\
    bots w' = bots empty_world /\ clients w' = clients empty_world.
Proof.
  apply (authenticate_client_refused (sample_config false "")
           (mkSession (Some "alice") (Some "secret") sample_client_id)
           empty_world "user1" "ecouser" "res1").
  - repeat split; reflexivity.
  - reflexivity.
  - discriminate.
  - reflexivity.
  - reflexivity.
Defined.

(** X7: in proxy mode with a configured server the bot path stores a
    proxy client under the client id, connected exactly when the upstream
    connection was accepted, and starts its [get_msg] task; the session is
    authenticated also when the upstream connection fails. *)
Theorem authenticate_opens_proxy_session {Json : Type} (cfg : Config Json)
    (session : Session) (w : World) (id realm resource : string) :
  parses_as (client_id session) id realm resource ->
  PyStr.contains "ecouser" (realm +:+ "/" +:+ resource) = false ->
  PyStr.contains "bumper" (realm +:+ "/" +:+ resource) = false ->
  bumper_proxy_mode cfg = true ->
  PyStr.truthy (mqtt_server cfg) = true ->
  exists w',
    authenticate cfg session w = Ret true w' /\
    proxyclients w' !! client_id session =
      Some (mkProxyClient (upstream_accepts cfg (client_id session))) /\
    EvUpstreamConnect (client_id session)
      (upstream_accepts cfg (client_id session)) ∈ trace w' /\
    EvCreateTaskGetMsg (client_id session) ∈ trace w'.
Proof.
  intros Hid He Hb Hpm Hs. enter_parsed Hid.
  rewrite He, Hb. cbn [negb orb]. mrun. rewrite Hsl. cbn [lookup list_lookup].
  mrun. rewrite Hpm, Hs. mrun.
  destruct (upstream_accepts cfg (client_id session)); mrun;
    rewrite andb_false_r; mrun; rewrite andb_false_r;
    (eexists; split; [reflexivity|]); cbn;
    (split; [by rewrite ?lookup_insert_eq|]);
    rewrite !elem_of_app, !list_elem_of_singleton; split; auto 10.
Qed.

Lemma authenticate_opens_proxy_session_witness :
  exists w',
    authenticate offline_config
      (mkSession (Some "SN1") (Some "pw") sample_bot_id) empty_world
    = Ret true w' /\
    proxyclients w' !! sample_bot_id =
      Some (mkProxyClient (upstream_accepts offline_config sample_bot_id)) /\
    EvUpstreamConnect sample_bot_id
      (upstream_accepts offline_config sample_bot_id) ∈ trace w' /\
    EvCreateTaskGetMsg sample_bot_id ∈ trace w'.
Proof.
  apply (authenticate_opens_proxy_session offline_config
           (mkSession (Some "SN1") (Some "pw") sample_bot_id) empty_world
           "did1" "ls1ok3" "wC3g").
  - repeat split; reflexivity.
  - reflexivity.
  - reflexivity.
  - reflexivity.
  - reflexivity.
Defined.

(** X8: a client id with an ['@'] whose part after it has no ['/'] is
    authenticated exactly when anonymous access is allowed, whatever the
    credentials, and nothing is registered for it. *)
Theorem authenticate_malformed_realm {Json : Type} (cfg : Config Json)
    (session : Session) (w : World) (details : string) :
  PyStr.contains "@" (client_id session) = true ->
  PyStr.split PyStr.at_sign (client_id session) !! 1%nat = Some details ->
  PyStr.has_char PyStr.slash details = false ->
  exists w',
    authenticate cfg session w = Ret (anonymous_check cfg) w' /\
    bots w' = bots w /\ clients w' = clients w /\
    proxyclients w' = proxyclients w.
Proof.
  intros Hat H1 Hs. unfold authenticate, authenticate_try, try_except,
    anonymous_check.
  pose proof (split_not_nil PyStr.at_sign (client_id session)) as Hne.
  destruct (PyStr.split PyStr.at_sign (client_id session)) as [|did rest] eqn:Hsp;
    [congruence|].
  mrun. rewrite Hat. mrun. rewrite H1. mrun.
  rewrite (split_no_sep _ _ Hs). cbn [lookup list_lookup].
  destruct (negb _); mrun;
    destruct (default true (allow_anonymous cfg)); mrun;
    (eexists; split; [reflexivity|]); cbn; auto.
Qed.

Lemma authenticate_malformed_realm_witness :
  exists w',
    authenticate (sample_config false "")
      (mkSession (Some "alice") (Some "secret") "alice@phone") empty_world
    = Ret (anonymous_check (sample_config false "")) w' /\
    bots w' = bots empty_world /\ clients w' = clients empty_world /\
    proxyclients w' = proxyclients empty_world.
Proof.
  apply (authenticate_malformed_realm (sample_config false "")
           (mkSession (Some "alice") (Some "secret") "alice@phone")
           empty_world "phone").
  - reflexivity.
  - reflexivity.
  - reflexivity.
Defined.

(** ** Connection hooks and the registry *)

(** X9: after a bot has been authenticated, the connect hook for its
    client id finds the entry [authenticate] registered and marks it as
    connected, its serial, class and resource kept. *)
Theorem connect_marks_authenticated_bot {Json : Type} (cfg : Config Json)
    (session : Session) (w : World) (id realm resource : string) :
  parses_as (client_id session) id realm resource ->
  PyStr.contains "ecouser" (realm +:+ "/" +:+ resource) = false ->
  PyStr.contains "bumper" (realm +:+ "/" +:+ resource) = false ->
  (bumper_proxy_mode cfg = true -> PyStr.truthy (mqtt_server cfg) = true) ->
  exists w1 w2,
    authenticate cfg session w = Ret true w1 /\
    on_broker_client_connected (client_id session) w1 = Ret tt w2 /\
    bots w2 !! id =
      Some (mkBot (username session) id realm resource "eco-ng" true).
Proof.
  intros Hid He Hb Hp.
  destruct (parses_as_split _ _ _ _ Hid) as (Hat & Hsp & Hsl).
  destruct (authenticate_bot_path cfg session w id (realm +:+ "/" +:+ resource)
              realm resource) as (w1 & live & Hauth & Hbot & _);
    auto; try (rewrite ?Hsp, ?Hsl; reflexivity).
  exists w1. eexists. split; [exact Hauth|].
  unfold on_broker_client_connected.
  erewrite set_client_connected_bot;
    [ | rewrite Hsp; reflexivity | exact Hbot | reflexivity ].
  split; [reflexivity|]. cbn. rewrite lookup_alter_eq, Hbot. reflexivity.
Qed.

Lemma connect_marks_authenticated_bot_witness :
  exists w1 w2,
    authenticate (sample_config false "")
      (mkSession (Some "SN1") (Some "pw") sample_bot_id) empty_world
    = Ret true w1 /\
    on_broker_client_connected sample_bot_id w1 = Ret tt w2 /\
    bots w2 !! "did1" =
      Some (mkBot (Some "SN1") "did1" "ls1ok3" "wC3g" "eco-ng" true).
Proof.
  apply (connect_marks_authenticated_bot (sample_config false "")
           (mkSession (Some "SN1") (Some "pw") sample_bot_id) empty_world
           "did1" "ls1ok3" "wC3g").
  - repeat split; reflexivity.
  - reflexivity.
  - reflexivity.
  - intros H. discriminate H.
Defined.

(** X10: for a registered bot that the relay does not handle, the
    connect hook marks the bot as connected and the disconnect hook that
    follows marks it as not connected; the bot's other fields, the other
    bots, the clients (also one registered under the same resource) and
    the proxy table are as before. *)
Theorem connect_disconnect_round_trip {Json : Type} (cfg : Config Json)
    (client_id did : string) (b : Bot) (w : World) :
  not_relayed cfg client_id w ->
  PyStr.split PyStr.at_sign client_id !! 0%nat = Some did ->
  bots w !! did = Some b ->
  bot_did b = did ->
  exists w1 w2,
    on_broker_client_connected client_id w = Ret tt w1 /\
    bots w1 !! did = Some (mark_bot true b) /\
    on_broker_client_disconnected cfg client_id w1 = Ret tt w2 /\
    bots w2 = <[did := mark_bot false b]> (bots w) /\
    clients w2 = clients w /\
    proxyclients w2 = proxyclients w /\
    trace w2 = trace w ++ [EvBotSetMqtt did true; EvBotSetMqtt did false].
Proof.
  intros Hnr H0 Hb Hd. unfold on_broker_client_connected.
  rewrite (set_client_connected_bot client_id did b true w H0 Hb Hd).
  eexists. eexists. split; [reflexivity|].
  cbn [bots]. split; [by rewrite lookup_alter_eq, Hb|].
  unfold on_broker_client_disconnected.
  assert (Hskip :
    (if bumper_proxy_mode cfg
     then w0 ← get;
          if bool_decide (is_Some (proxyclients w0 !! client_id))
          then upstream_disconnect client_id else mret tt
     else mret tt)
      (mkWorld (alter (mark_bot true) did (bots w)) (clients w)
         (helper_client w) (command_responses w) (proxyclients w)
         (eco_helper_names w) (trace w ++ [EvBotSetMqtt did true]))
    = Ret tt
      (mkWorld (alter (mark_bot true) did (bots w)) (clients w)
         (helper_client w) (command_responses w) (proxyclients w)
         (eco_helper_names w) (trace w ++ [EvBotSetMqtt did true]))).
  { destruct Hnr as [-> | Hnone]; [reflexivity|].
    destruct (bumper_proxy_mode cfg); [|reflexivity].
    mrun. rewrite Hnone. rewrite bool_decide_false; [reflexivity|].
    intros [? ?]; discriminate. }
  unfold mbind at 1. unfold M_bind at 1. rewrite Hskip.
  erewrite (set_client_connected_bot client_id did (mark_bot true b));
    [ | exact H0 | cbn; by rewrite lookup_alter_eq, Hb | exact Hd ].
  split; [reflexivity|]. cbn.
  split; [|split; [reflexivity|split; [reflexivity|by rewrite <- app_assoc]]].
  apply map_eq. intros k. destruct (decide (did = k)) as [->|Hne].
  - by rewrite !lookup_alter_eq, lookup_insert_eq, Hb.
  - by rewrite !lookup_alter_ne, lookup_insert_ne.
Qed.

Lemma connect_disconnect_round_trip_witness :
  exists w1 w2,
    on_broker_client_connected sample_bot_id relayed_world = Ret tt w1 /\
    bots w1 !! "did1" =
      Some (mark_bot true (mkBot (Some "SN1") "did1" "ls1ok3" "wC3g" "eco-ng" true)) /\
    on_broker_client_disconnected (sample_config false "") sample_bot_id w1
      = Ret tt w2 /\
    bots w2 =
      <["did1" := mark_bot false
                    (mkBot (Some "SN1") "did1" "ls1ok3" "wC3g" "eco-ng" true)]>
        (bots relayed_world) /\
    clients w2 = clients relayed_world /\
    proxyclients w2 = proxyclients relayed_world /\
    trace w2 = trace relayed_world ++
               [EvBotSetMqtt "did1" true; EvBotSetMqtt "did1" false].
Proof.
  apply (connect_disconnect_round_trip (sample_config false "") sample_bot_id
           "did1" (mkBot (Some "SN1") "did1" "ls1ok3" "wC3g" "eco-ng" true)
           relayed_world).
  - left. reflexivity.
  - reflexivity.
  - vm_compute. reflexivity.
  - reflexivity.
Defined.

(** X11: for a client id [<id>@<realm>/<resource>] whose id names no
    bot, [_set_client_connected] sets the connection flag of the client
    registered under the resource and touches no bot. *)
Theorem set_client_connected_marks_client (cid id realm resource : string)
    (c : Client) (connected : bool) (w : World) :
  parses_as cid id realm resource ->
  bots w !! id = None ->
  clients w !! resource = Some c ->
  client_resource c = resource ->
  exists w',
    _set_client_connected cid connected w = Ret tt w' /\
    clients w' = <[resource := mark_client connected c]> (clients w) /\
    bots w' = bots w /\
    trace w' = trace w ++ [EvClientSetMqtt resource connected].
Proof.
  intros Hid Hb Hc Hr. destruct (parses_as_split _ _ _ _ Hid) as (_ & Hsp & Hsl).
  unfold _set_client_connected, bot_get, client_get, client_set_mqtt.
  mrun. rewrite Hsp. cbn [lookup list_lookup]. mrun. rewrite Hb. mrun.
  rewrite Hsl. cbn [lookup list_lookup]. mrun. rewrite Hc. mrun. rewrite Hr.
  eexists. split; [reflexivity|]. cbn. split; [|auto].
  apply map_eq. intros k. destruct (decide (resource = k)) as [->|Hne].
  - by rewrite lookup_alter_eq, lookup_insert_eq, Hc.
  - by rewrite lookup_alter_ne, lookup_insert_ne.
Qed.

Lemma set_client_connected_marks_client_witness :
  exists w',
    _set_client_connected sample_client_id true client_world = Ret tt w' /\
    clients w' =
      <["res1" := mark_client true (mkClient "user1" "ecouser" "res1" false)]>
        (clients client_world) /\
    bots w' = bots client_world /\
    trace w' = trace client_world ++ [EvClientSetMqtt "res1" true].
Proof.
  apply (set_client_connected_marks_client sample_client_id "user1" "ecouser"
           "res1" (mkClient "user1" "ecouser" "res1" false) true client_world).
  - repeat split; reflexivity.
  - reflexivity.
  - vm_compute. reflexivity.
  - reflexivity.
Defined.

(** ** More on the pruning pass *)

Lemma list_remove_sublist (x : Msg) (l l' : list Msg) :
  list_remove x l = Some l' -> sublist l' l.
Proof.
  revert l'. induction l as [|y l IH]; intros l' H; [discriminate|].
  cbn in H. destruct (decide (y = x)).
  - injection H as <-. by apply sublist_cons.
  - destruct (list_remove x l) as [r|]; [|discriminate].
    injection H as <-. apply sublist_skip. by apply IH.
Qed.

Lemma list_remove_other (x m : Msg) (l l' : list Msg) :
  list_remove x l = Some l' -> m <> x -> m ∈ l -> m ∈ l'.
Proof.
  revert l'. induction l as [|y l IH]; intros l' H Hne Hm; [discriminate|].
  cbn in H. destruct (decide (y = x)) as [->|Hy].
  - injection H as <-. apply elem_of_cons in Hm as [->|Hm]; [congruence|done].
  - destruct (list_remove x l) as [r|]; [|discriminate].
    injection H as <-. apply elem_of_cons in Hm as [->|Hm].
    + apply elem_of_cons; by left.
    + apply elem_of_cons; right. by apply (IH r).
Qed.

Lemma prune_loop_keeps_fresh (tz : PyTime.Zone) (fuel : nat) (now : Z) (i : nat) (w : World) :
  exists w',
    prune_loop tz fuel now i w = Ret tt w' /\
    sublist (command_responses w') (command_responses w) /\
    (forall m, m ∈ command_responses w -> expired tz now m = false ->
               m ∈ command_responses w').
Proof.
  revert i w. induction fuel as [|fuel IH]; intros i w; cbn [prune_loop].
  - exists w. mrun. split; [reflexivity|]. split; [reflexivity|auto].
  - mrun. destruct (command_responses w !! i) as [msg|] eqn:Hi.
    2:{ exists w. split; [reflexivity|]. split; [reflexivity|auto]. }
    destruct (expired tz now msg) eqn:Hexp.
    + unfold remove_response. mrun.
      destruct (list_remove_elem msg (command_responses w)) as (l' & Hrm & _).
      { eapply list_elem_of_lookup_2; eauto. }
      rewrite Hrm. mrun.
      match goal with |- context [prune_loop tz fuel now (S i) ?w1] =>
        destruct (IH (S i) w1) as (w' & -> & Hsub & Hkeep) end.
      cbn in Hsub, Hkeep.
      exists w'. split; [reflexivity|]. split.
      * etrans; [exact Hsub|]. by eapply list_remove_sublist.
      * intros m Hm Hfresh. apply Hkeep; [|exact Hfresh].
        eapply list_remove_other; eauto. congruence.
    + destruct (IH (S i) w) as (w' & -> & Hsub & Hkeep).
      exists w'. auto.
Qed.

(** X12: the pruning pass always runs to its end; the buffer it leaves
    is a sublist of the buffer it found (nothing added, the order kept),
    every record that has not expired is still there, and nothing but the
    buffer and the trace changes. *)
Theorem prune_keeps_fresh_records (tz : PyTime.Zone) (now : Z) (w : World) :
  exists w',
    prune tz now w = Ret tt w' /\
    buffer_step w w' /\
    sublist (command_responses w') (command_responses w) /\
    (forall m, m ∈ command_responses w -> expired tz now m = false ->
               m ∈ command_responses w').
Proof.
  unfold prune. mrun.
  destruct (prune_loop_keeps_fresh tz (length (command_responses w)) now 0 w)
    as (w' & Hrun & Hsub & Hkeep).
  destruct (prune_loop_returns tz (length (command_responses w)) now 0 w)
    as (w'' & Hrun' & Hstep & _).
  rewrite Hrun in Hrun'. injection Hrun' as <-.
  exists w'. auto.
Qed.

Lemma prune_loop_nodup (tz : PyTime.Zone) (fuel : nat) (now : Z) (done todo : list Msg) (w : World) :
  command_responses w = done ++ todo ->
  NoDup (done ++ todo) ->
  (length todo <= fuel)%nat ->
  exists w',
    prune_loop tz fuel now (length done) w = Ret tt w' /\
    command_responses w' = done ++ skip_prune tz now todo.
Proof.
  revert done todo w. induction fuel as [|fuel IH]; intros done todo w Hbuf Hnd Hlen.
  - destruct todo; [|cbn in Hlen; lia]. cbn [prune_loop skip_prune]. mrun.
    exists w. auto.
  - cbn [prune_loop]. mrun. rewrite Hbuf.
    destruct todo as [|x t].
    { rewrite lookup_ge_None_2 by (rewrite length_app; cbn; lia).
      exists w. cbn [skip_prune]. auto. }
    rewrite list_lookup_middle by reflexivity.
    cbn [skip_prune]. destruct (expired tz now x) eqn:Hexp.
    + unfold remove_response. mrun. rewrite Hbuf.
      rewrite list_remove_skip.
      2:{ apply NoDup_app in Hnd as (_ & Hdisj & _). intros Hin.
          apply (Hdisj x Hin). by left. }
      mrun. destruct t as [|y t'].
      * match goal with |- context [prune_loop tz fuel now _ ?w1] =>
          destruct (prune_loop_returns tz fuel now (S (length done)) w1)
            as (w' & Hrun & _ & Hsub);
          assert (Hfix : prune_loop tz fuel now (S (length done)) w1 = Ret tt w1)
        end.
        { destruct fuel; cbn [prune_loop]; mrun; [reflexivity|].
          rewrite lookup_ge_None_2 by (rewrite length_app; cbn; lia).
          reflexivity. }
        rewrite Hfix. eexists. split; [reflexivity|]. reflexivity.
      * match goal with |- context [prune_loop tz fuel now _ ?w1] =>
          destruct (IH (done ++ [y]) t' w1) as (w' & Hrun & Hres)
        end.
        { cbn. by rewrite <- app_assoc. }
        { rewrite <- app_assoc. cbn.
          eapply sublist_NoDup; [exact Hnd|].
          apply sublist_app; [reflexivity|]. by apply sublist_cons. }
        { cbn in Hlen. lia. }
        rewrite length_app in Hrun. cbn in Hrun.
        replace (length done + 1)%nat with (S (length done)) in Hrun by lia.
        rewrite Hrun. exists w'. split; [reflexivity|].
        rewrite Hres, <- app_assoc. reflexivity.
    + destruct (IH (done ++ [x]) t w) as (w' & Hrun & Hres).
      { by rewrite <- app_assoc. }
      { by rewrite <- app_assoc. }
      { cbn in Hlen. lia. }
      rewrite length_app in Hrun. cbn in Hrun.
      replace (length done + 1)%nat with (S (length done)) in Hrun by lia.
      rewrite Hrun. exists w'. split; [reflexivity|].
      rewrite Hres, <- app_assoc. reflexivity.
Qed.

(** X13: on a buffer without repeated records the pruning pass drops
    an expired record and steps over the record that follows it, expired
    or not: what is left is [skip_prune] of the buffer. *)
Theorem prune_steps_over_next_record (tz : PyTime.Zone) (now : Z) (w : World) :
  NoDup (command_responses w) ->
  exists w',
    prune tz now w = Ret tt w' /\
    command_responses w' = skip_prune tz now (command_responses w).
Proof.
  intros Hnd. unfold prune. mrun.
  apply (prune_loop_nodup tz _ now [] (command_responses w) w); auto.
Qed.

Lemma prune_steps_over_next_record_witness :
  exists w',
    prune PyTime.utc 1000 (buffer_world [mkMsg 0 "a" ""; mkMsg 1 "b" ""; mkMsg 2 "c" ""])
    = Ret tt w' /\
    command_responses w' =
      skip_prune PyTime.utc 1000
        (command_responses
           (buffer_world [mkMsg 0 "a" ""; mkMsg 1 "b" ""; mkMsg 2 "c" ""])).
Proof.
  apply (prune_steps_over_next_record PyTime.utc 1000
           (buffer_world [mkMsg 0 "a" ""; mkMsg 1 "b" ""; mkMsg 2 "c" ""])).
  apply (bool_decide_unpack _). vm_compute. reflexivity.
Defined.

Lemma skip_prune_isolated (tz : PyTime.Zone) (now : Z) (n : nat) (l : list Msg) :
  (length l <= n)%nat ->
  isolated tz now l ->
  skip_prune tz now l = List.filter (fun m => negb (expired tz now m)) l.
Proof.
  revert l. induction n as [|n IH]; intros l Hlen Hiso.
  - destruct l; [reflexivity | cbn in Hlen; lia].
  - destruct l as [|x [|y t]]; [reflexivity| |].
    + cbn. destruct (expired tz now x); reflexivity.
    + destruct Hiso as [Hxy Hiso]. cbn [skip_prune List.filter].
      destruct (expired tz now x) eqn:Hx; cbn [negb].
      * rewrite (Hxy eq_refl). cbn [negb]. f_equal.
        apply IH; [cbn in Hlen; lia|].
        destruct t as [|z t']; [exact I|]. apply Hiso.
      * f_equal. apply (IH (y :: t)); [cbn in *; lia | exact Hiso].
Qed.

(** X14: on a buffer without repeated records in which no expired
    record is directly followed by another expired one, the pruning pass
    removes exactly the expired records. *)
Theorem prune_removes_isolated_expired (tz : PyTime.Zone) (now : Z) (w : World) :
  NoDup (command_responses w) ->
  isolated tz now (command_responses w) ->
  exists w',
    prune tz now w = Ret tt w' /\
    command_responses w' =
      List.filter (fun m => negb (expired tz now m)) (command_responses w).
Proof.
  intros Hnd Hiso. unfold prune. mrun.
  destruct (prune_loop_nodup tz (length (command_responses w)) now []
              (command_responses w) w) as (w' & Hrun & Hres); auto.
  exists w'. split; [exact Hrun|].
  rewrite Hres. cbn [app]. by apply (skip_prune_isolated tz now _ _ (Nat.le_refl _)).
Qed.

Lemma prune_removes_isolated_expired_witness :
  exists w',
    prune PyTime.utc 1000 (buffer_world [mkMsg 0 "a" ""; mkMsg 990 "b" ""; mkMsg 2 "c" ""])
    = Ret tt w' /\
    command_responses w' =
      List.filter (fun m => negb (expired PyTime.utc 1000 m))
        (command_responses
           (buffer_world [mkMsg 0 "a" ""; mkMsg 990 "b" ""; mkMsg 2 "c" ""])).
Proof.
  apply (prune_removes_isolated_expired PyTime.utc 1000
           (buffer_world [mkMsg 0 "a" ""; mkMsg 990 "b" ""; mkMsg 2 "c" ""])).
  - apply (bool_decide_unpack _). vm_compute. reflexivity.
  - cbn. split; [intros _; reflexivity|]. split; [|exact I].
    intros H. discriminate H.
Defined.

(** ** More on the message hook *)

(** X15: for a message with at least seven topic segments from a
    client the relay does not handle, the message hook returns when the
    payload decodes as UTF-8 and raises [UnicodeDecodeError] when it does
    not; either way it changes nothing but the response buffer and the
    trace, and every record buffered afterwards was buffered before or is
    the record of this message, which then has [helperbot] as its
    destination segment: no other message is ever buffered. *)
Theorem message_hook_touches_only_buffer {Json : Type} (cfg : Config Json)
    (now : Z) (client_id : string) (message : Message) (w : World) :
  (7 <= length (PyStr.split PyStr.slash (topic message)))%nat ->
  not_relayed cfg client_id w ->
  exists w',
    on_broker_message_received cfg now client_id message w =
      (if PyBytes.utf8 (data message) then Ret tt w'
       else Raise UnicodeDecodeError w') /\
    buffer_step w w' /\
    (forall m, m ∈ command_responses w' ->
       m ∈ command_responses w \/
       (m = mkMsg now (topic message) (data message) /\
        segment 6 (topic message) = Some "helperbot")).
Proof.
  intros Hlen Hnr. destruct (PyBytes.utf8 (data message)) eqn:Hu.
  2:{ exists w. rewrite (hook_undecodable cfg _ _ _ _ Hu).
      split; [reflexivity|]. split; [apply buffer_step_refl|]. by left. }
  rewrite (hook_skips_relay cfg _ _ _ _ Hu Hnr).
  destruct (classify_returns now message (data message) w Hlen)
    as (w1 & Hc & Hst1 & Hbuf & _).
  mrun. rewrite Hc. unfold prune. mrun.
  destruct (prune_loop_returns (utcoffset cfg) (length (command_responses w1)) now 0 w1)
    as (w' & -> & Hst2 & Hsub).
  exists w'. split; [reflexivity|]. split.
  - by eapply buffer_step_trans.
  - intros m Hm. apply Hsub in Hm. rewrite Hbuf in Hm.
    destruct (bool_decide (segment 6 (topic message) = Some "helperbot")) eqn:H6;
      [|by left].
    apply bool_decide_eq_true in H6.
    apply elem_of_app in Hm as [Hm|Hm]; [by left|].
    apply list_elem_of_singleton in Hm. right. auto.
Qed.

Lemma message_hook_touches_only_buffer_witness :
  exists w',
    on_broker_message_received (sample_config false "") 100 sample_bot_id
      (mkMessage "iot/atr/errors/did1/ls1ok3/wC3g/j" "{}" 0)
      (buffer_world [other_reply]) = Ret tt w' /\
    buffer_step (buffer_world [other_reply]) w' /\
    (forall m, m ∈ command_responses w' ->
       m ∈ command_responses (buffer_world [other_reply]) \/
       (m = mkMsg 100 (topic (mkMessage "iot/atr/errors/did1/ls1ok3/wC3g/j" "{}" 0))
                  (data (mkMessage "iot/atr/errors/did1/ls1ok3/wC3g/j" "{}" 0)) /\
        segment 6 (topic (mkMessage "iot/atr/errors/did1/ls1ok3/wC3g/j" "{}" 0))
          = Some "helperbot")).
Proof.
  apply (message_hook_touches_only_buffer (sample_config false "") 100
           sample_bot_id (mkMessage "iot/atr/errors/did1/ls1ok3/wC3g/j" "{}" 0)
           (buffer_world [other_reply])).
  - vm_compute. lia.
  - left. reflexivity.
Defined.


(** X16: in proxy mode, for a client with a proxy session, a message
    whose sender segment is not [proxyhelper] never reaches the
    classification: the hook raises [NameError], or [UnicodeDecodeError]
    when the payload does not even decode, the response buffer and the
    trace are as before, so a reply of a relayed bot to the helper bot is
    not buffered and nothing is published upstream. *)
Theorem relayed_message_never_buffered {Json : Type} (cfg : Config Json)
    (now : Z) (client_id : string) (message : Message) (w : World)
    (seg3 seg6 : string) :
  bumper_proxy_mode cfg = true ->
  is_Some (proxyclients w !! client_id) ->
  segment 3 (topic message) = Some seg3 ->
  seg3 <> "proxyhelper" ->
  segment 6 (topic message) = Some seg6 ->
  (seg6 = "proxyhelper" -> is_Some (segment 10 (topic message))) ->
  exists w',
    on_broker_message_received cfg now client_id message w =
      Raise (if PyBytes.utf8 (data message) then NameError
             else UnicodeDecodeError) w' /\
    command_responses w' = command_responses w /\
    trace w' = trace w.
Proof.
  unfold segment. intros Hpm Hin H3 N3 H6 H10.
  destruct (PyBytes.utf8 (data message)) eqn:Hu.
  2:{ exists w. rewrite (hook_undecodable cfg _ _ _ _ Hu). auto. }
  unfold on_broker_message_received, forward_to_upstream, decode_utf8.
  rewrite Hu, Hpm. mrun. rewrite bool_decide_true by exact Hin. mrun.
  rewrite H3. mrun.
  destruct (String.eqb_spec seg3 "proxyhelper") as [|_]; [contradiction|].
  cbn [negb]. mrun. rewrite H6. mrun.
  destruct (String.eqb_spec seg6 "proxyhelper") as [E6|_]; mrun.
  - destruct (H10 E6) as [reqid ->]. mrun. eexists. repeat split; reflexivity.
  - eexists. repeat split; reflexivity.
Qed.

Lemma relayed_message_never_buffered_witness :
  exists w',
    on_broker_message_received (sample_config true "mq.example") 100
      sample_bot_id (mkMessage sample_reply_topic "{}" 0) relayed_world
    = Raise NameError w' /\
    command_responses w' = command_responses relayed_world /\
    trace w' = trace relayed_world.
Proof.
  apply (relayed_message_never_buffered (sample_config true "mq.example") 100
           sample_bot_id (mkMessage sample_reply_topic "{}" 0) relayed_world
           "did1" "helperbot").
  - reflexivity.
  - exists (mkProxyClient true). vm_compute. reflexivity.
  - reflexivity.
  - discriminate.
  - reflexivity.
  - intros H. discriminate H.
Defined.

(** ** More on request and reply correlation *)

Section CorrelationFacts.
Context {Json : Type} (cfg : Config Json).

(** What a scan that returns has found. *)
Lemma scan_sound (requestid : string) (msgs : list Msg) (w w' : World)
    (r : Result Json) :
  scan_responses cfg requestid msgs w = Ret (Some r) w' ->
  exists l1 m l2 p buf,
    msgs = l1 ++ m :: l2 /\
    Forall (fun m => passes requestid m = true) l1 /\
    matches requestid m = true /\
    decode cfg m = Some p /\
    r = ok_result requestid p /\
    list_remove m (command_responses w) = Some buf /\
    w' = world_of (set_command_responses buf w).
Proof.
  induction msgs as [|msg rest IH]; cbn [scan_responses]; mrun; [discriminate|].
  unfold matches, passes, decode, segment.
  destruct (PyStr.split PyStr.slash (msg_topic msg) !! 6%nat) as [s6|] eqn:H6;
    mrun; [|discriminate].
  assert (Hrest : passes requestid msg = true ->
    scan_responses cfg requestid rest w = Ret (Some r) w' ->
    exists l1 m l2 p buf,
      msg :: rest = l1 ++ m :: l2 /\
      Forall (fun m => passes requestid m = true) l1 /\
      matches requestid m = true /\
      decode cfg m = Some p /\
      r = ok_result requestid p /\
      list_remove m (command_responses w) = Some buf /\
      w' = world_of (set_command_responses buf w)).
  { intros Hp Hs. destruct (IH Hs) as (l1 & m & l2 & p & buf & -> & Hq & Hrest).
    exists (msg :: l1), m, l2, p, buf. split; [reflexivity|].
    split; [by constructor | exact Hrest]. }
  unfold passes, matches, decode, segment in Hrest. rewrite H6 in Hrest.
  destruct (String.eqb_spec s6 "helperbot") as [->|N6]; mrun.
  2:{ apply Hrest. reflexivity. }
  destruct (PyStr.split PyStr.slash (msg_topic msg) !! 10%nat) as [s10|] eqn:H10;
    mrun; [|discriminate].
  rewrite ?H10 in Hrest.
  destruct (String.eqb_spec s10 requestid) as [->|N10]; mrun.
  2:{ apply Hrest. reflexivity. }
  clear Hrest IH.
  destruct (PyStr.split PyStr.slash (msg_topic msg) !! 11%nat) as [s11|] eqn:H11;
    mrun; [|discriminate].
  unfold remove_response.
  assert (Hhit : forall p : RespPayload Json,
    (if String.eqb s11 "j" then PJson <$> json_loads cfg (msg_payload msg)
     else Some (PStr (msg_payload msg))) = Some p ->
    (w0 ← get;
     match list_remove msg (command_responses w0) with
     | Some buf => set_command_responses buf
     | None => raise ValueError
     end;; mret (Some (ok_result requestid p))) w = Ret (Some r) w' ->
    exists l1 m l2 p buf,
      msg :: rest = l1 ++ m :: l2 /\
      Forall (fun m => passes requestid m = true) l1 /\
      bool_decide (PyStr.split PyStr.slash (msg_topic m) !! 6%nat = Some "helperbot")
      && bool_decide (PyStr.split PyStr.slash (msg_topic m) !! 10%nat = Some requestid)
      = true /\
      match PyStr.split PyStr.slash (msg_topic m) !! 11%nat with
      | Some ptype =>
          if String.eqb ptype "j" then PJson <$> json_loads cfg (msg_payload m)
          else Some (PStr (msg_payload m))
      | None => None
      end = Some p /\
      r = ok_result requestid p /\
      list_remove m (command_responses w) = Some buf /\
      w' = world_of (set_command_responses buf w)).
  { intros p Hd. mrun.
    destruct (list_remove msg (command_responses w)) as [buf|] eqn:Hrm; mrun;
      [|discriminate].
    intros [= <- <-]. exists [], msg, rest, p, buf.
    rewrite H6, H10, H11, !bool_decide_true by reflexivity.
    repeat split; auto. }
  destruct (String.eqb s11 "j").
  - destruct (json_loads cfg (msg_payload msg)) as [j|]; mrun; [|discriminate].
    apply (Hhit (PJson j)). reflexivity.
  - mrun. apply (Hhit (PStr (msg_payload msg))). reflexivity.
Qed.

Lemma poll_sound (requestid : string) (w w' : World) (r : Result Json) :
  poll_responses cfg requestid w = Ret (Some r) w' ->
  exists l1 m l2 p,
    command_responses w = l1 ++ m :: l2 /\
    Forall (fun m => passes requestid m = true) l1 /\
    matches requestid m = true /\
    decode cfg m = Some p /\
    r = ok_result requestid p /\
    command_responses w' = l1 ++ l2.
Proof.
  unfold poll_responses. mrun.
  destruct (bool_decide _); [|discriminate].
  intros Hs. destruct (scan_sound _ _ _ _ _ Hs)
    as (l1 & m & l2 & p & buf & Hbuf & Hq & Hm & Hd & Hr & Hrm & ->).
  exists l1, m, l2, p. repeat split; auto. cbn.
  rewrite Hbuf, list_remove_skip in Hrm; [congruence|].
  intros Hin. rewrite Forall_forall in Hq. specialize (Hq _ Hin).
  apply passes_not_matches in Hq. congruence.
Qed.

Lemma scan_none_quiet (requestid : string) (msgs : list Msg) (w w' : World) :
  scan_responses cfg requestid msgs w = Ret None w' ->
  Forall (fun m => passes requestid m = true) msgs.
Proof.
  induction msgs as [|msg rest IH]; cbn [scan_responses]; mrun; [constructor|].
  intros Hs. assert (Hp : passes requestid msg = true /\
                          scan_responses cfg requestid rest w = Ret None w').
  { unfold passes, segment. revert Hs.
    destruct (PyStr.split PyStr.slash (msg_topic msg) !! 6%nat) as [s6|];
      mrun; [|discriminate].
    destruct (String.eqb s6 "helperbot"); mrun; [|auto].
    destruct (PyStr.split PyStr.slash (msg_topic msg) !! 10%nat) as [s10|];
      mrun; [|discriminate].
    destruct (String.eqb s10 requestid); mrun; [|auto].
    destruct (PyStr.split PyStr.slash (msg_topic msg) !! 11%nat) as [s11|];
      mrun; [|discriminate].
    unfold remove_response.
    destruct (String.eqb s11 "j");
      [destruct (json_loads cfg (msg_payload msg)); mrun; [|discriminate]|];
      mrun; destruct (list_remove msg (command_responses w)); mrun;
      discriminate. }
  destruct Hp as [Hp Hrest]. constructor; auto.
Qed.

Lemma poll_none_quiet (requestid : string) (w w' : World) :
  poll_responses cfg requestid w = Ret None w' ->
  w' = w /\ Forall (fun m => passes requestid m = true) (command_responses w).
Proof.
  intros Hp. pose proof (poll_shape cfg requestid w) as Hs. rewrite Hp in Hs.
  split; [exact Hs|]. revert Hp. unfold poll_responses. mrun.
  destruct (bool_decide _) eqn:Hlen.
  - apply scan_none_quiet.
  - intros _. apply bool_decide_eq_false in Hlen.
    destruct (command_responses w); [constructor | cbn in Hlen; lia].
Qed.

Lemma wait_loop_sound (sched : list Tick) (t_end : Z) (requestid : string)
    (w w' : World) (r : Result Json) :
  wait_loop cfg sched t_end requestid w = Some (Ret (Some r) w') ->
  exists pre tk post l1 m l2 p,
    sched = pre ++ tk :: post /\
    quiet_polls requestid t_end pre w /\
    tick_clock tk < t_end /\ tick_cancelled tk = false /\
    command_responses (tick_others tk (run_others pre w)) = l1 ++ m :: l2 /\
    Forall (fun m => passes requestid m = true) l1 /\
    matches requestid m = true /\
    decode cfg m = Some p /\
    r = ok_result requestid p /\
    command_responses w' = l1 ++ l2.
Proof.
  revert w. induction sched as [|tk sched IH]; intros w; cbn [wait_loop];
    [discriminate|].
  destruct (bool_decide (tick_clock tk < t_end)) eqn:Hc; [|discriminate].
  apply bool_decide_eq_true in Hc.
  destruct (tick_cancelled tk) eqn:Hx; [discriminate|].
  destruct (poll_responses cfg requestid (tick_others tk w)) as [[r0|] w0| |] eqn:Hp.
  - intros [= -> ->].
    destruct (poll_sound _ _ _ _ Hp) as (l1 & m & l2 & p & Hbuf & Hq & Hm & Hd & Hr & Hres).
    exists [], tk, sched, l1, m, l2, p. cbn. repeat split; auto.
  - destruct (poll_none_quiet _ _ _ Hp) as [-> Hq]. intros Hrest.
    destruct (IH _ Hrest)
      as (pre & tk' & post & l1 & m & l2 & p & -> & Hpre & Hrest').
    exists (tk :: pre), tk', post, l1, m, l2, p. cbn.
    split; [reflexivity|]. split; [auto|exact Hrest'].
  - discriminate.
  - discriminate.
Qed.

(** A cancelled sleep ends the wait with the failure result. *)
Lemma wait_loop_cancelled (pre post : list Tick) (tk : Tick) (t_end : Z)
    (requestid : string) (w : World) :
  quiet_polls requestid t_end pre w ->
  tick_clock tk < t_end ->
  tick_cancelled tk = true ->
  wait_loop cfg (pre ++ tk :: post) t_end requestid w =
  Some (Raise CancelledError (run_others pre w)).
Proof.
  revert w. induction pre as [|tk0 pre IH]; intros w Hq Hc Hx;
    cbn [app wait_loop run_others] in *.
  - rewrite bool_decide_true by exact Hc. by rewrite Hx.
  - destruct Hq as (Hc0 & Hx0 & Hq0 & Hrest).
    rewrite bool_decide_true by exact Hc0. rewrite Hx0.
    rewrite (poll_quiet _ _ _ Hq0). by apply IH.
Qed.

End CorrelationFacts.

(** X17: whenever [wait_for_resp] returns a result with [ret] equal
    to ["ok"], the polls before the returning one found nothing, the
    returning poll found a record whose destination segment is [helperbot]
    and whose request-id segment is the awaited id, the result carries that
    record's decoded payload, and exactly that record has left the buffer:
    records of other requests are never consumed. *)
Theorem wait_for_resp_consumes_only_its_reply {Json : Type} (cfg : Config Json)
    (sched : list Tick) (now : Z) (requestid : string) (w w' : World)
    (r : Result Json) :
  wait_for_resp cfg sched now requestid w = Some (Ret r w') ->
  res_ret r = "ok" ->
  exists pre tk post l1 m l2 p,
    sched = pre ++ tk :: post /\
    quiet_polls requestid (t_end cfg now) pre w /\
    tick_clock tk < t_end cfg now /\
    tick_cancelled tk = false /\
    command_responses (tick_others tk (run_others pre w)) = l1 ++ m :: l2 /\
    Forall (fun m => passes requestid m = true) l1 /\
    matches requestid m = true /\
    decode cfg m = Some p /\
    r = ok_result requestid p /\
    command_responses w' = l1 ++ l2.
Proof.
  unfold wait_for_resp. intros Hw Hok.
  destruct (wait_loop cfg sched _ requestid w) as [[[r0|] w0|e w0|c w0]|] eqn:Hl;
    try discriminate.
  - injection Hw as -> ->. by apply wait_loop_sound.
  - injection Hw as <- <-. discriminate Hok.
  - destruct e; revert Hw; mrun; intros [= <- <-]; discriminate Hok.
Qed.

Lemma wait_for_resp_consumes_only_its_reply_witness :
  exists pre tk post l1 m l2 p,
    [mkTick 1 false idle;
     mkTick 2 false (deliver (mkMsg 2 sample_reply_topic "{}"))]
      = pre ++ tk :: post /\
    quiet_polls "REQ1" (t_end (sample_config false "") 0) pre (helper_world []) /\
    tick_clock tk < t_end (sample_config false "") 0 /\
    tick_cancelled tk = false /\
    command_responses (tick_others tk (run_others pre (helper_world [])))
      = l1 ++ m :: l2 /\
    Forall (fun m => passes "REQ1" m = true) l1 /\
    matches "REQ1" m = true /\
    decode (sample_config false "") m = Some p /\
    ok_result "REQ1" (PJson "{}") = ok_result "REQ1" p /\
    command_responses (helper_world []) = l1 ++ l2.
Proof.
  apply (wait_for_resp_consumes_only_its_reply (sample_config false "")
           [mkTick 1 false idle;
            mkTick 2 false (deliver (mkMsg 2 sample_reply_topic "{}"))]
           0 "REQ1" (helper_world []) (helper_world [])
           (ok_result "REQ1" (PJson "{}"))).
  - vm_compute. reflexivity.
  - reflexivity.
Defined.

(** X18: when the sleep of a poll inside the window is cancelled,
    after polls that found nothing, [wait_for_resp] returns the failure
    result, logs the cancellation and leaves the response buffer as the
    other tasks left it. *)
Theorem wait_for_resp_cancelled {Json : Type} (cfg : Config Json)
    (pre post : list Tick) (tk : Tick) (now : Z) (requestid : string)
    (w : World) :
  quiet_polls requestid (t_end cfg now) pre w ->
  tick_clock tk < t_end cfg now ->
  tick_cancelled tk = true ->
  exists w',
    wait_for_resp cfg (pre ++ tk :: post) now requestid w =
      Some (Ret (timeout_result requestid) w') /\
    command_responses w' = command_responses (run_others pre w) /\
    trace w' = trace (run_others pre w) ++
               [EvLog helperbotlog debug "wait_for_resp cancelled by asyncio"].
Proof.
  intros Hq Hc Hx. unfold wait_for_resp.
  rewrite (wait_loop_cancelled cfg pre post tk _ requestid w Hq Hc Hx).
  mrun. eexists. repeat split; reflexivity.
Qed.

Lemma wait_for_resp_cancelled_witness :
  exists w',
    wait_for_resp (sample_config false "")
      ([mkTick 1 false idle] ++ mkTick 2 true idle :: []) 0 "REQ1"
      (helper_world [])
    = Some (Ret (timeout_result "REQ1") w') /\
    command_responses w' =
      command_responses (run_others [mkTick 1 false idle] (helper_world [])) /\
    trace w' = trace (run_others [mkTick 1 false idle] (helper_world [])) ++
               [EvLog helperbotlog debug "wait_for_resp cancelled by asyncio"].
Proof.
  apply (wait_for_resp_cancelled (sample_config false "")
           [mkTick 1 false idle] [] (mkTick 2 true idle) 0 "REQ1"
           (helper_world [])).
  - cbn [quiet_polls].
    split; [vm_compute; reflexivity|]. split; [reflexivity|]. split; [|exact I].
    repeat constructor.
  - vm_compute. reflexivity.
  - reflexivity.
Defined.

(** X19: whenever [wait_for_resp] ends, it ends by returning a result
    dict whose [id] is the awaited request id and which is either an
    ["ok"] result or the failure result; it never raises, whatever the
    buffer holds. *)
Theorem wait_for_resp_never_raises {Json : Type} (cfg : Config Json)
    (sched : list Tick) (now : Z) (requestid : string) (w : World)
    (o : Outcome (Result Json)) :
  wait_for_resp cfg sched now requestid w = Some o ->
  exists r w',
    o = Ret r w' /\ res_id r = requestid /\
    (res_ret r = "ok" \/ r = timeout_result requestid).
Proof.
  unfold wait_for_resp. intros Hw.
  destruct (wait_loop cfg sched _ requestid w) as [o0|] eqn:Hl; [|discriminate].
  pose proof (wait_loop_shape cfg sched _ requestid w o0 Hl) as Hs.
  destruct o0 as [[r0|] w0|e w0|c w0]; try contradiction.
  - destruct Hs as [p ->]. injection Hw as <-. eauto 6.
  - injection Hw as <-. eauto 6.
  - destruct e; revert Hw; mrun; intros [= <-]; eauto 6.
Qed.

Lemma wait_for_resp_never_raises_witness :
  exists (r : Result string) w',
    Ret (timeout_result "REQ1")
        (mkWorld ∅ ∅ None [mkMsg 1 "a/b/c/d/e/f/helperbot" ""] ∅ ∅
           [EvLog helperbotlog exception "wait_for_resp"])
      = Ret r w' /\
    res_id r = "REQ1" /\
    (res_ret r = "ok" \/ r = timeout_result "REQ1").
Proof.
  apply (wait_for_resp_never_raises (sample_config false "")
           [mkTick 1 false idle] 0 "REQ1"
           (buffer_world [mkMsg 1 "a/b/c/d/e/f/helperbot" ""])).
  vm_compute. reflexivity.
Defined.

(** ** Splitting and joining topics *)

Lemma split_cons_sep (sep : ascii) (s : string) :
  PyStr.split sep (String sep s) = "" :: PyStr.split sep s.
Proof. cbn. by rewrite Ascii.eqb_refl. Qed.

Lemma join_cons (sep seg : string) (segs : list string) :
  segs <> [] ->
  PyStr.join sep (seg :: segs) = seg +:+ sep +:+ PyStr.join sep segs.
Proof. destruct segs; [congruence | reflexivity]. Qed.

Lemma join_split (sep : ascii) (s : string) :
  PyStr.join (String sep "") (PyStr.split sep s) = s.
Proof.
  induction s as [|c s IH]; [reflexivity|].
  cbn [PyStr.split]. destruct (Ascii.eqb_spec c sep) as [->|Hne].
  - rewrite join_cons by apply split_not_nil. rewrite IH. reflexivity.
  - pose proof (split_not_nil sep s) as Hnil.
    destruct (PyStr.split sep s) as [|seg segs]; [congruence|].
    destruct segs as [|seg' segs].
    + cbn in *. by rewrite IH.
    + rewrite join_cons in IH by discriminate.
      rewrite join_cons by discriminate. cbn. by rewrite <- IH.
Qed.

Lemma split_join (sep : ascii) (segs : list string) :
  segs <> [] ->
  Forall (fun seg => PyStr.has_char sep seg = false) segs ->
  PyStr.split sep (PyStr.join (String sep "") segs) = segs.
Proof.
  intros Hne Hall. induction Hall as [|seg segs Hseg Hall IH]; [congruence|].
  destruct segs as [|seg' segs].
  - cbn. by apply split_no_sep.
  - rewrite join_cons by discriminate.
    change (String sep "" +:+ PyStr.join (String sep "") (seg' :: segs))
      with (String sep (PyStr.join (String sep "") (seg' :: segs))).
    rewrite split_app_sep by exact Hseg. rewrite IH by discriminate. reflexivity.
Qed.

Lemma split_sep_free (sep : ascii) (s : string) :
  Forall (fun seg => PyStr.has_char sep seg = false) (PyStr.split sep s).
Proof.
  induction s as [|c s IH]; [by repeat constructor|].
  cbn [PyStr.split]. destruct (Ascii.eqb c sep) eqn:Hc.
  - constructor; [reflexivity | exact IH].
  - pose proof (split_not_nil sep s) as Hnil.
    destruct (PyStr.split sep s) as [|seg segs]; [congruence|].
    inversion IH as [|? ? Hseg Hsegs]; subst.
    constructor; [|exact Hsegs]. cbn. by rewrite Hc, Hseg.
Qed.

(** ** Commands and replies end to end *)




(** X21: when the command lacks one of the keys the request topic is
    built from ([cmdName], [toId], [toType], [toRes], [payloadType]),
    [send_command] with the writer present returns the failure result
    with the debug text of the exception path at once, without publishing
    and without waiting, whatever the schedule; the buffer is untouched. *)
Theorem send_command_missing_key {Json : Type} (cfg : Config Json)
    (sched : list Tick) (now : Z) (cmdjson : Cmd Json) (requestid : string)
    (w : World) (c : MQTTClient) (h : ClientProtocolHandler) :
  helper_client w = Some c ->
  handler c = Some h ->
  is_Some (writer h) ->
  lacks_topic_key cmdjson ->
  exists w',
    send_command cfg sched now cmdjson requestid w =
      Some (Ret (Some (exception_result requestid)) w') /\
    command_responses w' = command_responses w /\
    trace w' = trace w ++ [EvLog helperbotlog exception "send_command"].
Proof.
  intros Hc Hh [u Hw] Hk. unfold send_command.
  rewrite (client_writer_connected w c h Hc Hh), Hw.
  assert (Hp : publish_command cfg cmdjson requestid w = Raise KeyError w).
  { unfold lacks_topic_key in Hk. unfold publish_command, command_topic. mrun.
    destruct (cmdName cmdjson); mrun; [|reflexivity].
    destruct (toId cmdjson); mrun; [|reflexivity].
    destruct (toType cmdjson); mrun; [|reflexivity].
    destruct (toRes cmdjson); mrun; [|reflexivity].
    destruct (payloadType cmdjson); mrun; [|reflexivity].
    destruct Hk as [?|[?|[?|[?|?]]]]; discriminate. }
  rewrite Hp. mrun. eexists. repeat split; reflexivity.
Qed.

Lemma send_command_missing_key_witness :
  exists w',
    send_command (sample_config false "") [] 0
      (mkCmd (Some "GetInfo") None (Some "ls1ok3") (Some "wC3g") (Some "j")
             (Some "{}"))
      "REQ1" (helper_world [])
    = Some (Ret (Some (exception_result "REQ1")) w') /\
    command_responses w' = command_responses (helper_world []) /\
    trace w' = trace (helper_world []) ++
               [EvLog helperbotlog exception "send_command"].
Proof.
  apply (send_command_missing_key (sample_config false "") [] 0
           (mkCmd (Some "GetInfo") None (Some "ls1ok3") (Some "wC3g")
                  (Some "j") (Some "{}"))
           "REQ1" (helper_world [])
           (mkMQTTClient (Some (mkHandler (Some tt)))) (mkHandler (Some tt))).
  - reflexivity.
  - reflexivity.
  - by eexists.
  - right. left. reflexivity.
Defined.



(** X23: the request topic [send_command] builds from fields without
    ['/'] splits into the twelve segments of the grammar, the request id
    at position 10 and the payload type at position 11; when the message
    hook sees the command (target id other than [helperbot]) it logs it as
    a sent command and buffers nothing. *)
Theorem own_command_is_not_a_reply {Json : Type} (cfg : Config Json)
    (cmdjson : Cmd Json) (requestid : string) (w : World)
    (name to_id to_type to_res ptype : string)
    (now : Z) (client_id body : string) (q : Z) (w0 : World) :
  cmdName cmdjson = Some name ->
  toId cmdjson = Some to_id ->
  toType cmdjson = Some to_type ->
  toRes cmdjson = Some to_res ->
  payloadType cmdjson = Some ptype ->
  Forall (fun s => PyStr.has_char PyStr.slash s = false)
         [name; to_id; to_type; to_res; requestid; ptype] ->
  to_id <> "helperbot" ->
  not_relayed cfg client_id w0 ->
  exists t w',
    command_topic cmdjson requestid w = Ret t w /\
    PyStr.split PyStr.slash t =
      ["iot"; "p2p"; name; "helperbot"; "bumper"; "helperbot";
       to_id; to_type; to_res; "q"; requestid; ptype] /\
    on_broker_message_received cfg now client_id (mkMessage t body q) w0
      = (if PyBytes.utf8 body then Ret tt w'
         else Raise UnicodeDecodeError w') /\
    (PyBytes.utf8 body = true ->
     EvLog helperbotlog debug "Send Command" ∈ trace w') /\
    (forall m, m ∈ command_responses w' -> m ∈ command_responses w0).
Proof.
  intros Hn Hi Ht Hr Hp Hfree Nh Hnr.
  set (segs := ["iot"; "p2p"; name; "helperbot"; "bumper"; "helperbot";
                to_id; to_type; to_res; "q"; requestid; ptype]).
  assert (Hsplit : PyStr.split PyStr.slash (PyStr.join "/" segs) = segs).
  { apply (split_join PyStr.slash); [discriminate|].
    inversion Hfree as [|? ? F1 Hf1]; subst.
    inversion Hf1 as [|? ? F2 Hf2]; subst.
    inversion Hf2 as [|? ? F3 Hf3]; subst.
    inversion Hf3 as [|? ? F4 Hf4]; subst.
    inversion Hf4 as [|? ? F5 Hf5]; subst.
    inversion Hf5 as [|? ? F6 _]; subst.
    subst segs. repeat constructor; auto. }
  exists (PyStr.join "/" segs).
  assert (Htopic : command_topic cmdjson requestid w = Ret (PyStr.join "/" segs) w).
  { unfold command_topic. mrun. rewrite Hn, Hi, Ht, Hr, Hp. reflexivity. }
  destruct (PyBytes.utf8 body) eqn:Hu.
  2:{ exists w0. rewrite (hook_undecodable cfg now client_id (mkMessage (PyStr.join "/" segs) body q) w0 Hu).
      split; [exact Htopic|]. split; [exact Hsplit|].
      split; [reflexivity|]. split; [discriminate|auto]. }
  rewrite (hook_skips_relay cfg now client_id (mkMessage (PyStr.join "/" segs) body q) w0 Hu Hnr).
  cbn [data].
  assert (Hclass : exists w1,
    classify now (mkMessage (PyStr.join "/" segs) body q) body w0 = Ret tt w1 /\
    command_responses w1 = command_responses w0 /\
    EvLog helperbotlog debug "Send Command" ∈ trace w1).
  { unfold classify, index. cbn [topic]. cbv zeta. rewrite Hsplit. subst segs.
    cbn [lookup list_lookup]. mrun.
    destruct (String.eqb_spec to_id "helperbot") as [|_]; [contradiction|].
    mrun. cbn [String.eqb Ascii.eqb Bool.eqb]. mrun.
    eexists. split; [reflexivity|]. split; [reflexivity|].
    cbn. apply elem_of_app. right. by apply list_elem_of_singleton. }
  destruct Hclass as (w1 & Hc & Hbuf & Hlog).
  mrun. rewrite Hc. unfold prune. mrun.
  destruct (prune_loop_returns (utcoffset cfg) (length (command_responses w1)) now 0 w1)
    as (w' & -> & Hst & Hsub).
  exists w'. split; [exact Htopic|]. split; [exact Hsplit|].
  split; [reflexivity|]. split.
  - intros _. destruct Hst as (_&_&_&_&_&Htr). by apply Htr.
  - intros m Hm. rewrite <- Hbuf. by apply Hsub.
Qed.

Lemma own_command_is_not_a_reply_witness :
  exists t w',
    command_topic sample_cmd "REQ1" empty_world = Ret t empty_world /\
    PyStr.split PyStr.slash t =
      ["iot"; "p2p"; "GetInfo"; "helperbot"; "bumper"; "helperbot";
       "did1"; "ls1ok3"; "wC3g"; "q"; "REQ1"; "j"] /\
    on_broker_message_received (sample_config false "") 5
      "helperbot@bumper/helperbot" (mkMessage t "{}" 0) (helper_world [])
      = Ret tt w' /\
    (PyBytes.utf8 "{}" = true ->
     EvLog helperbotlog debug "Send Command" ∈ trace w') /\
    (forall m, m ∈ command_responses w' ->
               m ∈ command_responses (helper_world [])).
Proof.
  apply (own_command_is_not_a_reply (sample_config false "") sample_cmd "REQ1"
           empty_world "GetInfo" "did1" "ls1ok3" "wC3g" "j" 5
           "helperbot@bumper/helperbot" "{}" 0 (helper_world [])).
  - reflexivity.
  - reflexivity.
  - reflexivity.
  - reflexivity.
  - reflexivity.
  - repeat constructor.
  - discriminate.
  - left. reflexivity.
Defined.

(** ** More on the relay from upstream *)

Lemma relay_step_refl w : relay_step w w.
Proof. repeat split. Qed.

Lemma relay_step_trans w1 w2 w3 :
  relay_step w1 w2 -> relay_step w2 w3 -> relay_step w1 w3.
Proof. intros (?&?&?&?&?) (?&?&?&?&?). repeat split; congruence. Qed.

Lemma relay_from_upstream_step (message : Message) (w : World) :
  match relay_from_upstream message w with
  | Ret _ w' | Raise _ w' => relay_step w w'
  | Exit _ _ => False
  end.
Proof.
  unfold relay_from_upstream, decode_utf8, helper_publish.
  run_all; repeat split; cbn; congruence.
Qed.

Lemma get_msg_loop_step (client_id : string) (delivered : list Message) (w : World) :
  match get_msg_loop client_id delivered w with
  | Ret _ w' | Raise _ w' => relay_step w w'
  | Exit _ _ => False
  end.
Proof.
  revert w. induction delivered as [|m rest IH]; intros w; cbn [get_msg_loop].
  - apply relay_step_refl.
  - unfold is_connected. mrun.
    destruct (from_option connected_state false (proxyclients w !! client_id));
      [|apply relay_step_refl].
    mrun. pose proof (relay_from_upstream_step m w) as Hm.
    destruct (relay_from_upstream m w) as [[] w1|e w1|]; [|exact Hm|exact Hm].
    specialize (IH w1).
    destruct (get_msg_loop client_id rest w1) as [[] w2|e w2|];
      [| |exact IH]; by eapply relay_step_trans.
Qed.

(** X24: [get_msg] never raises, whatever the upstream delivers: it
    returns, and the registry, the response buffer, the helper bot's client
    and the proxy table are as before (only the request-id mapping and the
    trace can change). *)
Theorem get_msg_never_raises (client_id : string) (delivered : list Message)
    (w : World) :
  exists w',
    get_msg client_id delivered w = Ret tt w' /\
    bots w' = bots w /\ clients w' = clients w /\
    helper_client w' = helper_client w /\
    command_responses w' = command_responses w /\
    proxyclients w' = proxyclients w.
Proof.
  unfold get_msg, try_except.
  pose proof (get_msg_loop_step client_id delivered w) as Hs.
  destruct (get_msg_loop client_id delivered w) as [[] w1|e w1|];
    [| |contradiction].
  - exists w1. split; [reflexivity|exact Hs].
  - mrun. eexists. split; [reflexivity|]. exact Hs.
Qed.

(** A proxy client that is not connected relays nothing. *)
Lemma get_msg_disconnected (client_id : string) (delivered : list Message)
    (w : World) :
  from_option connected_state false (proxyclients w !! client_id) = false ->
  get_msg client_id delivered w = Ret tt w.
Proof.
  intros Hd. unfold get_msg, try_except.
  destruct delivered as [|m rest]; [reflexivity|].
  cbn [get_msg_loop]. unfold is_connected. mrun. by rewrite Hd.
Qed.

(** X25: a peer-to-peer message from upstream with fewer than eleven
    topic segments ends the relay of a connected proxy client: the
    exception is logged, the message is not republished, no mapping is
    recorded, and the messages delivered after it are not relayed.  The
    log line of the receipt is there when the payload decodes as UTF-8;
    when it does not, the decoding is what raises. *)
Theorem get_msg_stops_at_short_p2p (client_id : string) (message : Message)
    (rest : list Message) (w : World) :
  from_option connected_state false (proxyclients w !! client_id) = true ->
  segment 1 (topic message) = Some "p2p" ->
  segment 10 (topic message) = None ->
  exists w',
    get_msg client_id (message :: rest) w = Ret tt w' /\
    eco_helper_names w' = eco_helper_names w /\
    trace w' = trace w ++
      (if PyBytes.utf8 (data message)
       then [EvLog proxymodelog info "Message Received From Ecovacs"]
       else []) ++
      [EvLog proxymodelog error "get_msg Exception"].
Proof.
  unfold segment. intros Hc H1 H10. unfold get_msg, try_except.
  cbn [get_msg_loop]. unfold is_connected, relay_from_upstream, decode_utf8.
  mrun. rewrite Hc.
  destruct (PyBytes.utf8 (data message)); mrun.
  2:{ eexists. split; [reflexivity|]. split; reflexivity. }
  rewrite H1. mrun. cbn [String.eqb Ascii.eqb Bool.eqb].
  mrun. rewrite H10.
  destruct (PyStr.split PyStr.slash (topic message) !! 3%nat); mrun;
    (eexists; split; [reflexivity|]; split; [reflexivity|]);
    cbn; by rewrite <- app_assoc.
Qed.

Lemma get_msg_stops_at_short_p2p_witness :
  exists w',
    get_msg sample_bot_id
      (mkMessage "iot/p2p/GetInfo" "{}" 0
       :: [mkMessage "iot/p2p/cmdX/HELPERNAME/t/r/did1/ls1ok3/wC3g/q/REQ2/j" "{}" 0])
      relayed_world = Ret tt w' /\
    eco_helper_names w' = eco_helper_names relayed_world /\
    trace w' = trace relayed_world ++
      [EvLog proxymodelog info "Message Received From Ecovacs";
       EvLog proxymodelog error "get_msg Exception"].
Proof.
  apply (get_msg_stops_at_short_p2p sample_bot_id
           (mkMessage "iot/p2p/GetInfo" "{}" 0)
           [mkMessage "iot/p2p/cmdX/HELPERNAME/t/r/did1/ls1ok3/wC3g/q/REQ2/j" "{}" 0]
           relayed_world).
  - vm_compute. reflexivity.
  - reflexivity.
  - reflexivity.
Defined.

(** X26: with the helper bot's client in place, for a peer-to-peer
    message from upstream that decodes as UTF-8 and has at least eleven
    topic segments, the relay republishes the payload unchanged on a topic
    that splits into the segments of the original topic with only the
    sender segment replaced by [proxyhelper], and the request id maps to
    the original sender afterwards. *)
Theorem relay_rewrites_only_sender (message : Message) (w : World)
    (sender reqid : string) :
  is_Some (helper_client w) ->
  PyBytes.utf8 (data message) = true ->
  segment 1 (topic message) = Some "p2p" ->
  segment 3 (topic message) = Some sender ->
  segment 10 (topic message) = Some reqid ->
  exists t w',
    relay_from_upstream message w = Ret tt w' /\
    trace w' = trace w ++
      [EvLog proxymodelog info "Message Received From Ecovacs";
       EvLog proxymodelog info "Converted Topic";
       EvLog proxymodelog info "Proxy Forward Message to Robot";
       EvHelperPublish t (data message)] /\
    PyStr.split PyStr.slash t =
      <[3%nat := "proxyhelper"]> (PyStr.split PyStr.slash (topic message)) /\
    eco_helper_names w' !! reqid = Some sender.
Proof.
  unfold segment. intros [c Hc] Hu H1 H3 H10.
  unfold relay_from_upstream, decode_utf8, helper_publish.
  rewrite Hu. mrun. rewrite H1. mrun. cbn [String.eqb Ascii.eqb Bool.eqb]. mrun.
  rewrite H3. mrun. rewrite H10. mrun. rewrite Hc. mrun.
  eexists. eexists. split; [reflexivity|]. cbn.
  split; [by rewrite <- !app_assoc|]. split; [|apply lookup_insert_eq].
  apply (split_join PyStr.slash).
  - intros Hnil. apply (f_equal length) in Hnil.
    rewrite length_insert in Hnil. apply lookup_lt_Some in H3.
    cbn in Hnil. lia.
  - apply Forall_insert; [apply split_sep_free | reflexivity].
Qed.

Lemma relay_rewrites_only_sender_witness :
  exists t w',
    relay_from_upstream
      (mkMessage "iot/p2p/cmdX/HELPERNAME/t/r/did1/ls1ok3/wC3g/q/REQ2/j" "{}" 0)
      relayed_world = Ret tt w' /\
    trace w' = trace relayed_world ++
      [EvLog proxymodelog info "Message Received From Ecovacs";
       EvLog proxymodelog info "Converted Topic";
       EvLog proxymodelog info "Proxy Forward Message to Robot";
       EvHelperPublish t
         (data (mkMessage "iot/p2p/cmdX/HELPERNAME/t/r/did1/ls1ok3/wC3g/q/REQ2/j" "{}" 0))] /\
    PyStr.split PyStr.slash t =
      <[3%nat := "proxyhelper"]>
        (PyStr.split PyStr.slash
           (topic (mkMessage "iot/p2p/cmdX/HELPERNAME/t/r/did1/ls1ok3/wC3g/q/REQ2/j" "{}" 0))) /\
    eco_helper_names w' !! "REQ2" = Some "HELPERNAME".
Proof.
  apply (relay_rewrites_only_sender
           (mkMessage "iot/p2p/cmdX/HELPERNAME/t/r/did1/ls1ok3/wC3g/q/REQ2/j" "{}" 0)
           relayed_world "HELPERNAME" "REQ2").
  - by eexists.
  - reflexivity.
  - reflexivity.
  - reflexivity.
  - reflexivity.
Defined.

(** X27: when the vendor cloud refuses the connection
    [authenticate] opens for a bot, the bot is authenticated all the same
    and the [get_msg] task started for it relays nothing, whatever is
    delivered: it returns at its first test of the connected state. *)
Theorem refused_upstream_relays_nothing {Json : Type} (cfg : Config Json)
    (session : Session) (w : World) (id realm resource : string) :
  parses_as (client_id session) id realm resource ->
  PyStr.contains "ecouser" (realm +:+ "/" +:+ resource) = false ->
  PyStr.contains "bumper" (realm +:+ "/" +:+ resource) = false ->
  bumper_proxy_mode cfg = true ->
  PyStr.truthy (mqtt_server cfg) = true ->
  upstream_accepts cfg (client_id session) = false ->
  exists w',
    authenticate cfg session w = Ret true w' /\
    EvCreateTaskGetMsg (client_id session) ∈ trace w' /\
    forall delivered, get_msg (client_id session) delivered w' = Ret tt w'.
Proof.
  intros Hid He Hb Hpm Hs Hup. enter_parsed Hid.
  rewrite He, Hb. cbn [negb orb]. mrun. rewrite Hsl. cbn [lookup list_lookup].
  mrun. rewrite Hpm, Hs. mrun. rewrite Hup. mrun.
  rewrite andb_false_r. mrun. rewrite andb_false_r.
  eexists. split; [reflexivity|]. split.
  - cbn. rewrite !elem_of_app, !list_elem_of_singleton. auto 10.
  - intros delivered. apply get_msg_disconnected. cbn.
    by rewrite lookup_insert_eq.
Qed.

Lemma refused_upstream_relays_nothing_witness :
  exists w',
    authenticate offline_config
      (mkSession (Some "SN1") (Some "pw") sample_bot_id) empty_world
    = Ret true w' /\
    EvCreateTaskGetMsg sample_bot_id ∈ trace w' /\
    forall delivered, get_msg sample_bot_id delivered w' = Ret tt w'.
Proof.
  apply (refused_upstream_relays_nothing offline_config
           (mkSession (Some "SN1") (Some "pw") sample_bot_id) empty_world
           "did1" "ls1ok3" "wC3g").
  - repeat split; reflexivity.
  - reflexivity.
  - reflexivity.
  - reflexivity.
  - reflexivity.
  - reflexivity.
Defined.

(** ** Reading the password file *)

Lemma split_max_no_sep (sep : ascii) (n : nat) (s : string) :
  PyStr.has_char sep s = false -> PyText.split_max sep n s = [s].
Proof.
  induction s as [|c s IH]; destruct n; cbn; try reflexivity.
  intros H. apply orb_false_iff in H as [Hc Hs].
  rewrite Hc. cbn in IH. rewrite (IH Hs). reflexivity.
Qed.

Lemma split_max_app_sep (sep : ascii) (n : nat) (a b : string) :
  PyStr.has_char sep a = false ->
  PyText.split_max sep (S n) (a +:+ String sep b) =
  a :: PyText.split_max sep n b.
Proof.
  induction a as [|c a IH]; simpl.
  - intros _. by rewrite Ascii.eqb_refl.
  - intros H. apply orb_false_iff in H as [Hc Ha].
    rewrite Hc. simpl in IH. rewrite (IH Ha). reflexivity.
Qed.

Lemma read_password_lines_app (l1 l2 : list string) (users : gmap string string) :
  read_password_lines (l1 ++ l2) users =
  match read_password_lines l1 users with
  | (m, None) => read_password_lines l2 m
  | r => r
  end.
Proof.
  revert users. induction l1 as [|l l1 IH]; intros users; cbn [app read_password_lines].
  - reflexivity.
  - destruct (negb _); [|apply IH].
    destruct (PyText.split_max PyText.colon 3 (PyText.strip l)) as [|u [|h [|? ?]]];
      try reflexivity.
    apply IH.
Qed.

Lemma prefix_hash (c : ascii) (s : string) :
  String.prefix "#" (String c s) = Ascii.eqb c "#".
Proof.
  cbn [String.prefix]. destruct (ascii_dec "#" c) as [<-|Hne].
  - rewrite Ascii.eqb_refl. by destruct s.
  - symmetry. apply Ascii.eqb_neq. congruence.
Qed.

Lemma read_entry_line (l u h : string) (rest : list string)
    (users : gmap string string) :
  entry_line l u h ->
  read_password_lines (l :: rest) users =
  read_password_lines rest (<[u := h]> users).
Proof.
  intros (Hl & Hu & Hc & Hcu & Hch). cbn [read_password_lines]. rewrite Hl.
  assert (Hp : String.prefix "#" (u +:+ ":" +:+ h) = false).
  { destruct u as [|c u]; [congruence|].
    change (String c u +:+ ":" +:+ h) with (String c (u +:+ ":" +:+ h)).
    rewrite prefix_hash in *. exact Hc. }
  rewrite Hp. cbn [negb].
  change (":" +:+ h) with (String PyText.colon h).
  rewrite (split_max_app_sep _ _ _ _ Hcu), (split_max_no_sep _ _ _ Hch).
  destruct u; [congruence|]. reflexivity.
Qed.

(** X28: an entry line [user:hash] read after lines that raised
    nothing stores the hash under the user, replacing whatever an earlier
    line stored for that user: of duplicate usernames the last one read
    wins. *)
Theorem password_file_last_entry_wins (lines : list string) (l u h : string)
    (users m : gmap string string) :
  read_password_lines lines users = (m, None) ->
  entry_line l u h ->
  _read_password_file (FileLines (lines ++ [l])) users = (<[u := h]> m, None) /\
  fst (_read_password_file (FileLines (lines ++ [l])) users) !! u = Some h.
Proof.
  intros Hread Hentry. cbn [_read_password_file].
  rewrite read_password_lines_app, Hread, (read_entry_line l u h [] m Hentry).
  cbn. split; [reflexivity | apply lookup_insert_eq].
Qed.

Lemma password_file_last_entry_wins_witness :
  _read_password_file
    (FileLines (sample_password_lines ++ ["  alice:new-hash" +:+ newline])) ∅
    = (<["alice" := "new-hash"]> ({["alice" := "old-hash"]}), None) /\
  fst (_read_password_file
         (FileLines (sample_password_lines ++ ["  alice:new-hash" +:+ newline])) ∅)
    !! "alice" = Some "new-hash".
Proof.
  apply (password_file_last_entry_wins sample_password_lines
           ("  alice:new-hash" +:+ newline) "alice" "new-hash" ∅
           {["alice" := "old-hash"]}).
  - vm_compute. reflexivity.
  - repeat split; try reflexivity. discriminate.
Defined.

(** X29: a line that, once stripped, is neither a comment nor
    contains a colon (a blank line, for instance) ends the reading of the
    password file with [ValueError]: the users read before it are the
    plugin's users, and the lines after it are never read. *)
Theorem password_file_bad_line_aborts (l1 l2 : list string) (bad : string)
    (m : gmap string string) :
  read_password_lines l1 ∅ = (m, None) ->
  String.prefix "#" (PyText.strip bad) = false ->
  PyStr.has_char PyText.colon (PyText.strip bad) = false ->
  _read_password_file (FileLines (l1 ++ bad :: l2)) ∅ = (m, Some ValueError) /\
  plugin_users (FileLines (l1 ++ bad :: l2)) = m.
Proof.
  intros Hread Hc Hn. unfold plugin_users. cbn [_read_password_file].
  rewrite read_password_lines_app, Hread. cbn [read_password_lines].
  rewrite Hc. cbn [negb]. rewrite (split_max_no_sep _ _ _ Hn). auto.
Qed.

Lemma password_file_bad_line_aborts_witness :
  _read_password_file
    (FileLines (sample_password_lines ++ newline :: ["bob:hash" +:+ newline])) ∅
    = ({["alice" := "old-hash"]}, Some ValueError) /\
  plugin_users
    (FileLines (sample_password_lines ++ newline :: ["bob:hash" +:+ newline]))
    = {["alice" := "old-hash"]}.
Proof.
  apply (password_file_bad_line_aborts sample_password_lines
           ["bob:hash" +:+ newline] newline {["alice" := "old-hash"]}).
  - vm_compute. reflexivity.
  - reflexivity.
  - reflexivity.
Defined.

(** X30: a user whose entry line ends a password file that reads
    without error, with a non-empty hash against which the supplied
    password verifies, is authenticated under any client id without ['@']
    by the plugin that read the file. *)
Theorem password_file_user_authenticates {Json : Type} (cfg : Config Json)
    (lines : list string) (l u h pw cid : string) (m : gmap string string)
    (w : World) :
  read_password_lines lines ∅ = (m, None) ->
  entry_line l u h ->
  h <> "" ->
  pwd_verify cfg (Some pw) h = Some true ->
  PyStr.has_char PyStr.at_sign cid = false ->
  exists w',
    authenticate (with_users cfg (plugin_users (FileLines (lines ++ [l]))))
      (mkSession (Some u) (Some pw) cid) w = Ret true w'.
Proof.
  intros Hread Hentry Hh Hv Hat.
  assert (Husers : plugin_users (FileLines (lines ++ [l])) = <[u := h]> m).
  { unfold plugin_users. cbn [_read_password_file].
    by rewrite read_password_lines_app, Hread, (read_entry_line l u h [] m Hentry). }
  rewrite Husers. destruct Hentry as (_ & Hu & _).
  unfold authenticate, authenticate_try, try_except.
  cbn [client_id username password users with_users pwd_verify allow_anonymous].
  mrun. rewrite contains_char. change "@"%char with PyStr.at_sign. rewrite Hat.
  mrun. destruct u as [|c u]; [congruence|]. cbn [truthy_opt from_option PyStr.truthy andb negb].
  mrun. cbn [default from_option]. rewrite lookup_insert_eq. mrun.
  destruct h as [|c' h]; [congruence|]. cbn [PyStr.truthy]. mrun.
  rewrite Hv. mrun. rewrite andb_false_r. eauto.
Qed.

Lemma password_file_user_authenticates_witness :
  exists w',
    authenticate
      (with_users (sample_config false "")
         (plugin_users
            (FileLines (sample_password_lines ++
                        ["alice:hash-of-secret" +:+ newline]))))
      (mkSession (Some "alice") (Some "secret") "alice-phone") empty_world
    = Ret true w'.
Proof.
  apply (password_file_user_authenticates (sample_config false "")
           sample_password_lines ("alice:hash-of-secret" +:+ newline)
           "alice" "hash-of-secret" "secret" "alice-phone"
           {["alice" := "old-hash"]} empty_world).
  - vm_compute. reflexivity.
  - repeat split; try reflexivity. discriminate.
  - discriminate.
  - reflexivity.
  - reflexivity.
Defined.
